(** * An 8086 core: shallow embedding of the CPU execution engine

    The embedding follows the C sources: [bus.c] (the memory bus) and
    [cpu8086.c] (prefetch unit, staged decoder, executor).  C integers are
    [Z] with the wrap-around of their type written out, structures are
    records, [assert] and undefined behaviour are outcomes of a small
    state-and-error monad. *)

From Stdlib Require Import ZArith List Bool Lia.
From Stdlib Require Import String.
Import ListNotations.
Local Open Scope Z_scope.

(** ** C integer conversions *)

Definition u8 (x : Z) : Z := x mod 256.
Definition u16 (x : Z) : Z := x mod 65536.
Definition u32 (x : Z) : Z := x mod 4294967296.

(** [(int8_t)x] and [(int16_t)x]. *)
Definition s8 (x : Z) : Z := let y := u8 x in if y <? 128 then y else y - 256.
Definition s16 (x : Z) : Z := let y := u16 x in if y <? 32768 then y else y - 65536.

(** Conversion of an integer to [bool], and of a [bool] to [int]. *)
Definition to_bool (x : Z) : bool := negb (x =? 0).
Definition of_bool (b : bool) : Z := if b then 1 else 0.

(** ** bus.c *)

Record struct_bus : Type := mkbus {
  memory : Z -> Z;      (* uint8_t* memory *)
  memory_size : Z       (* size_t memory_size *)
}.

(** [bus->memory[i]]: reading or writing outside the allocation is undefined. *)
Definition mem_load (b : struct_bus) (i : Z) : option Z :=
  if (0 <=? i) && (i <? memory_size b) then Some (memory b i) else None.

Definition mem_store (b : struct_bus) (i : Z) (v : Z) : option struct_bus :=
  if (0 <=? i) && (i <? memory_size b)
  then Some (mkbus (fun j => if j =? i then v else memory b j) (memory_size b))
  else None.

Definition bus_read_byte (b : struct_bus) (address : Z) : option Z :=
  mem_load b (Z.land address 0xFFFFF).

Definition bus_read_short (b : struct_bus) (address : Z) : option Z :=
  match mem_load b (Z.land address 0xFFFFF),
        mem_load b (Z.land (address + 1) 0xFFFFF) with
  | Some lo, Some hi => Some (u16 (Z.lor lo (Z.shiftl hi 8)))
  | _, _ => None
  end.

Definition bus_write_byte (b : struct_bus) (address : Z) (data : Z) : option struct_bus :=
  mem_store b (Z.land address 0xFFFFF) (u8 data).

Definition bus_write_short (b : struct_bus) (address : Z) (data : Z) : option struct_bus :=
  let data := u16 data in
  match mem_store b (Z.land address 0xFFFFF) (Z.land data 0xFF) with
  | Some b' => mem_store b' (Z.land (address + 1) 0xFFFFF) (u8 (Z.shiftr data 8))
  | None => None
  end.

(** ** cpu8086.h *)

Definition AX : Z := 0.
Definition CX : Z := 1.
Definition DX : Z := 2.
Definition BX : Z := 3.
Definition SP : Z := 4.
Definition BP : Z := 5.
Definition SI : Z := 6.
Definition DI : Z := 7.
Definition ES : Z := 8.
Definition CS : Z := 9.
Definition SS : Z := 10.
Definition DS : Z := 11.
Definition REGISTER_COUNT : Z := 12.

Definition FLAG_CARRY : Z := Z.shiftl 1 0.
Definition FLAG_PARITY : Z := Z.shiftl 1 2.
Definition FLAG_AUXILIARY : Z := Z.shiftl 1 4.
Definition FLAG_ZERO : Z := Z.shiftl 1 6.
Definition FLAG_SIGN : Z := Z.shiftl 1 7.
Definition FLAG_TRAP : Z := Z.shiftl 1 8.
Definition FLAG_INTENABLE : Z := Z.shiftl 1 9.
Definition FLAG_DIRECTION : Z := Z.shiftl 1 10.
Definition FLAG_OVERFLOW : Z := Z.shiftl 1 11.

Definition REG_FIELD : Z := 3.

Definition MOD_INDIRECT : Z := 0.
Definition MOD_DISP8 : Z := 1.
Definition MOD_DISP16 : Z := 2.
Definition MOD_REG : Z := 3.

Definition PREFIX_G1_NONE : Z := 0x00.
Definition PREFIX_G1_LOCK : Z := 0xF0.
Definition PREFIX_G1_REPNZ : Z := 0xF2.
Definition PREFIX_G1_REPZ : Z := 0xF3.

Definition PREFIX_G2_NONE : Z := 0x00.
Definition PREFIX_G2_ES : Z := 0x26.
Definition PREFIX_G2_CS : Z := 0x2E.
Definition PREFIX_G2_SS : Z := 0x36.
Definition PREFIX_G2_DS : Z := 0x3E.

Definition OPCODE_NONE : Z := 0xFFFF.
Definition MODRM_NONE : Z := 0xFFFF.
Definition DISP8_NONE : Z := 0xFFFF.
Definition DISP16_NONE : Z := 0xFFFF.
Definition IMM8_NONE : Z := 0xFFFF.
Definition IMM16_NONE : Z := 0xFFFF.

(** Modelled from the spec: the sentinels of the two segment bytes of a far
    pointer.  The header that declares them is not among the sources; the
    data model says each scratch byte is "initialized to a sentinel distinct
    from any byte value", as the other [_NONE] constants of the header are. *)
Definition LO_SEGMENT_NONE : Z := 0xFFFF.
Definition HI_SEGMENT_NONE : Z := 0xFFFF.

(** Modelled from the spec: the width of the [immediate] field.  The decoder
    shifts a byte into bits 24..31 of it and the data model calls the far
    pointer "the packed 32-bit segment:offset". *)
Definition immediate_width : Z := 32.

(** Conversion to the type of [immediate]. *)
Definition to_immediate (x : Z) : Z := x mod 2 ^ immediate_width.

(** Modelled from the spec: the stages of the decoder, READY, FETCH_MODRM,
    FETCH_IMM, FETCH_ADDRESS, DECODE_LOC, EXECUTING.  The header at hand
    is that of an earlier version; cpu8086.c switches over these six. *)
Inductive cpu8086_stage : Type :=
| CPU8086_READY
| CPU8086_FETCH_MODRM
| CPU8086_FETCH_IMM
| CPU8086_FETCH_ADDRESS
| CPU8086_DECODE_LOC
| CPU8086_EXECUTING.

(** Modelled from the spec: the categories of an operand location,
    ACCUMULATOR, REGISTER, SEGREG, MEMORY, IMMEDIATE, STRING, NULL.  The
    handlers only compare them, in switches on the pair
    [(destination.type << 3) | source.type], so their numbering plays no
    part as long as it stays below 8. *)
Inductive location_type : Type :=
| DECODED_ACCUMULATOR
| DECODED_REGISTER
| DECODED_SEGREG
| DECODED_MEMORY
| DECODED_IMMEDIATE
| DECODED_STRING
| DECODED_NULL.

(** A [uintptr_t] of the CPU state holds either a number (a physical address,
    or whatever an earlier instruction left there) or a host pointer into
    the CPU structure itself.  Host pointers are kept symbolic: a byte
    offset from [&cpu->ax], or a byte offset from [&cpu->immediate]. *)
Inductive uintptr : Type :=
| Num (n : Z)
| RegPtr (off : Z)
| ImmPtr (off : Z).

Definition uintptr_add (p : uintptr) (k : Z) : uintptr :=
  match p with
  | Num n => Num (n + k)
  | RegPtr off => RegPtr (off + k)
  | ImmPtr off => ImmPtr (off + k)
  end.

Record location : Type := mkloc {
  loc_type : location_type;   (* type *)
  address : uintptr;
  virtual : bool
}.

(** Modelled from the spec: the fields [lo_segment], [hi_segment], [repeat]
    and [test] of the structure, which cpu8086.c reads and writes and the
    header at hand does not declare yet (data model: "seg-offset low/high
    bytes", "repeat flag"; WAIT: "the (modeled) TEST input").  The other
    fields are those of the header, in its order. *)

Record cpu8086 : Type := mkcpu {
  bus : struct_bus;  (* struct bus* bus: the memory the CPU is attached to *)
  regs : Z -> Z;  (* ax, cx, dx, bx, sp, bp, si, di, es, cs, ss, ds: byte at offset i from &cpu->ax *)
  ip : Z;  (* uint16_t *)
  flags : Z;  (* uint16_t *)
  q : list Z;  (* uint16_t q[3] *)
  q_r : Z;  (* uint8_t : 2 *)
  q_w : Z;  (* uint8_t : 2 *)
  hl : bool;  (* uint8_t : 1 *)
  mt : bool;  (* uint8_t : 1, is the queue empty? *)
  current_ip : Z;  (* uint16_t *)
  cycles : Z;  (* uint8_t *)
  biu_prefetch_cycles : Z;  (* uint8_t *)
  prefix_g1 : Z;  (* uint8_t *)
  prefix_g2 : Z;  (* uint8_t *)
  opcode_byte : Z;  (* uint16_t *)
  disp8_byte : Z;  (* uint16_t *)
  disp16_byte : Z;  (* uint16_t *)
  imm8_byte : Z;  (* uint16_t *)
  imm16_byte : Z;  (* uint16_t *)
  lo_segment : Z;  (* see LO_SEGMENT_NONE *)
  hi_segment : Z;  (* see HI_SEGMENT_NONE *)
  immediate : Z;  (* see immediate_width *)
  rm : uintptr;  (* uintptr_t *)
  reg : uintptr;  (* uintptr_t *)
  stage : cpu8086_stage;
  modrm_byte : Z;  (* union { fields; uint16_t value } *)
  destination : location;
  source : location;
  modrm_is_segreg : bool;
  repeat : bool;  (* set by REPZ/REPNZ *)
  test : bool  (* the TEST input read by WAIT *)
}.

Definition set_bus (v : struct_bus) (c : cpu8086) : cpu8086 :=
  mkcpu v (regs c) (ip c) (flags c) (q c) (q_r c) (q_w c) (hl c) (mt c)
      (current_ip c) (cycles c) (biu_prefetch_cycles c) (prefix_g1 c)
      (prefix_g2 c) (opcode_byte c) (disp8_byte c) (disp16_byte c) (imm8_byte
      c) (imm16_byte c) (lo_segment c) (hi_segment c) (immediate c) (rm c)
      (reg c) (stage c) (modrm_byte c) (destination c) (source c)
      (modrm_is_segreg c) (repeat c) (test c).
Definition set_regs (v : Z -> Z) (c : cpu8086) : cpu8086 :=
  mkcpu (bus c) v (ip c) (flags c) (q c) (q_r c) (q_w c) (hl c) (mt c)
      (current_ip c) (cycles c) (biu_prefetch_cycles c) (prefix_g1 c)
      (prefix_g2 c) (opcode_byte c) (disp8_byte c) (disp16_byte c) (imm8_byte
      c) (imm16_byte c) (lo_segment c) (hi_segment c) (immediate c) (rm c)
      (reg c) (stage c) (modrm_byte c) (destination c) (source c)
      (modrm_is_segreg c) (repeat c) (test c).
Definition set_ip (v : Z) (c : cpu8086) : cpu8086 :=
  mkcpu (bus c) (regs c) v (flags c) (q c) (q_r c) (q_w c) (hl c) (mt c)
      (current_ip c) (cycles c) (biu_prefetch_cycles c) (prefix_g1 c)
      (prefix_g2 c) (opcode_byte c) (disp8_byte c) (disp16_byte c) (imm8_byte
      c) (imm16_byte c) (lo_segment c) (hi_segment c) (immediate c) (rm c)
      (reg c) (stage c) (modrm_byte c) (destination c) (source c)
      (modrm_is_segreg c) (repeat c) (test c).
Definition set_flags (v : Z) (c : cpu8086) : cpu8086 :=
  mkcpu (bus c) (regs c) (ip c) v (q c) (q_r c) (q_w c) (hl c) (mt c)
      (current_ip c) (cycles c) (biu_prefetch_cycles c) (prefix_g1 c)
      (prefix_g2 c) (opcode_byte c) (disp8_byte c) (disp16_byte c) (imm8_byte
      c) (imm16_byte c) (lo_segment c) (hi_segment c) (immediate c) (rm c)
      (reg c) (stage c) (modrm_byte c) (destination c) (source c)
      (modrm_is_segreg c) (repeat c) (test c).
Definition set_q (v : list Z) (c : cpu8086) : cpu8086 :=
  mkcpu (bus c) (regs c) (ip c) (flags c) v (q_r c) (q_w c) (hl c) (mt c)
      (current_ip c) (cycles c) (biu_prefetch_cycles c) (prefix_g1 c)
      (prefix_g2 c) (opcode_byte c) (disp8_byte c) (disp16_byte c) (imm8_byte
      c) (imm16_byte c) (lo_segment c) (hi_segment c) (immediate c) (rm c)
      (reg c) (stage c) (modrm_byte c) (destination c) (source c)
      (modrm_is_segreg c) (repeat c) (test c).
Definition set_q_r (v : Z) (c : cpu8086) : cpu8086 :=
  mkcpu (bus c) (regs c) (ip c) (flags c) (q c) v (q_w c) (hl c) (mt c)
      (current_ip c) (cycles c) (biu_prefetch_cycles c) (prefix_g1 c)
      (prefix_g2 c) (opcode_byte c) (disp8_byte c) (disp16_byte c) (imm8_byte
      c) (imm16_byte c) (lo_segment c) (hi_segment c) (immediate c) (rm c)
      (reg c) (stage c) (modrm_byte c) (destination c) (source c)
      (modrm_is_segreg c) (repeat c) (test c).
Definition set_q_w (v : Z) (c : cpu8086) : cpu8086 :=
  mkcpu (bus c) (regs c) (ip c) (flags c) (q c) (q_r c) v (hl c) (mt c)
      (current_ip c) (cycles c) (biu_prefetch_cycles c) (prefix_g1 c)
      (prefix_g2 c) (opcode_byte c) (disp8_byte c) (disp16_byte c) (imm8_byte
      c) (imm16_byte c) (lo_segment c) (hi_segment c) (immediate c) (rm c)
      (reg c) (stage c) (modrm_byte c) (destination c) (source c)
      (modrm_is_segreg c) (repeat c) (test c).
Definition set_hl (v : bool) (c : cpu8086) : cpu8086 :=
  mkcpu (bus c) (regs c) (ip c) (flags c) (q c) (q_r c) (q_w c) v (mt c)
      (current_ip c) (cycles c) (biu_prefetch_cycles c) (prefix_g1 c)
      (prefix_g2 c) (opcode_byte c) (disp8_byte c) (disp16_byte c) (imm8_byte
      c) (imm16_byte c) (lo_segment c) (hi_segment c) (immediate c) (rm c)
      (reg c) (stage c) (modrm_byte c) (destination c) (source c)
      (modrm_is_segreg c) (repeat c) (test c).
Definition set_mt (v : bool) (c : cpu8086) : cpu8086 :=
  mkcpu (bus c) (regs c) (ip c) (flags c) (q c) (q_r c) (q_w c) (hl c) v
      (current_ip c) (cycles c) (biu_prefetch_cycles c) (prefix_g1 c)
      (prefix_g2 c) (opcode_byte c) (disp8_byte c) (disp16_byte c) (imm8_byte
      c) (imm16_byte c) (lo_segment c) (hi_segment c) (immediate c) (rm c)
      (reg c) (stage c) (modrm_byte c) (destination c) (source c)
      (modrm_is_segreg c) (repeat c) (test c).
Definition set_current_ip (v : Z) (c : cpu8086) : cpu8086 :=
  mkcpu (bus c) (regs c) (ip c) (flags c) (q c) (q_r c) (q_w c) (hl c) (mt c)
      v (cycles c) (biu_prefetch_cycles c) (prefix_g1 c) (prefix_g2 c)
      (opcode_byte c) (disp8_byte c) (disp16_byte c) (imm8_byte c) (imm16_byte
      c) (lo_segment c) (hi_segment c) (immediate c) (rm c) (reg c) (stage c)
      (modrm_byte c) (destination c) (source c) (modrm_is_segreg c) (repeat c)
      (test c).
Definition set_cycles (v : Z) (c : cpu8086) : cpu8086 :=
  mkcpu (bus c) (regs c) (ip c) (flags c) (q c) (q_r c) (q_w c) (hl c) (mt c)
      (current_ip c) v (biu_prefetch_cycles c) (prefix_g1 c) (prefix_g2 c)
      (opcode_byte c) (disp8_byte c) (disp16_byte c) (imm8_byte c) (imm16_byte
      c) (lo_segment c) (hi_segment c) (immediate c) (rm c) (reg c) (stage c)
      (modrm_byte c) (destination c) (source c) (modrm_is_segreg c) (repeat c)
      (test c).
Definition set_biu_prefetch_cycles (v : Z) (c : cpu8086) : cpu8086 :=
  mkcpu (bus c) (regs c) (ip c) (flags c) (q c) (q_r c) (q_w c) (hl c) (mt c)
      (current_ip c) (cycles c) v (prefix_g1 c) (prefix_g2 c) (opcode_byte c)
      (disp8_byte c) (disp16_byte c) (imm8_byte c) (imm16_byte c) (lo_segment
      c) (hi_segment c) (immediate c) (rm c) (reg c) (stage c) (modrm_byte c)
      (destination c) (source c) (modrm_is_segreg c) (repeat c) (test c).
Definition set_prefix_g1 (v : Z) (c : cpu8086) : cpu8086 :=
  mkcpu (bus c) (regs c) (ip c) (flags c) (q c) (q_r c) (q_w c) (hl c) (mt c)
      (current_ip c) (cycles c) (biu_prefetch_cycles c) v (prefix_g2 c)
      (opcode_byte c) (disp8_byte c) (disp16_byte c) (imm8_byte c) (imm16_byte
      c) (lo_segment c) (hi_segment c) (immediate c) (rm c) (reg c) (stage c)
      (modrm_byte c) (destination c) (source c) (modrm_is_segreg c) (repeat c)
      (test c).
Definition set_prefix_g2 (v : Z) (c : cpu8086) : cpu8086 :=
  mkcpu (bus c) (regs c) (ip c) (flags c) (q c) (q_r c) (q_w c) (hl c) (mt c)
      (current_ip c) (cycles c) (biu_prefetch_cycles c) (prefix_g1 c) v
      (opcode_byte c) (disp8_byte c) (disp16_byte c) (imm8_byte c) (imm16_byte
      c) (lo_segment c) (hi_segment c) (immediate c) (rm c) (reg c) (stage c)
      (modrm_byte c) (destination c) (source c) (modrm_is_segreg c) (repeat c)
      (test c).
Definition set_opcode_byte (v : Z) (c : cpu8086) : cpu8086 :=
  mkcpu (bus c) (regs c) (ip c) (flags c) (q c) (q_r c) (q_w c) (hl c) (mt c)
      (current_ip c) (cycles c) (biu_prefetch_cycles c) (prefix_g1 c)
      (prefix_g2 c) v (disp8_byte c) (disp16_byte c) (imm8_byte c) (imm16_byte
      c) (lo_segment c) (hi_segment c) (immediate c) (rm c) (reg c) (stage c)
      (modrm_byte c) (destination c) (source c) (modrm_is_segreg c) (repeat c)
      (test c).
Definition set_disp8_byte (v : Z) (c : cpu8086) : cpu8086 :=
  mkcpu (bus c) (regs c) (ip c) (flags c) (q c) (q_r c) (q_w c) (hl c) (mt c)
      (current_ip c) (cycles c) (biu_prefetch_cycles c) (prefix_g1 c)
      (prefix_g2 c) (opcode_byte c) v (disp16_byte c) (imm8_byte c)
      (imm16_byte c) (lo_segment c) (hi_segment c) (immediate c) (rm c) (reg
      c) (stage c) (modrm_byte c) (destination c) (source c) (modrm_is_segreg
      c) (repeat c) (test c).
Definition set_disp16_byte (v : Z) (c : cpu8086) : cpu8086 :=
  mkcpu (bus c) (regs c) (ip c) (flags c) (q c) (q_r c) (q_w c) (hl c) (mt c)
      (current_ip c) (cycles c) (biu_prefetch_cycles c) (prefix_g1 c)
      (prefix_g2 c) (opcode_byte c) (disp8_byte c) v (imm8_byte c) (imm16_byte
      c) (lo_segment c) (hi_segment c) (immediate c) (rm c) (reg c) (stage c)
      (modrm_byte c) (destination c) (source c) (modrm_is_segreg c) (repeat c)
      (test c).
Definition set_imm8_byte (v : Z) (c : cpu8086) : cpu8086 :=
  mkcpu (bus c) (regs c) (ip c) (flags c) (q c) (q_r c) (q_w c) (hl c) (mt c)
      (current_ip c) (cycles c) (biu_prefetch_cycles c) (prefix_g1 c)
      (prefix_g2 c) (opcode_byte c) (disp8_byte c) (disp16_byte c) v
      (imm16_byte c) (lo_segment c) (hi_segment c) (immediate c) (rm c) (reg
      c) (stage c) (modrm_byte c) (destination c) (source c) (modrm_is_segreg
      c) (repeat c) (test c).
Definition set_imm16_byte (v : Z) (c : cpu8086) : cpu8086 :=
  mkcpu (bus c) (regs c) (ip c) (flags c) (q c) (q_r c) (q_w c) (hl c) (mt c)
      (current_ip c) (cycles c) (biu_prefetch_cycles c) (prefix_g1 c)
      (prefix_g2 c) (opcode_byte c) (disp8_byte c) (disp16_byte c) (imm8_byte
      c) v (lo_segment c) (hi_segment c) (immediate c) (rm c) (reg c) (stage
      c) (modrm_byte c) (destination c) (source c) (modrm_is_segreg c) (repeat
      c) (test c).
Definition set_lo_segment (v : Z) (c : cpu8086) : cpu8086 :=
  mkcpu (bus c) (regs c) (ip c) (flags c) (q c) (q_r c) (q_w c) (hl c) (mt c)
      (current_ip c) (cycles c) (biu_prefetch_cycles c) (prefix_g1 c)
      (prefix_g2 c) (opcode_byte c) (disp8_byte c) (disp16_byte c) (imm8_byte
      c) (imm16_byte c) v (hi_segment c) (immediate c) (rm c) (reg c) (stage
      c) (modrm_byte c) (destination c) (source c) (modrm_is_segreg c) (repeat
      c) (test c).
Definition set_hi_segment (v : Z) (c : cpu8086) : cpu8086 :=
  mkcpu (bus c) (regs c) (ip c) (flags c) (q c) (q_r c) (q_w c) (hl c) (mt c)
      (current_ip c) (cycles c) (biu_prefetch_cycles c) (prefix_g1 c)
      (prefix_g2 c) (opcode_byte c) (disp8_byte c) (disp16_byte c) (imm8_byte
      c) (imm16_byte c) (lo_segment c) v (immediate c) (rm c) (reg c) (stage
      c) (modrm_byte c) (destination c) (source c) (modrm_is_segreg c) (repeat
      c) (test c).
Definition set_immediate (v : Z) (c : cpu8086) : cpu8086 :=
  mkcpu (bus c) (regs c) (ip c) (flags c) (q c) (q_r c) (q_w c) (hl c) (mt c)
      (current_ip c) (cycles c) (biu_prefetch_cycles c) (prefix_g1 c)
      (prefix_g2 c) (opcode_byte c) (disp8_byte c) (disp16_byte c) (imm8_byte
      c) (imm16_byte c) (lo_segment c) (hi_segment c) v (rm c) (reg c) (stage
      c) (modrm_byte c) (destination c) (source c) (modrm_is_segreg c) (repeat
      c) (test c).
Definition set_rm (v : uintptr) (c : cpu8086) : cpu8086 :=
  mkcpu (bus c) (regs c) (ip c) (flags c) (q c) (q_r c) (q_w c) (hl c) (mt c)
      (current_ip c) (cycles c) (biu_prefetch_cycles c) (prefix_g1 c)
      (prefix_g2 c) (opcode_byte c) (disp8_byte c) (disp16_byte c) (imm8_byte
      c) (imm16_byte c) (lo_segment c) (hi_segment c) (immediate c) v (reg c)
      (stage c) (modrm_byte c) (destination c) (source c) (modrm_is_segreg c)
      (repeat c) (test c).
Definition set_reg (v : uintptr) (c : cpu8086) : cpu8086 :=
  mkcpu (bus c) (regs c) (ip c) (flags c) (q c) (q_r c) (q_w c) (hl c) (mt c)
      (current_ip c) (cycles c) (biu_prefetch_cycles c) (prefix_g1 c)
      (prefix_g2 c) (opcode_byte c) (disp8_byte c) (disp16_byte c) (imm8_byte
      c) (imm16_byte c) (lo_segment c) (hi_segment c) (immediate c) (rm c) v
      (stage c) (modrm_byte c) (destination c) (source c) (modrm_is_segreg c)
      (repeat c) (test c).
Definition set_stage (v : cpu8086_stage) (c : cpu8086) : cpu8086 :=
  mkcpu (bus c) (regs c) (ip c) (flags c) (q c) (q_r c) (q_w c) (hl c) (mt c)
      (current_ip c) (cycles c) (biu_prefetch_cycles c) (prefix_g1 c)
      (prefix_g2 c) (opcode_byte c) (disp8_byte c) (disp16_byte c) (imm8_byte
      c) (imm16_byte c) (lo_segment c) (hi_segment c) (immediate c) (rm c)
      (reg c) v (modrm_byte c) (destination c) (source c) (modrm_is_segreg c)
      (repeat c) (test c).
Definition set_modrm_byte (v : Z) (c : cpu8086) : cpu8086 :=
  mkcpu (bus c) (regs c) (ip c) (flags c) (q c) (q_r c) (q_w c) (hl c) (mt c)
      (current_ip c) (cycles c) (biu_prefetch_cycles c) (prefix_g1 c)
      (prefix_g2 c) (opcode_byte c) (disp8_byte c) (disp16_byte c) (imm8_byte
      c) (imm16_byte c) (lo_segment c) (hi_segment c) (immediate c) (rm c)
      (reg c) (stage c) v (destination c) (source c) (modrm_is_segreg c)
      (repeat c) (test c).
Definition set_destination (v : location) (c : cpu8086) : cpu8086 :=
  mkcpu (bus c) (regs c) (ip c) (flags c) (q c) (q_r c) (q_w c) (hl c) (mt c)
      (current_ip c) (cycles c) (biu_prefetch_cycles c) (prefix_g1 c)
      (prefix_g2 c) (opcode_byte c) (disp8_byte c) (disp16_byte c) (imm8_byte
      c) (imm16_byte c) (lo_segment c) (hi_segment c) (immediate c) (rm c)
      (reg c) (stage c) (modrm_byte c) v (source c) (modrm_is_segreg c)
      (repeat c) (test c).
Definition set_source (v : location) (c : cpu8086) : cpu8086 :=
  mkcpu (bus c) (regs c) (ip c) (flags c) (q c) (q_r c) (q_w c) (hl c) (mt c)
      (current_ip c) (cycles c) (biu_prefetch_cycles c) (prefix_g1 c)
      (prefix_g2 c) (opcode_byte c) (disp8_byte c) (disp16_byte c) (imm8_byte
      c) (imm16_byte c) (lo_segment c) (hi_segment c) (immediate c) (rm c)
      (reg c) (stage c) (modrm_byte c) (destination c) v (modrm_is_segreg c)
      (repeat c) (test c).
Definition set_modrm_is_segreg (v : bool) (c : cpu8086) : cpu8086 :=
  mkcpu (bus c) (regs c) (ip c) (flags c) (q c) (q_r c) (q_w c) (hl c) (mt c)
      (current_ip c) (cycles c) (biu_prefetch_cycles c) (prefix_g1 c)
      (prefix_g2 c) (opcode_byte c) (disp8_byte c) (disp16_byte c) (imm8_byte
      c) (imm16_byte c) (lo_segment c) (hi_segment c) (immediate c) (rm c)
      (reg c) (stage c) (modrm_byte c) (destination c) (source c) v (repeat c)
      (test c).
Definition set_repeat (v : bool) (c : cpu8086) : cpu8086 :=
  mkcpu (bus c) (regs c) (ip c) (flags c) (q c) (q_r c) (q_w c) (hl c) (mt c)
      (current_ip c) (cycles c) (biu_prefetch_cycles c) (prefix_g1 c)
      (prefix_g2 c) (opcode_byte c) (disp8_byte c) (disp16_byte c) (imm8_byte
      c) (imm16_byte c) (lo_segment c) (hi_segment c) (immediate c) (rm c)
      (reg c) (stage c) (modrm_byte c) (destination c) (source c)
      (modrm_is_segreg c) v (test c).
Definition set_test (v : bool) (c : cpu8086) : cpu8086 :=
  mkcpu (bus c) (regs c) (ip c) (flags c) (q c) (q_r c) (q_w c) (hl c) (mt c)
      (current_ip c) (cycles c) (biu_prefetch_cycles c) (prefix_g1 c)
      (prefix_g2 c) (opcode_byte c) (disp8_byte c) (disp16_byte c) (imm8_byte
      c) (imm16_byte c) (lo_segment c) (hi_segment c) (immediate c) (rm c)
      (reg c) (stage c) (modrm_byte c) (destination c) (source c)
      (modrm_is_segreg c) (repeat c) v.

(** ** cpu8086.c: opcode descriptors *)

Definition mask_buffer (is_word : bool) : Z := if is_word then 0xFFFF else 0xFF.
Definition sign_bit (is_word : bool) : Z := if is_word then 15 else 7.

(** The parity table is spelled with the macros of the source:
    [P2(n) = n, n^1, n^1, n], and so on. *)
Definition P2 (n : bool) : list bool := [n; negb n; negb n; n].
Definition P4 (n : bool) : list bool := P2 n ++ P2 (negb n) ++ P2 (negb n) ++ P2 n.
Definition P6 (n : bool) : list bool := P4 n ++ P4 (negb n) ++ P4 (negb n) ++ P4 n.

Definition parity_table : list bool := P6 true ++ P6 false ++ P6 false ++ P6 true.

(** [parity_table[i]] for an index that [& 0xFF] keeps inside the table. *)
Definition parity_at (i : Z) : bool := nth (Z.to_nat i) parity_table false.

Definition calculate_parity (value : Z) (is_word : bool) : bool :=
  if is_word
  then xorb (parity_at (Z.land value 0xFF)) (parity_at (Z.land (Z.shiftr value 8) 0xFF))
  else parity_at (Z.land value 0xFF).

Inductive opcode_location : Type :=
(* reg16 *)
| LOC_AX | LOC_CX | LOC_DX | LOC_BX | LOC_SP | LOC_BP | LOC_SI | LOC_DI
| LOC_ES | LOC_CS | LOC_SS | LOC_DS
(* reg8 *)
| LOC_AL | LOC_CL | LOC_DL | LOC_BL | LOC_AH | LOC_CH | LOC_DH | LOC_BH
(* immed *)
| LOC_IMM | LOC_IMM8
(* ModRM *)
| LOC_RM | LOC_REG | LOC_SREG
(* address *)
| LOC_ADDR | LOC_SEGOFF
(* string *)
| LOC_STRSRC | LOC_STRDST
| LOC_NULL.

(** The value of an enumerator, as in [(unsigned)type]. *)
Definition loc_value (l : opcode_location) : Z :=
  match l with
  | LOC_AX => 0 | LOC_CX => 1 | LOC_DX => 2 | LOC_BX => 3
  | LOC_SP => 4 | LOC_BP => 5 | LOC_SI => 6 | LOC_DI => 7
  | LOC_ES => 8 | LOC_CS => 9 | LOC_SS => 10 | LOC_DS => 11
  | LOC_AL => 12 | LOC_CL => 13 | LOC_DL => 14 | LOC_BL => 15
  | LOC_AH => 16 | LOC_CH => 17 | LOC_DH => 18 | LOC_BH => 19
  | LOC_IMM => 20 | LOC_IMM8 => 21
  | LOC_RM => 22 | LOC_REG => 23 | LOC_SREG => 24
  | LOC_ADDR => 25 | LOC_SEGOFF => 26
  | LOC_STRSRC => 27 | LOC_STRDST => 28
  | LOC_NULL => 29
  end.

Definition loc_eqb (a b : opcode_location) : bool := loc_value a =? loc_value b.

(** The handlers a table entry can point to ([NULL] is [None] in the table). *)
Inductive op_func : Type :=
| op_aaa_fn | op_aas_fn | op_adc_fn | op_add_fn | op_and_fn | op_callfar_fn
| op_cbw_fn | op_cmp_fn | op_cwd_fn | op_daa_fn | op_das_fn | op_dec_fn
| op_imm_fn | op_inc_fn | op_ja_fn | op_jae_fn | op_jb_fn | op_jbe_fn
| op_je_fn | op_jg_fn | op_jge_fn | op_jl_fn | op_jle_fn | op_jne_fn
| op_jno_fn | op_jnp_fn | op_jns_fn | op_jo_fn | op_jp_fn | op_js_fn
| op_lahf_fn | op_lea_fn | op_lds_fn | op_les_fn | op_mov_fn | op_or_fn
| op_pop_fn | op_popf_fn | op_push_fn | op_pushf_fn | op_retnear_fn
| op_retfar_fn | op_sahf_fn | op_sbb_fn | op_sub_fn | op_test_fn
| op_wait_fn | op_xchg_fn | op_xor_fn.

Record opcode : Type := mkop {
  op_name : string;                   (* name *)
  op_destination : opcode_location;   (* destination *)
  op_source : opcode_location;        (* source *)
  is_word : bool;
  is_string : bool;
  func : option op_func
}.

Local Open Scope string_scope.

(** Root opcode table. *)
Definition op_table : list opcode :=
  (* 0x00 to 0x0F *)
  [ mkop "ADD" LOC_RM LOC_REG false false (Some op_add_fn)
  ; mkop "ADD" LOC_RM LOC_REG true false (Some op_add_fn)
  ; mkop "ADD" LOC_REG LOC_RM false false (Some op_add_fn)
  ; mkop "ADD" LOC_REG LOC_RM true false (Some op_add_fn)
  ; mkop "ADD" LOC_AL LOC_IMM false false (Some op_add_fn)
  ; mkop "ADD" LOC_AX LOC_IMM true false (Some op_add_fn)
  ; mkop "PUSH" LOC_ES LOC_NULL true false (Some op_push_fn)
  ; mkop "POP" LOC_ES LOC_NULL true false (Some op_pop_fn)
  ; mkop "OR" LOC_RM LOC_REG false false (Some op_or_fn)
  ; mkop "OR" LOC_RM LOC_REG true false (Some op_or_fn)
  ; mkop "OR" LOC_REG LOC_RM false false (Some op_or_fn)
  ; mkop "OR" LOC_REG LOC_RM true false (Some op_or_fn)
  ; mkop "OR" LOC_AL LOC_IMM false false (Some op_or_fn)
  ; mkop "OR" LOC_AX LOC_IMM true false (Some op_or_fn)
  ; mkop "PUSH" LOC_CS LOC_NULL true false (Some op_push_fn)
  ; mkop "ILLEG." LOC_NULL LOC_NULL true false None
  (* 0x10 to 0x1F *)
  ; mkop "ADC" LOC_RM LOC_REG false false (Some op_adc_fn)
  ; mkop "ADC" LOC_RM LOC_REG true false (Some op_adc_fn)
  ; mkop "ADC" LOC_REG LOC_RM false false (Some op_adc_fn)
  ; mkop "ADC" LOC_REG LOC_RM true false (Some op_adc_fn)
  ; mkop "ADC" LOC_AL LOC_IMM false false (Some op_adc_fn)
  ; mkop "ADC" LOC_AX LOC_IMM true false (Some op_adc_fn)
  ; mkop "PUSH" LOC_SS LOC_NULL true false (Some op_push_fn)
  ; mkop "POP" LOC_SS LOC_NULL true false (Some op_pop_fn)
  ; mkop "SBB" LOC_RM LOC_REG false false (Some op_sbb_fn)
  ; mkop "SBB" LOC_RM LOC_REG true false (Some op_sbb_fn)
  ; mkop "SBB" LOC_REG LOC_RM false false (Some op_sbb_fn)
  ; mkop "SBB" LOC_REG LOC_RM true false (Some op_sbb_fn)
  ; mkop "SBB" LOC_AL LOC_IMM false false (Some op_sbb_fn)
  ; mkop "SBB" LOC_AX LOC_IMM true false (Some op_sbb_fn)
  ; mkop "PUSH" LOC_DS LOC_NULL true false (Some op_push_fn)
  ; mkop "POP" LOC_DS LOC_NULL true false (Some op_pop_fn)
  (* 0x20 to 0x2F *)
  ; mkop "AND" LOC_RM LOC_REG false false (Some op_and_fn)
  ; mkop "AND" LOC_RM LOC_REG true false (Some op_and_fn)
  ; mkop "AND" LOC_REG LOC_RM false false (Some op_and_fn)
  ; mkop "AND" LOC_REG LOC_RM true false (Some op_and_fn)
  ; mkop "AND" LOC_AL LOC_IMM false false (Some op_and_fn)
  ; mkop "AND" LOC_AX LOC_IMM true false (Some op_and_fn)
  ; mkop "ES:" LOC_NULL LOC_NULL false false None
  ; mkop "DAA" LOC_NULL LOC_NULL false false (Some op_daa_fn)
  ; mkop "SUB" LOC_RM LOC_REG false false (Some op_sub_fn)
  ; mkop "SUB" LOC_RM LOC_REG true false (Some op_sub_fn)
  ; mkop "SUB" LOC_REG LOC_RM false false (Some op_sub_fn)
  ; mkop "SUB" LOC_REG LOC_RM true false (Some op_sub_fn)
  ; mkop "SUB" LOC_AL LOC_IMM false false (Some op_sub_fn)
  ; mkop "SUB" LOC_AX LOC_IMM true false (Some op_sub_fn)
  ; mkop "CS:" LOC_NULL LOC_NULL false false None
  ; mkop "DAS" LOC_NULL LOC_NULL false false (Some op_das_fn)
  (* 0x30 to 0x3F *)
  ; mkop "XOR" LOC_RM LOC_REG false false (Some op_xor_fn)
  ; mkop "XOR" LOC_RM LOC_REG true false (Some op_xor_fn)
  ; mkop "XOR" LOC_REG LOC_RM false false (Some op_xor_fn)
  ; mkop "XOR" LOC_REG LOC_RM true false (Some op_xor_fn)
  ; mkop "XOR" LOC_AL LOC_IMM false false (Some op_xor_fn)
  ; mkop "XOR" LOC_AX LOC_IMM true false (Some op_xor_fn)
  ; mkop "SS:" LOC_NULL LOC_NULL false false None
  ; mkop "AAA" LOC_NULL LOC_NULL false false (Some op_aaa_fn)
  ; mkop "CMP" LOC_RM LOC_REG false false (Some op_cmp_fn)
  ; mkop "CMP" LOC_RM LOC_REG true false (Some op_cmp_fn)
  ; mkop "CMP" LOC_REG LOC_RM false false (Some op_cmp_fn)
  ; mkop "CMP" LOC_REG LOC_RM true false (Some op_cmp_fn)
  ; mkop "CMP" LOC_AL LOC_IMM false false (Some op_cmp_fn)
  ; mkop "CMP" LOC_AX LOC_IMM true false (Some op_cmp_fn)
  ; mkop "DS:" LOC_NULL LOC_NULL false false None
  ; mkop "AAS" LOC_NULL LOC_NULL false false (Some op_aas_fn)
  (* 0x40 to 0x4F *)
  ; mkop "INC" LOC_AX LOC_NULL true false (Some op_inc_fn)
  ; mkop "INC" LOC_CX LOC_NULL true false (Some op_inc_fn)
  ; mkop "INC" LOC_DX LOC_NULL true false (Some op_inc_fn)
  ; mkop "INC" LOC_BX LOC_NULL true false (Some op_inc_fn)
  ; mkop "INC" LOC_SP LOC_NULL true false (Some op_inc_fn)
  ; mkop "INC" LOC_BP LOC_NULL true false (Some op_inc_fn)
  ; mkop "INC" LOC_SI LOC_NULL true false (Some op_inc_fn)
  ; mkop "INC" LOC_DI LOC_NULL true false (Some op_inc_fn)
  ; mkop "DEC" LOC_AX LOC_NULL true false (Some op_dec_fn)
  ; mkop "DEC" LOC_CX LOC_NULL true false (Some op_dec_fn)
  ; mkop "DEC" LOC_DX LOC_NULL true false (Some op_dec_fn)
  ; mkop "DEC" LOC_BX LOC_NULL true false (Some op_dec_fn)
  ; mkop "DEC" LOC_SP LOC_NULL true false (Some op_dec_fn)
  ; mkop "DEC" LOC_BP LOC_NULL true false (Some op_dec_fn)
  ; mkop "DEC" LOC_SI LOC_NULL true false (Some op_dec_fn)
  ; mkop "DEC" LOC_DI LOC_NULL true false (Some op_dec_fn)
  (* 0x50 to 0x5F *)
  ; mkop "PUSH" LOC_AX LOC_NULL true false (Some op_push_fn)
  ; mkop "PUSH" LOC_CX LOC_NULL true false (Some op_push_fn)
  ; mkop "PUSH" LOC_DX LOC_NULL true false (Some op_push_fn)
  ; mkop "PUSH" LOC_BX LOC_NULL true false (Some op_push_fn)
  ; mkop "PUSH" LOC_SP LOC_NULL true false (Some op_push_fn)
  ; mkop "PUSH" LOC_BP LOC_NULL true false (Some op_push_fn)
  ; mkop "PUSH" LOC_SI LOC_NULL true false (Some op_push_fn)
  ; mkop "PUSH" LOC_DI LOC_NULL true false (Some op_push_fn)
  ; mkop "POP" LOC_AX LOC_NULL true false (Some op_pop_fn)
  ; mkop "POP" LOC_CX LOC_NULL true false (Some op_pop_fn)
  ; mkop "POP" LOC_DX LOC_NULL true false (Some op_pop_fn)
  ; mkop "POP" LOC_BX LOC_NULL true false (Some op_pop_fn)
  ; mkop "POP" LOC_SP LOC_NULL true false (Some op_pop_fn)
  ; mkop "POP" LOC_BP LOC_NULL true false (Some op_pop_fn)
  ; mkop "POP" LOC_SI LOC_NULL true false (Some op_pop_fn)
  ; mkop "POP" LOC_DI LOC_NULL true false (Some op_pop_fn)
  (* 0x60 to 0x6F *)
  ; mkop "ILLEG." LOC_NULL LOC_NULL true false None
  ; mkop "ILLEG." LOC_NULL LOC_NULL true false None
  ; mkop "ILLEG." LOC_NULL LOC_NULL true false None
  ; mkop "ILLEG." LOC_NULL LOC_NULL true false None
  ; mkop "ILLEG." LOC_NULL LOC_NULL true false None
  ; mkop "ILLEG." LOC_NULL LOC_NULL true false None
  ; mkop "ILLEG." LOC_NULL LOC_NULL true false None
  ; mkop "ILLEG." LOC_NULL LOC_NULL true false None
  ; mkop "ILLEG." LOC_NULL LOC_NULL true false None
  ; mkop "ILLEG." LOC_NULL LOC_NULL true false None
  ; mkop "ILLEG." LOC_NULL LOC_NULL true false None
  ; mkop "ILLEG." LOC_NULL LOC_NULL true false None
  ; mkop "ILLEG." LOC_NULL LOC_NULL true false None
  ; mkop "ILLEG." LOC_NULL LOC_NULL true false None
  ; mkop "ILLEG." LOC_NULL LOC_NULL true false None
  ; mkop "ILLEG." LOC_NULL LOC_NULL true false None
  (* 0x70 to 0x7F *)
  ; mkop "JO" LOC_NULL LOC_IMM false false (Some op_jo_fn)
  ; mkop "JNO" LOC_NULL LOC_IMM false false (Some op_jno_fn)
  ; mkop "JB" LOC_NULL LOC_IMM false false (Some op_jb_fn)
  ; mkop "JAE" LOC_NULL LOC_IMM false false (Some op_jae_fn)
  ; mkop "JE" LOC_NULL LOC_IMM false false (Some op_je_fn)
  ; mkop "JNE" LOC_NULL LOC_IMM false false (Some op_jne_fn)
  ; mkop "JBE" LOC_NULL LOC_IMM false false (Some op_jbe_fn)
  ; mkop "JA" LOC_NULL LOC_IMM false false (Some op_ja_fn)
  ; mkop "JS" LOC_NULL LOC_IMM false false (Some op_js_fn)
  ; mkop "JNS" LOC_NULL LOC_IMM false false (Some op_jns_fn)
  ; mkop "JP" LOC_NULL LOC_IMM false false (Some op_jp_fn)
  ; mkop "JNP" LOC_NULL LOC_IMM false false (Some op_jnp_fn)
  ; mkop "JL" LOC_NULL LOC_IMM false false (Some op_jl_fn)
  ; mkop "JGE" LOC_NULL LOC_IMM false false (Some op_jge_fn)
  ; mkop "JLE" LOC_NULL LOC_IMM false false (Some op_jle_fn)
  ; mkop "JG" LOC_NULL LOC_IMM false false (Some op_jg_fn)
  (* 0x80 to 0x8F *)
  ; mkop "IMM" LOC_RM LOC_IMM false false (Some op_imm_fn)
  ; mkop "IMM" LOC_RM LOC_IMM true false (Some op_imm_fn)
  ; mkop "IMM" LOC_RM LOC_IMM false false (Some op_imm_fn)
  ; mkop "IMM" LOC_RM LOC_IMM8 true false (Some op_imm_fn)
  ; mkop "TEST" LOC_REG LOC_RM false false (Some op_test_fn)
  ; mkop "TEST" LOC_REG LOC_RM true false (Some op_test_fn)
  ; mkop "XCHG" LOC_REG LOC_RM false false (Some op_xchg_fn)
  ; mkop "XCHG" LOC_REG LOC_RM true false (Some op_xchg_fn)
  ; mkop "MOV" LOC_RM LOC_REG false false (Some op_mov_fn)
  ; mkop "MOV" LOC_RM LOC_REG true false (Some op_mov_fn)
  ; mkop "MOV" LOC_REG LOC_RM false false (Some op_mov_fn)
  ; mkop "MOV" LOC_REG LOC_RM true false (Some op_mov_fn)
  ; mkop "MOV" LOC_RM LOC_SREG true false (Some op_mov_fn)
  ; mkop "LEA" LOC_REG LOC_RM true false (Some op_lea_fn)
  ; mkop "MOV" LOC_SREG LOC_RM true false (Some op_mov_fn)
  ; mkop "POP" LOC_RM LOC_NULL true false (Some op_pop_fn)
  (* 0x90 to 0x9F *)
  ; mkop "NOP" LOC_AX LOC_AX true false (Some op_xchg_fn)
  ; mkop "XCHG" LOC_CX LOC_AX true false (Some op_xchg_fn)
  ; mkop "XCHG" LOC_DX LOC_AX true false (Some op_xchg_fn)
  ; mkop "XCHG" LOC_BX LOC_AX true false (Some op_xchg_fn)
  ; mkop "XCHG" LOC_SP LOC_AX true false (Some op_xchg_fn)
  ; mkop "XCHG" LOC_BP LOC_AX true false (Some op_xchg_fn)
  ; mkop "XCHG" LOC_SI LOC_AX true false (Some op_xchg_fn)
  ; mkop "XCHG" LOC_DI LOC_AX true false (Some op_xchg_fn)
  ; mkop "CBW" LOC_NULL LOC_NULL true false (Some op_cbw_fn)
  ; mkop "CWD" LOC_NULL LOC_NULL true false (Some op_cwd_fn)
  ; mkop "CALL" LOC_NULL LOC_SEGOFF true false (Some op_callfar_fn)
  ; mkop "WAIT" LOC_NULL LOC_NULL false false (Some op_wait_fn)
  ; mkop "PUSHF" LOC_NULL LOC_NULL false false (Some op_pushf_fn)
  ; mkop "POPF" LOC_NULL LOC_NULL false false (Some op_popf_fn)
  ; mkop "SAHF" LOC_NULL LOC_NULL false false (Some op_sahf_fn)
  ; mkop "LAHF" LOC_NULL LOC_NULL false false (Some op_lahf_fn)
  (* 0xA0 to 0xAF *)
  ; mkop "MOV" LOC_AL LOC_ADDR false false (Some op_mov_fn)
  ; mkop "MOV" LOC_AX LOC_ADDR true false (Some op_mov_fn)
  ; mkop "MOV" LOC_ADDR LOC_AL false false (Some op_mov_fn)
  ; mkop "MOV" LOC_ADDR LOC_AX true false (Some op_mov_fn)
  ; mkop "MOVSB" LOC_STRDST LOC_STRSRC false true (Some op_mov_fn)
  ; mkop "MOVSW" LOC_STRDST LOC_STRSRC true true (Some op_mov_fn)
  ; mkop "CMPSB" LOC_STRSRC LOC_STRDST false true (Some op_cmp_fn)
  ; mkop "CMPSW" LOC_STRSRC LOC_STRDST true true (Some op_cmp_fn)
  ; mkop "TEST" LOC_AL LOC_IMM false false (Some op_test_fn)
  ; mkop "TEST" LOC_AX LOC_IMM true false (Some op_test_fn)
  ; mkop "STOSB" LOC_STRDST LOC_AL false true (Some op_mov_fn)
  ; mkop "STOSW" LOC_STRDST LOC_AX true true (Some op_mov_fn)
  ; mkop "LODSB" LOC_AL LOC_STRSRC false true (Some op_mov_fn)
  ; mkop "LODSW" LOC_AX LOC_STRSRC true true (Some op_mov_fn)
  ; mkop "SCASB" LOC_AL LOC_STRDST false true (Some op_cmp_fn)
  ; mkop "SCASB" LOC_AL LOC_STRDST true true (Some op_cmp_fn)
  (* 0xB0 to 0xBF *)
  ; mkop "MOV" LOC_AL LOC_IMM false false (Some op_mov_fn)
  ; mkop "MOV" LOC_CL LOC_IMM false false (Some op_mov_fn)
  ; mkop "MOV" LOC_DL LOC_IMM false false (Some op_mov_fn)
  ; mkop "MOV" LOC_BL LOC_IMM false false (Some op_mov_fn)
  ; mkop "MOV" LOC_AH LOC_IMM false false (Some op_mov_fn)
  ; mkop "MOV" LOC_CH LOC_IMM false false (Some op_mov_fn)
  ; mkop "MOV" LOC_DH LOC_IMM false false (Some op_mov_fn)
  ; mkop "MOV" LOC_BH LOC_IMM false false (Some op_mov_fn)
  ; mkop "MOV" LOC_AX LOC_IMM true false (Some op_mov_fn)
  ; mkop "MOV" LOC_CX LOC_IMM true false (Some op_mov_fn)
  ; mkop "MOV" LOC_DX LOC_IMM true false (Some op_mov_fn)
  ; mkop "MOV" LOC_BX LOC_IMM true false (Some op_mov_fn)
  ; mkop "MOV" LOC_SP LOC_IMM true false (Some op_mov_fn)
  ; mkop "MOV" LOC_BP LOC_IMM true false (Some op_mov_fn)
  ; mkop "MOV" LOC_SI LOC_IMM true false (Some op_mov_fn)
  ; mkop "MOV" LOC_DI LOC_IMM true false (Some op_mov_fn)
  (* 0xC0 to 0xCF *)
  ; mkop "ILLEG." LOC_NULL LOC_NULL true false None
  ; mkop "ILLEG." LOC_NULL LOC_NULL true false None
  ; mkop "RET" LOC_NULL LOC_IMM true false (Some op_retnear_fn)
  ; mkop "RET" LOC_NULL LOC_NULL true false (Some op_retnear_fn)
  ; mkop "LES" LOC_REG LOC_RM true false (Some op_les_fn)
  ; mkop "LDS" LOC_REG LOC_RM true false (Some op_lds_fn)
  ; mkop "MOV" LOC_RM LOC_IMM false false (Some op_mov_fn)
  ; mkop "MOV" LOC_RM LOC_IMM true false (Some op_mov_fn)
  ; mkop "ILLEG." LOC_NULL LOC_NULL true false None
  ; mkop "ILLEG." LOC_NULL LOC_NULL true false None
  ; mkop "RET" LOC_NULL LOC_IMM true false (Some op_retfar_fn)
  ; mkop "RET" LOC_NULL LOC_NULL true false (Some op_retfar_fn)
  ].

Definition imm_table : list opcode :=
  (* 0x00 to 0x07 *)
  [ mkop "ADD" LOC_NULL LOC_NULL false false (Some op_add_fn)
  ; mkop "OR" LOC_NULL LOC_NULL false false (Some op_or_fn)
  ; mkop "ADC" LOC_NULL LOC_NULL false false (Some op_adc_fn)
  ; mkop "SBB" LOC_NULL LOC_NULL false false (Some op_sbb_fn)
  ; mkop "AND" LOC_NULL LOC_NULL false false (Some op_and_fn)
  ; mkop "SUB" LOC_NULL LOC_NULL false false (Some op_sub_fn)
  ; mkop "XOR" LOC_NULL LOC_NULL false false (Some op_xor_fn)
  ; mkop "CMP" LOC_NULL LOC_NULL false false (Some op_cmp_fn)
  ].

Local Close Scope string_scope.

(** [op_table[i]]: an index past the last entry reads outside the array. *)
Definition op_table_at (i : Z) : option opcode :=
  if 0 <=? i then nth_error op_table (Z.to_nat i) else None.

Definition imm_table_at (i : Z) : option opcode :=
  if 0 <=? i then nth_error imm_table (Z.to_nat i) else None.

(** ** Outcomes of running C code on the CPU state *)

Inductive outcome (A : Type) : Type :=
| Done (a : A) (c : cpu8086)   (* returned normally *)
| AssertFailed                 (* an [assert] failed: the process aborts *)
| Undefined                    (* undefined behaviour of C *)
| OutOfFuel.                   (* the bound given to a loop was not enough *)

Arguments Done {A} a c.
Arguments AssertFailed {A}.
Arguments Undefined {A}.
Arguments OutOfFuel {A}.

Definition M (A : Type) : Type := cpu8086 -> outcome A.

Definition ret {A : Type} (a : A) : M A := fun c => Done a c.

Definition bind {A B : Type} (m : M A) (k : A -> M B) : M B :=
  fun c =>
    match m c with
    | Done a c' => k a c'
    | AssertFailed => AssertFailed
    | Undefined => Undefined
    | OutOfFuel => OutOfFuel
    end.

Declare Scope cpu_scope.
Delimit Scope cpu_scope with cpu.
Notation "x <- m ;; k" := (bind m (fun x => k))
  (at level 61, m at next level, right associativity) : cpu_scope.
Notation "m ;; k" := (bind m (fun _ => k))
  (at level 61, right associativity) : cpu_scope.
Local Open Scope cpu_scope.

Definition gets {A : Type} (f : cpu8086 -> A) : M A := fun c => Done (f c) c.
Definition modify (f : cpu8086 -> cpu8086) : M unit := fun c => Done tt (f c).
Definition c_assert (b : bool) : M unit :=
  fun c => if b then Done tt c else AssertFailed.
Definition undefined {A : Type} : M A := fun _ => Undefined.
Definition defined {A : Type} (o : option A) : M A :=
  match o with Some a => ret a | None => undefined end.
Definition when (b : bool) (m : M unit) : M unit := if b then m else ret tt.

(** ** The register block and its byte and word views *)

(** The host is little-endian, as the unions of [al]/[ah] with [ax] in the
    header presuppose: the byte at offset [2r] is the low half of the
    16-bit register number [r], the byte at [2r+1] its high half. *)
Definition reg8 (c : cpu8086) (off : Z) : Z := regs c off.
Definition reg16 (c : cpu8086) (r : Z) : Z :=
  Z.lor (regs c (2 * r)) (Z.shiftl (regs c (2 * r + 1)) 8).

Definition set_reg8 (off v : Z) (c : cpu8086) : cpu8086 :=
  set_regs (fun j => if j =? off then u8 v else regs c j) c.
Definition set_reg16 (r v : Z) (c : cpu8086) : cpu8086 :=
  set_regs (fun j => if j =? 2 * r then Z.land (u16 v) 0xFF
                     else if j =? 2 * r + 1 then Z.shiftr (u16 v) 8
                     else regs c j) c.

Definition al (c : cpu8086) : Z := reg8 c 0.
Definition ah (c : cpu8086) : Z := reg8 c 1.
Definition ax (c : cpu8086) : Z := reg16 c AX.
Definition cx (c : cpu8086) : Z := reg16 c CX.
Definition dx (c : cpu8086) : Z := reg16 c DX.
Definition bx (c : cpu8086) : Z := reg16 c BX.
Definition sp (c : cpu8086) : Z := reg16 c SP.
Definition bp (c : cpu8086) : Z := reg16 c BP.
Definition si (c : cpu8086) : Z := reg16 c SI.
Definition di (c : cpu8086) : Z := reg16 c DI.
Definition es (c : cpu8086) : Z := reg16 c ES.
Definition cs (c : cpu8086) : Z := reg16 c CS.
Definition ss (c : cpu8086) : Z := reg16 c SS.
Definition ds (c : cpu8086) : Z := reg16 c DS.

(** Dereferencing a host pointer.  Only the twelve registers and the
    [immediate] field are modelled; anything else (a number used as a
    pointer, an offset past [ds]) is outside the model. *)
Definition host_read_byte (c : cpu8086) (p : uintptr) : option Z :=
  match p with
  | RegPtr off =>
      if (0 <=? off) && (off <? 2 * REGISTER_COUNT) then Some (regs c off) else None
  | ImmPtr off =>
      if (0 <=? off) && (off <? immediate_width / 8)
      then Some (Z.land (Z.shiftr (immediate c) (8 * off)) 0xFF) else None
  | Num _ => None
  end.

Definition host_write_byte (p : uintptr) (v : Z) (c : cpu8086) : option cpu8086 :=
  match p with
  | RegPtr off =>
      if (0 <=? off) && (off <? 2 * REGISTER_COUNT) then Some (set_reg8 off v c) else None
  | ImmPtr off =>
      if (0 <=? off) && (off <? immediate_width / 8)
      then Some (set_immediate
                   (Z.lor (Z.land (immediate c) (Z.lnot (Z.shiftl 0xFF (8 * off))))
                          (Z.shiftl (u8 v) (8 * off))) c)
      else None
  | Num _ => None
  end.

Definition host_read_word (c : cpu8086) (p : uintptr) : option Z :=
  match host_read_byte c p, host_read_byte c (uintptr_add p 1) with
  | Some lo, Some hi => Some (Z.lor lo (Z.shiftl hi 8))
  | _, _ => None
  end.

Definition host_write_word (p : uintptr) (v : Z) (c : cpu8086) : option cpu8086 :=
  match host_write_byte p (Z.land (u16 v) 0xFF) c with
  | Some c' => host_write_byte (uintptr_add p 1) (Z.shiftr (u16 v) 8) c'
  | None => None
  end.

(** The number a [uintptr_t] holds; the numeric value of a host pointer is
    not modelled. *)
Definition number_of (p : uintptr) : option Z :=
  match p with Num n => Some n | _ => None end.

(** ** cpu8086.c: operand access *)

Definition loc_read_byte (loc : location) : M Z :=
  c <- gets id ;;
  if virtual loc
  then a <- defined (number_of (address loc)) ;;
       defined (bus_read_byte (bus c) a)
  else defined (host_read_byte c (address loc)).

Definition loc_read_word (loc : location) : M Z :=
  if virtual loc
  then a <- defined (number_of (address loc)) ;;
       when (to_bool (Z.land a 1)) (modify (fun c => set_cycles (u8 (cycles c + 4)) c)) ;;
       c <- gets id ;;
       defined (bus_read_short (bus c) a)
  else c <- gets id ;;
       defined (host_read_word c (address loc)).

Definition loc_write_byte (loc : location) (data : Z) : M unit :=
  c <- gets id ;;
  if virtual loc
  then a <- defined (number_of (address loc)) ;;
       b <- defined (bus_write_byte (bus c) a (u8 data)) ;;
       modify (set_bus b)
  else c' <- defined (host_write_byte (address loc) (u8 data) c) ;;
       modify (fun _ => c').

Definition loc_write_word (loc : location) (data : Z) : M unit :=
  if virtual loc
  then a <- defined (number_of (address loc)) ;;
       when (to_bool (Z.land a 1)) (modify (fun c => set_cycles (u8 (cycles c + 4)) c)) ;;
       c <- gets id ;;
       b <- defined (bus_write_short (bus c) a (u16 data)) ;;
       modify (set_bus b)
  else c <- gets id ;;
       c' <- defined (host_write_word (address loc) (u16 data) c) ;;
       modify (fun _ => c').

(** [op_table[cpu->opcode_byte].is_word] *)
Definition current_is_word : M bool :=
  c <- gets id ;;
  o <- defined (op_table_at (opcode_byte c)) ;;
  ret (is_word o).

Definition loc_read (loc : location) : M Z :=
  w <- current_is_word ;;
  if w then loc_read_word loc else loc_read_byte loc.

Definition loc_write (loc : location) (data : Z) : M unit :=
  w <- current_is_word ;;
  if w then loc_write_word loc (u16 data) else loc_write_byte loc (u16 data).

Definition cpu8086_push (word : Z) : M unit :=
  modify (fun c => set_reg16 SP (sp c - 2) c) ;;
  c <- gets id ;;
  b <- defined (bus_write_short (bus c) (Z.shiftl (ss c) 4 + sp c) (u16 word)) ;;
  modify (set_bus b).

Definition cpu8086_pop : M Z :=
  c <- gets id ;;
  word <- defined (bus_read_short (bus c) (Z.shiftl (ss c) 4 + sp c)) ;;
  modify (fun c => set_reg16 SP (sp c + 2) c) ;;
  ret word.

(** [(uint16_t* )(&cpu->ax) + reg] *)
Definition cpu8086_reg_word (reg : Z) : M uintptr :=
  let reg := u32 reg in
  c_assert (reg <? Z.shiftl 1 REGISTER_COUNT) ;;
  ret (RegPtr (2 * reg)).

(** [(uint8_t* )(&cpu->ax) + (reg & 0b11) * 2 + (reg & 0b100)] *)
Definition cpu8086_reg_byte (reg : Z) : M uintptr :=
  let reg := u32 reg in
  c_assert (reg <? Z.shiftl 1 REG_FIELD) ;;
  ret (RegPtr (Z.land reg 3 * 2 + Z.land reg 4)).

(** [q[i]], for the 2-bit indices [q_r] and [q_w]. *)
Definition q_at (c : cpu8086) (i : Z) : option Z :=
  if 0 <=? i then nth_error (q c) (Z.to_nat i) else None.

Fixpoint list_store (l : list Z) (n : nat) (v : Z) : option (list Z) :=
  match l, n with
  | [], _ => None
  | _ :: t, O => Some (v :: t)
  | h :: t, S n' => option_map (cons h) (list_store t n' v)
  end.

Definition q_store (c : cpu8086) (i : Z) (v : Z) : option cpu8086 :=
  if 0 <=? i
  then option_map (fun l => set_q l c) (list_store (q c) (Z.to_nat i) v)
  else None.

Definition cpu8086_prefetch_dequeue : M Z :=
  c <- gets id ;;
  w <- defined (q_at c (q_r c)) ;;
  let read := Z.land (Z.shiftr w (of_bool (hl c) * 8)) 0xFF in
  when (hl c)
       (modify (fun c => set_q_r ((q_r c + 1) mod 3) c) ;;
        modify (fun c => set_mt (q_r c =? q_w c) c)) ;;
  modify (fun c => set_hl (negb (hl c)) c) ;;
  modify (fun c => set_current_ip (u16 (current_ip c + 1)) c) ;;
  ret read.

Definition cpu8086_jump (new_cs new_ip : Z) (c : cpu8086) : cpu8086 :=
  (* Clear the prefetch queue. *)
  let c := set_hl false c in
  let c := set_mt false c in
  let c := set_q_r (q_w c) c in
  let c := if negb (biu_prefetch_cycles c =? 3)
           then set_biu_prefetch_cycles (u8 (biu_prefetch_cycles c + 4)) c
           else c in
  (* Set new CS:IP. *)
  let c := set_reg16 CS (u16 new_cs) c in
  set_ip (u16 new_ip) (set_current_ip (u16 new_ip) c).

(** [prefix = ES + (cpu->prefix_g2 - PREFIX_G2_ES) / 8], an [unsigned]. *)
Definition g2_segment (c : cpu8086) : Z :=
  u32 (ES + Z.quot (prefix_g2 c - PREFIX_G2_ES) 8).

(** [fields.rm], [fields.reg], [fields.mod] of the ModR/M union. *)
Definition modrm_rm (c : cpu8086) : Z := Z.land (modrm_byte c) 7.
Definition modrm_reg (c : cpu8086) : Z := Z.land (Z.shiftr (modrm_byte c) 3) 7.
Definition modrm_mod (c : cpu8086) : Z := Z.land (Z.shiftr (modrm_byte c) 6) 3.

(** The bodies of the last three cases of the switch in [loc_set]; none of
    the first two ends in [break], so control runs on into the next. *)
Definition loc_set_strsrc (loc : location) : M location :=
  c <- gets id ;;
  let prefix := if negb (prefix_g2 c =? PREFIX_G2_NONE) then g2_segment c else DS in
  p <- cpu8086_reg_word prefix ;;
  seg <- defined (host_read_word c p) ;;
  ret (mkloc DECODED_STRING (Num (Z.land (Z.shiftl seg 4 + si c) 0xFFFFF)) true).

Definition loc_set_strdst (loc : location) : M location :=
  c <- gets id ;;
  ret (mkloc DECODED_STRING (Num (Z.shiftl (es c) 4 + di c)) true).

Definition loc_set_null (loc : location) : M location :=
  ret (mkloc DECODED_NULL (address loc) (virtual loc)).

Definition loc_set (loc : location) (type : opcode_location) : M location :=
  match type with
  | LOC_AX | LOC_CX | LOC_DX | LOC_BX | LOC_SP | LOC_BP | LOC_SI | LOC_DI =>
      p <- cpu8086_reg_word (loc_value type) ;;
      ret (mkloc (if loc_eqb type LOC_AX then DECODED_ACCUMULATOR else DECODED_REGISTER)
                 p false)
  | LOC_ES | LOC_CS | LOC_SS | LOC_DS =>
      p <- cpu8086_reg_word (loc_value type) ;;
      ret (mkloc DECODED_SEGREG p false)
  | LOC_AL | LOC_CL | LOC_DL | LOC_BL | LOC_AH | LOC_CH | LOC_DH | LOC_BH =>
      p <- cpu8086_reg_byte (loc_value type - loc_value LOC_AL) ;;
      ret (mkloc (if loc_eqb type LOC_AL || loc_eqb type LOC_AH
                  then DECODED_ACCUMULATOR else DECODED_REGISTER)
                 p false)
  | LOC_IMM | LOC_IMM8 | LOC_RM =>
      c <- gets id ;;
      ret (mkloc (if negb (modrm_mod c =? MOD_REG) then DECODED_MEMORY
                  else if modrm_is_segreg c then DECODED_SEGREG
                  else DECODED_REGISTER)
                 (rm c)
                 (negb (modrm_mod c =? MOD_REG)))
  | LOC_REG | LOC_SREG =>
      c <- gets id ;;
      ret (mkloc DECODED_REGISTER (reg c) false)
  | LOC_ADDR =>
      c <- gets id ;;
      ret (mkloc DECODED_MEMORY (Num (immediate c)) true)
  | LOC_SEGOFF =>
      ret (mkloc DECODED_IMMEDIATE (ImmPtr 0) false)
  | LOC_STRSRC =>
      l1 <- loc_set_strsrc loc ;;
      l2 <- loc_set_strdst l1 ;;
      loc_set_null l2
  | LOC_STRDST =>
      l1 <- loc_set_strdst loc ;;
      loc_set_null l1
  | LOC_NULL =>
      loc_set_null loc
  end.

(** ** cpu8086.c: flags *)

Definition cpu8086_getflag (c : cpu8086) (flag : Z) : bool :=
  to_bool (Z.land (flags c) flag).

Definition cpu8086_setflag (flag : Z) (toggle : bool) (c : cpu8086) : cpu8086 :=
  if toggle
  then set_flags (u16 (Z.lor (flags c) flag)) c
  else set_flags (u16 (Z.land (flags c) (Z.lnot flag))) c.

Definition cpu8086_setpzs_flags (result : Z) (is_word : bool) (c : cpu8086) : cpu8086 :=
  let result := u16 result in
  let c := cpu8086_setflag FLAG_PARITY (calculate_parity result is_word) c in
  let c := cpu8086_setflag FLAG_ZERO (Z.land result (mask_buffer is_word) =? 0) c in
  cpu8086_setflag FLAG_SIGN (to_bool (Z.land (Z.shiftr result (sign_bit is_word)) 1)) c.

Definition cpu8086_reset_execution_regs (c : cpu8086) : cpu8086 :=
  let c := set_repeat false c in
  let c := set_prefix_g1 PREFIX_G1_NONE c in
  let c := set_prefix_g2 PREFIX_G1_NONE c in
  let c := set_opcode_byte OPCODE_NONE c in
  let c := set_disp8_byte DISP8_NONE c in
  let c := set_disp16_byte DISP16_NONE c in
  let c := set_imm8_byte IMM8_NONE c in
  let c := set_imm16_byte IMM16_NONE c in
  let c := set_lo_segment LO_SEGMENT_NONE c in
  let c := set_hi_segment HI_SEGMENT_NONE c in
  let c := set_stage CPU8086_READY c in
  set_modrm_byte MODRM_NONE c.

(** [cpu->cycles += n] on the 8-bit counter. *)
Definition add_cycles (n : Z) : M unit :=
  modify (fun c => set_cycles (u8 (cycles c + n)) c).

(** [cpu->source.address += 2] *)
Definition advance_source (c : cpu8086) : cpu8086 :=
  set_source (mkloc (loc_type (source c))
                    (uintptr_add (address (source c)) 2)
                    (virtual (source c))) c.

(** ** cpu8086.c: the instruction handlers *)

(** The cycle switch on [(destination.type << 3) | source.type] that ADC,
    ADD, AND, OR, SBB, SUB and XOR each end with. *)
Definition arith_cycles : M unit :=
  c <- gets id ;;
  match loc_type (destination c), loc_type (source c) with
  | DECODED_REGISTER, DECODED_REGISTER => add_cycles 3
  | DECODED_REGISTER, DECODED_MEMORY => add_cycles 9
  | DECODED_MEMORY, DECODED_REGISTER => add_cycles 16
  | DECODED_ACCUMULATOR, DECODED_IMMEDIATE
  | DECODED_REGISTER, DECODED_IMMEDIATE => add_cycles 4
  | DECODED_MEMORY, DECODED_IMMEDIATE => add_cycles 17
  | _, _ => c_assert false
  end.

(** The flag updates shared by the additive handlers, for
    [unsigned result = dest + src]. *)
Definition add_flags (op : opcode) (dest src result : Z) (aux : bool) (c : cpu8086) : cpu8086 :=
  let c := cpu8086_setpzs_flags result (is_word op) c in
  let c := cpu8086_setflag FLAG_CARRY (mask_buffer (is_word op) <? result) c in
  let c := cpu8086_setflag FLAG_AUXILIARY aux c in
  cpu8086_setflag FLAG_OVERFLOW
    (to_bool (Z.land (Z.land (Z.lxor result dest) (Z.lxor result src))
                     (Z.shiftl 1 (sign_bit (is_word op))))) c.

Definition logic_flags (op : opcode) (result : Z) (c : cpu8086) : cpu8086 :=
  let c := cpu8086_setpzs_flags result (is_word op) c in
  let c := cpu8086_setflag FLAG_CARRY false c in
  let c := cpu8086_setflag FLAG_AUXILIARY false c in
  cpu8086_setflag FLAG_OVERFLOW false c.

(** AAA: ascii adjust for addition *)
Definition op_aaa (op : opcode) : M unit :=
  modify (fun c =>
    let old_al := al c in
    let adjust := (9 <? Z.land (al c) 0xF) || cpu8086_getflag c FLAG_AUXILIARY in
    let added := if adjust then 6 else 0 in
    let c := if adjust
             then let c := set_reg8 1 (ah c + 1) c in
                  let c := set_reg8 0 (al c + 6) c in
                  cpu8086_setflag FLAG_CARRY true (cpu8086_setflag FLAG_AUXILIARY true c)
             else cpu8086_setflag FLAG_CARRY false (cpu8086_setflag FLAG_AUXILIARY false c) in
    let c := set_reg8 0 (Z.land (al c) 0xF) c in
    let c := cpu8086_setpzs_flags (al c) false c in
    cpu8086_setflag FLAG_OVERFLOW
      (to_bool (Z.land (Z.land (Z.lxor (al c) old_al) (Z.lxor (al c) added)) 0x80)) c) ;;
  add_cycles 4.

(** AAS: ascii adjust for subtraction *)
Definition op_aas (op : opcode) : M unit :=
  modify (fun c =>
    let old_al := al c in
    let adjust := (9 <? Z.land (al c) 0xF) || cpu8086_getflag c FLAG_AUXILIARY in
    let added := if adjust then u16 (Z.lnot 6 + 1) else 0 in
    let c := if adjust
             then let c := set_reg8 1 (ah c - 1) c in
                  let c := set_reg8 0 (al c + added) c in
                  cpu8086_setflag FLAG_CARRY true (cpu8086_setflag FLAG_AUXILIARY true c)
             else cpu8086_setflag FLAG_CARRY false (cpu8086_setflag FLAG_AUXILIARY false c) in
    let c := set_reg8 0 (Z.land (al c) 0xF) c in
    let c := cpu8086_setpzs_flags (al c) false c in
    cpu8086_setflag FLAG_OVERFLOW
      (to_bool (Z.land (Z.land (Z.lxor (al c) old_al) (Z.lxor (al c) added)) 0x80)) c) ;;
  add_cycles 4.

(** ADC: add two operands + the carry flag *)
Definition op_adc (op : opcode) : M unit :=
  d <- gets destination ;;
  dest <- loc_read d ;;
  s <- gets source ;;
  v <- loc_read s ;;
  c <- gets id ;;
  let src := u16 (v + of_bool (cpu8086_getflag c FLAG_CARRY)) in
  let result := dest + src in
  loc_write d result ;;
  modify (add_flags op dest src result (0xF <? Z.land dest 0xF + Z.land src 0xF)) ;;
  arith_cycles.

(** ADD: add two operands *)
Definition op_add (op : opcode) : M unit :=
  d <- gets destination ;;
  dest <- loc_read d ;;
  s <- gets source ;;
  src <- loc_read s ;;
  let result := dest + src in
  loc_write d result ;;
  modify (add_flags op dest src result (0xF <? Z.land dest 0xF + Z.land src 0xF)) ;;
  arith_cycles.

(** AND: bitwise and two operands *)
Definition op_and (op : opcode) : M unit :=
  d <- gets destination ;;
  dest <- loc_read d ;;
  s <- gets source ;;
  src <- loc_read s ;;
  let result := Z.land dest src in
  loc_write d result ;;
  modify (logic_flags op result) ;;
  arith_cycles.

(** CALL (far): call a procedure by setting both CS:IP. *)
Definition op_callfar (op : opcode) : M unit :=
  c <- gets id ;;
  cpu8086_push (cs c) ;;
  c <- gets id ;;
  cpu8086_push (current_ip c) ;;
  s <- gets source ;;
  new_ip <- loc_read s ;;
  modify advance_source ;;
  s <- gets source ;;
  new_cs <- loc_read s ;;
  modify (cpu8086_jump new_cs new_ip) ;;
  c <- gets id ;;
  match loc_type (source c) with
  | DECODED_IMMEDIATE => add_cycles 28
  | _ => c_assert false
  end.

(** CBW: convert byte to word by sign-extending AL to AX *)
Definition op_cbw (op : opcode) : M unit :=
  modify (fun c => set_reg8 1 (0xFF * Z.land (Z.shiftr (al c) 7) 1) c) ;;
  add_cycles 2.

(** CMP: subtract src from dest without storing, but still set flags *)
Definition op_cmp (op : opcode) : M unit :=
  d <- gets destination ;;
  dest <- loc_read d ;;
  s <- gets source ;;
  v <- loc_read s ;;
  let src := u16 (Z.lnot v + 1) in
  let result := dest + src in
  modify (add_flags op dest src result
            (Z.land dest 0xF <? Z.land (Z.lnot src + 1) 0xF)) ;;
  c <- gets id ;;
  match loc_type (destination c), loc_type (source c) with
  | DECODED_REGISTER, DECODED_REGISTER => add_cycles 3
  | DECODED_REGISTER, DECODED_MEMORY => add_cycles 9
  | DECODED_MEMORY, DECODED_REGISTER => add_cycles 9
  | DECODED_ACCUMULATOR, DECODED_IMMEDIATE
  | DECODED_REGISTER, DECODED_IMMEDIATE => add_cycles 4
  | DECODED_MEMORY, DECODED_IMMEDIATE => add_cycles 10
  (* CMPS *)
  | DECODED_STRING, DECODED_STRING => add_cycles 22
  (* SCAS: no break, control reaches the default label *)
  | DECODED_ACCUMULATOR, DECODED_STRING => add_cycles 15 ;; c_assert false
  | _, _ => c_assert false
  end.

(** CWD: convert word to doubleword by sign-extending AX to DX:AX *)
Definition op_cwd (op : opcode) : M unit :=
  modify (fun c => set_reg16 DX (0xFFFF * Z.land (Z.shiftr (ax c) 15) 1) c) ;;
  add_cycles 5.

(** DAA: decimal adjust for addition *)
Definition op_daa (op : opcode) : M unit :=
  modify (fun c =>
    let old_al := al c in
    let old_af := cpu8086_getflag c FLAG_AUXILIARY in
    let low := (9 <? Z.land (al c) 0xF) || old_af in
    let added := if low then 6 else 0 in
    let c := cpu8086_setflag FLAG_AUXILIARY low c in
    let high := (0x99 + (if old_af then 6 else 0) <? old_al)
                || cpu8086_getflag c FLAG_CARRY in
    let added := if high then u8 (added + 0x60) else added in
    let c := cpu8086_setflag FLAG_CARRY high c in
    let c := set_reg8 0 (al c + added) c in
    let c := cpu8086_setpzs_flags (al c) false c in
    cpu8086_setflag FLAG_OVERFLOW
      (to_bool (Z.land (Z.land (Z.lxor (al c) old_al) (Z.lxor (al c) added)) 0x80)) c) ;;
  add_cycles 4.

(** DAS: decimal adjust for subtraction *)
Definition op_das (op : opcode) : M unit :=
  modify (fun c =>
    let old_al := al c in
    let old_af := cpu8086_getflag c FLAG_AUXILIARY in
    let low := (9 <? Z.land (al c) 0xF) || old_af in
    let added := if low then 6 else 0 in
    let c := cpu8086_setflag FLAG_AUXILIARY low c in
    let high := (0x99 + (if old_af then 6 else 0) <? al c)
                || cpu8086_getflag c FLAG_CARRY in
    let added := if high then u8 (added + 0x60) else added in
    let c := cpu8086_setflag FLAG_CARRY high c in
    let added := u8 (Z.lnot added + 1) in
    let c := set_reg8 0 (al c + added) c in
    let c := cpu8086_setpzs_flags (al c) false c in
    cpu8086_setflag FLAG_OVERFLOW
      (to_bool (Z.land (Z.land (Z.lxor (al c) old_al) (Z.lxor (al c) added)) 0x80)) c) ;;
  add_cycles 4.

(** The cycle switch on [destination.type] of INC and DEC. *)
Definition incdec_cycles (op : opcode) : M unit :=
  c <- gets id ;;
  match loc_type (destination c) with
  | DECODED_ACCUMULATOR | DECODED_REGISTER => add_cycles (if is_word op then 2 else 3)
  | DECODED_MEMORY => add_cycles 15
  | _ => c_assert false
  end.

(** DEC: decrement by 1 *)
Definition op_dec (op : opcode) : M unit :=
  d <- gets destination ;;
  dest <- loc_read d ;;
  let result := u32 (dest - 1) in
  loc_write d result ;;
  modify (fun c =>
    let c := cpu8086_setpzs_flags result (is_word op) c in
    let c := cpu8086_setflag FLAG_AUXILIARY (Z.land dest 0xF <? 1) c in
    cpu8086_setflag FLAG_OVERFLOW
      (to_bool (Z.land (Z.land (Z.lxor result dest) (Z.lxor result 0xFFFF))
                       (Z.shiftl 1 (sign_bit (is_word op))))) c) ;;
  incdec_cycles op.

(** INC: increment by 1 *)
Definition op_inc (op : opcode) : M unit :=
  d <- gets destination ;;
  dest <- loc_read d ;;
  let result := dest + 1 in
  loc_write d result ;;
  modify (fun c =>
    let c := cpu8086_setpzs_flags result (is_word op) c in
    let c := cpu8086_setflag FLAG_AUXILIARY (0xF <? Z.land dest 0xF + 1) c in
    cpu8086_setflag FLAG_OVERFLOW
      (to_bool (Z.land (Z.land (Z.lxor result dest) (Z.lxor result 1))
                       (Z.shiftl 1 (sign_bit (is_word op))))) c) ;;
  incdec_cycles op.

(** The body the sixteen conditional jumps share: read the signed 8-bit
    offset, jump to [current_ip + offset] when the predicate holds. *)
Definition jump_if (taken : cpu8086 -> bool) : M unit :=
  s <- gets source ;;
  v <- loc_read s ;;
  let offset := s8 v in
  c <- gets id ;;
  when (taken c)
       (modify (fun c => cpu8086_jump (cs c) (current_ip c + offset) c) ;;
        add_cycles 12) ;;
  add_cycles 4.

Definition op_ja (op : opcode) : M unit :=
  jump_if (fun c => negb (cpu8086_getflag c FLAG_CARRY) && negb (cpu8086_getflag c FLAG_ZERO)).
Definition op_jae (op : opcode) : M unit :=
  jump_if (fun c => negb (cpu8086_getflag c FLAG_CARRY)).
Definition op_jb (op : opcode) : M unit :=
  jump_if (fun c => cpu8086_getflag c FLAG_CARRY).
Definition op_jbe (op : opcode) : M unit :=
  jump_if (fun c => cpu8086_getflag c FLAG_CARRY || cpu8086_getflag c FLAG_ZERO).
Definition op_je (op : opcode) : M unit :=
  jump_if (fun c => cpu8086_getflag c FLAG_ZERO).
Definition op_jg (op : opcode) : M unit :=
  jump_if (fun c => Bool.eqb (cpu8086_getflag c FLAG_SIGN) (cpu8086_getflag c FLAG_OVERFLOW)
                    && negb (cpu8086_getflag c FLAG_ZERO)).
Definition op_jge (op : opcode) : M unit :=
  jump_if (fun c => Bool.eqb (cpu8086_getflag c FLAG_SIGN) (cpu8086_getflag c FLAG_OVERFLOW)).
Definition op_jl (op : opcode) : M unit :=
  jump_if (fun c => xorb (cpu8086_getflag c FLAG_SIGN) (cpu8086_getflag c FLAG_OVERFLOW)).
Definition op_jle (op : opcode) : M unit :=
  jump_if (fun c => xorb (cpu8086_getflag c FLAG_SIGN) (cpu8086_getflag c FLAG_OVERFLOW)
                    || cpu8086_getflag c FLAG_ZERO).
Definition op_jne (op : opcode) : M unit :=
  jump_if (fun c => negb (cpu8086_getflag c FLAG_ZERO)).
Definition op_jno (op : opcode) : M unit :=
  jump_if (fun c => negb (cpu8086_getflag c FLAG_OVERFLOW)).
Definition op_jnp (op : opcode) : M unit :=
  jump_if (fun c => negb (cpu8086_getflag c FLAG_PARITY)).
Definition op_jns (op : opcode) : M unit :=
  jump_if (fun c => negb (cpu8086_getflag c FLAG_SIGN)).
Definition op_jo (op : opcode) : M unit :=
  jump_if (fun c => cpu8086_getflag c FLAG_OVERFLOW).
Definition op_jp (op : opcode) : M unit :=
  jump_if (fun c => cpu8086_getflag c FLAG_PARITY).
Definition op_js (op : opcode) : M unit :=
  jump_if (fun c => cpu8086_getflag c FLAG_SIGN).

(** LAHF: load AH from FLAGS *)
Definition op_lahf (op : opcode) : M unit :=
  modify (fun c => set_reg8 1 (flags c) c) ;;
  add_cycles 4.

(** LEA: load effective address into register destination *)
Definition op_lea (op : opcode) : M unit :=
  c <- gets id ;;
  c_assert (virtual (source c)) ;;
  a <- defined (number_of (address (source c))) ;;
  loc_write (destination c) a ;;
  add_cycles 2.

(** LDS: load [mem32] into reg16 and [mem32 + 2] into ES *)
Definition op_lds (op : opcode) : M unit :=
  c <- gets id ;;
  c_assert (virtual (source c)) ;;
  offset <- loc_read (source c) ;;
  modify advance_source ;;
  s <- gets source ;;
  segment <- loc_read s ;;
  d <- gets destination ;;
  loc_write d offset ;;
  modify (set_reg16 ES segment) ;;
  add_cycles 16.

(** LES: load [mem32] into reg16 and [mem32 + 2] into ES *)
Definition op_les (op : opcode) : M unit :=
  c <- gets id ;;
  c_assert (virtual (source c)) ;;
  offset <- loc_read (source c) ;;
  modify advance_source ;;
  s <- gets source ;;
  segment <- loc_read s ;;
  d <- gets destination ;;
  loc_write d offset ;;
  modify (set_reg16 ES segment) ;;
  add_cycles 16.

(** MOV: copy from source to destination *)
Definition op_mov (op : opcode) : M unit :=
  s <- gets source ;;
  src <- loc_read s ;;
  d <- gets destination ;;
  loc_write d src ;;
  c <- gets id ;;
  match loc_type (destination c), loc_type (source c) with
  | DECODED_MEMORY, DECODED_ACCUMULATOR
  | DECODED_ACCUMULATOR, DECODED_MEMORY => add_cycles 10
  | DECODED_REGISTER, DECODED_REGISTER
  | DECODED_SEGREG, DECODED_REGISTER
  | DECODED_REGISTER, DECODED_SEGREG => add_cycles 2
  | DECODED_REGISTER, DECODED_MEMORY
  | DECODED_SEGREG, DECODED_MEMORY => add_cycles 8
  | DECODED_MEMORY, DECODED_REGISTER
  | DECODED_MEMORY, DECODED_SEGREG => add_cycles 9
  | DECODED_REGISTER, DECODED_IMMEDIATE
  | DECODED_ACCUMULATOR, DECODED_IMMEDIATE => add_cycles 4
  | DECODED_MEMORY, DECODED_IMMEDIATE => add_cycles 10
  (* MOVS *)
  | DECODED_STRING, DECODED_STRING => add_cycles (if repeat c then 17 else 18)
  (* STOS *)
  | DECODED_STRING, DECODED_ACCUMULATOR => add_cycles (if repeat c then 10 else 11)
  (* LODS *)
  | DECODED_ACCUMULATOR, DECODED_STRING => add_cycles (if repeat c then 13 else 12)
  | _, _ => c_assert false
  end.

(** OR: bitwise or two operands *)
Definition op_or (op : opcode) : M unit :=
  d <- gets destination ;;
  dest <- loc_read d ;;
  s <- gets source ;;
  src <- loc_read s ;;
  let result := Z.lor dest src in
  loc_write d result ;;
  modify (logic_flags op result) ;;
  arith_cycles.

(** POP: pop a word from the stack into a location *)
Definition op_pop (op : opcode) : M unit :=
  result <- cpu8086_pop ;;
  d <- gets destination ;;
  loc_write d result ;;
  c <- gets id ;;
  match loc_type (destination c) with
  | DECODED_ACCUMULATOR | DECODED_REGISTER | DECODED_SEGREG => add_cycles 8
  | DECODED_MEMORY => add_cycles 17
  | _ => c_assert false
  end.

(** POPF: pop FLAGS off the stack *)
Definition op_popf (op : opcode) : M unit :=
  w <- cpu8086_pop ;;
  modify (set_flags w) ;;
  add_cycles 8.

(** PUSH: push a word from a location onto the stack *)
Definition op_push (op : opcode) : M unit :=
  d <- gets destination ;;
  dest <- loc_read d ;;
  cpu8086_push dest ;;
  c <- gets id ;;
  match loc_type (destination c) with
  | DECODED_ACCUMULATOR | DECODED_REGISTER => add_cycles 11
  | DECODED_SEGREG => add_cycles 10
  | DECODED_MEMORY => add_cycles 16
  | _ => c_assert false
  end.

(** PUSHF: push FLAGS onto the stack *)
Definition op_pushf (op : opcode) : M unit :=
  c <- gets id ;;
  cpu8086_push (flags c) ;;
  add_cycles 10.

(** [cpu->sp += loc_read(cpu, &cpu->source)] *)
Definition release_parameters : M unit :=
  s <- gets source ;;
  n <- loc_read s ;;
  modify (fun c => set_reg16 SP (sp c + n) c).

(** RET (near): pop the IP off the stack and release parameters. *)
Definition op_retnear (op : opcode) : M unit :=
  new_ip <- cpu8086_pop ;;
  modify (fun c => cpu8086_jump (cs c) new_ip c) ;;
  c <- gets id ;;
  match loc_type (source c) with
  | DECODED_NULL => add_cycles 8
  | DECODED_IMMEDIATE => add_cycles 12 ;; release_parameters
  | _ => c_assert false
  end.

(** RET (far): pop CS:IP off the stack and release parameters. *)
Definition op_retfar (op : opcode) : M unit :=
  new_ip <- cpu8086_pop ;;
  new_cs <- cpu8086_pop ;;
  modify (cpu8086_jump new_cs new_ip) ;;
  c <- gets id ;;
  match loc_type (source c) with
  | DECODED_NULL => add_cycles 18
  | DECODED_IMMEDIATE => add_cycles 17 ;; release_parameters
  | _ => c_assert false
  end.

(** SAHF: store AH into FLAGS *)
Definition op_sahf (op : opcode) : M unit :=
  modify (fun c => cpu8086_setflag FLAG_CARRY (to_bool (Z.land (ah c) FLAG_CARRY)) c) ;;
  modify (fun c => cpu8086_setflag FLAG_PARITY (to_bool (Z.land (ah c) FLAG_PARITY)) c) ;;
  modify (fun c => cpu8086_setflag FLAG_AUXILIARY (to_bool (Z.land (ah c) FLAG_AUXILIARY)) c) ;;
  modify (fun c => cpu8086_setflag FLAG_ZERO (to_bool (Z.land (ah c) FLAG_ZERO)) c) ;;
  modify (fun c => cpu8086_setflag FLAG_SIGN (to_bool (Z.land (ah c) FLAG_SIGN)) c) ;;
  add_cycles 4.

(** SBB: subtract src from dest, also subtract the carry flag *)
Definition op_sbb (op : opcode) : M unit :=
  d <- gets destination ;;
  dest <- loc_read d ;;
  s <- gets source ;;
  v <- loc_read s ;;
  c <- gets id ;;
  let src := u16 (Z.lnot (v + of_bool (cpu8086_getflag c FLAG_CARRY)) + 1) in
  let result := dest + src in
  loc_write d result ;;
  modify (add_flags op dest src result
            (Z.land dest 0xF <? Z.land (Z.lnot src + 1) 0xF)) ;;
  arith_cycles.

(** SUB: subtract src from dest *)
Definition op_sub (op : opcode) : M unit :=
  d <- gets destination ;;
  dest <- loc_read d ;;
  s <- gets source ;;
  v <- loc_read s ;;
  let src := u16 (Z.lnot v + 1) in
  let result := dest + src in
  loc_write d result ;;
  modify (add_flags op dest src result
            (Z.land dest 0xF <? Z.land (Z.lnot src + 1) 0xF)) ;;
  arith_cycles.

(** TEST: bitwise and two operands without setting destination *)
Definition op_test (op : opcode) : M unit :=
  d <- gets destination ;;
  dest <- loc_read d ;;
  s <- gets source ;;
  src <- loc_read s ;;
  let result := Z.land dest src in
  modify (logic_flags op result) ;;
  c <- gets id ;;
  match loc_type (destination c), loc_type (source c) with
  | DECODED_REGISTER, DECODED_REGISTER => add_cycles 3
  | DECODED_REGISTER, DECODED_MEMORY => add_cycles 9
  | DECODED_ACCUMULATOR, DECODED_IMMEDIATE => add_cycles 4
  | DECODED_REGISTER, DECODED_IMMEDIATE => add_cycles 5
  | DECODED_MEMORY, DECODED_IMMEDIATE => add_cycles 11
  | _, _ => c_assert false
  end.

(** WAIT: pause execution while TEST is held high *)
Definition op_wait (op : opcode) : M unit :=
  add_cycles 3.

(** XCHG: exchange between destination/source *)
Definition op_xchg (op : opcode) : M unit :=
  d <- gets destination ;;
  dest <- loc_read d ;;
  s <- gets source ;;
  src <- loc_read s ;;
  loc_write d src ;;
  loc_write s dest ;;
  c <- gets id ;;
  match loc_type (destination c), loc_type (source c) with
  | DECODED_ACCUMULATOR, DECODED_REGISTER => add_cycles 3
  | DECODED_REGISTER, DECODED_REGISTER => add_cycles 4
  | DECODED_MEMORY, DECODED_REGISTER => add_cycles 17
  | _, _ => c_assert false
  end.

(** XOR: bitwise xor two operands *)
Definition op_xor (op : opcode) : M unit :=
  d <- gets destination ;;
  dest <- loc_read d ;;
  s <- gets source ;;
  src <- loc_read s ;;
  let result := Z.lxor dest src in
  loc_write d result ;;
  modify (logic_flags op result) ;;
  arith_cycles.

(** Calling through [func]: every handler except [op_imm]. *)
Definition call_direct (f : op_func) (op : opcode) : M unit :=
  match f with
  | op_aaa_fn => op_aaa op | op_aas_fn => op_aas op | op_adc_fn => op_adc op
  | op_add_fn => op_add op | op_and_fn => op_and op | op_callfar_fn => op_callfar op
  | op_cbw_fn => op_cbw op | op_cmp_fn => op_cmp op | op_cwd_fn => op_cwd op
  | op_daa_fn => op_daa op | op_das_fn => op_das op | op_dec_fn => op_dec op
  | op_imm_fn => undefined
  | op_inc_fn => op_inc op | op_ja_fn => op_ja op | op_jae_fn => op_jae op
  | op_jb_fn => op_jb op | op_jbe_fn => op_jbe op | op_je_fn => op_je op
  | op_jg_fn => op_jg op | op_jge_fn => op_jge op | op_jl_fn => op_jl op
  | op_jle_fn => op_jle op | op_jne_fn => op_jne op | op_jno_fn => op_jno op
  | op_jnp_fn => op_jnp op | op_jns_fn => op_jns op | op_jo_fn => op_jo op
  | op_jp_fn => op_jp op | op_js_fn => op_js op | op_lahf_fn => op_lahf op
  | op_lea_fn => op_lea op | op_lds_fn => op_lds op | op_les_fn => op_les op
  | op_mov_fn => op_mov op | op_or_fn => op_or op | op_pop_fn => op_pop op
  | op_popf_fn => op_popf op | op_push_fn => op_push op | op_pushf_fn => op_pushf op
  | op_retnear_fn => op_retnear op | op_retfar_fn => op_retfar op
  | op_sahf_fn => op_sahf op | op_sbb_fn => op_sbb op | op_sub_fn => op_sub op
  | op_test_fn => op_test op | op_wait_fn => op_wait op | op_xchg_fn => op_xchg op
  | op_xor_fn => op_xor op
  end.

(** Group IMM: [imm_table[cpu->modrm_byte.fields.reg].func(op, cpu)].  No
    entry of [imm_table] points back to [op_imm]. *)
Definition op_imm (op : opcode) : M unit :=
  c <- gets id ;;
  e <- defined (imm_table_at (modrm_reg c)) ;;
  f <- defined (func e) ;;
  call_direct f op.

(** [op->func(op, cpu)] for a non-null [func]. *)
Definition call (f : op_func) (op : opcode) : M unit :=
  match f with
  | op_imm_fn => op_imm op
  | _ => call_direct f op
  end.

(** ** cpu8086.c: reset *)

Definition cpu8086_reset (c : cpu8086) : cpu8086 :=
  let c := set_flags 0x0000 c in
  let c := set_ip 0x0000 c in
  let c := set_reg16 CS 0xFFFF c in
  let c := set_reg16 DS 0x0000 c in
  let c := set_reg16 SS 0x0000 c in
  let c := set_reg16 ES 0x0000 c in
  let c := set_mt true c in
  let c := set_q_r 0 c in
  let c := set_q_r 0 c in
  let c := set_biu_prefetch_cycles 3 c in
  let c := set_cycles 0 c in
  let c := set_current_ip 0x0000 c in
  cpu8086_reset_execution_regs c.

(** The structure [quick_malloc] returns: [calloc] zeroes every byte.  Which
    enumerator of [location_type] has the value 0 is not known without the
    header; both locations are set by [loc_set] before a handler reads them. *)
Definition zeroed (b : struct_bus) : cpu8086 :=
  mkcpu b (fun _ => 0) 0 0 [0; 0; 0] 0 0 false false 0 0 0 0 0 0 0 0 0 0 0 0 0
        (Num 0) (Num 0) CPU8086_READY 0
        (mkloc DECODED_ACCUMULATOR (Num 0) false)
        (mkloc DECODED_ACCUMULATOR (Num 0) false) false false false.

Definition cpu8086_new (b : struct_bus) : cpu8086 := cpu8086_reset (zeroed b).

(** ** cpu8086.c: the clock *)

(** The BIU half of a tick: the prefetch at the head of [cpu8086_clock]. *)
Definition clock_biu : M unit :=
  c <- gets id ;;
  when (mt c || negb (q_w c =? q_r c))
    (when (biu_prefetch_cycles c =? 0)
       (w <- defined (bus_read_short (bus c) (Z.shiftl (cs c) 4 + ip c)) ;;
        c' <- defined (q_store c (q_w c) w) ;;
        modify (fun _ => c') ;;
        modify (fun c => set_q_w ((q_w c + 1) mod 3) c) ;;
        modify (set_mt false) ;;
        c <- gets id ;;
        if to_bool (Z.land (ip c) 1)
        then modify (set_hl true) ;;
             modify (fun c => set_ip (u16 (ip c + 1)) c)
        else modify (fun c => set_ip (u16 (ip c + 2)) c)) ;;
     modify (fun c =>
       set_biu_prefetch_cycles (u8 (Z.rem (biu_prefetch_cycles c - 1) 4)) c)).

Definition delta_table (is_word direction : bool) : Z :=
  match is_word, direction with
  | false, false => 1
  | false, true => -1
  | true, false => 2
  | true, true => -2
  end.

(** The label [exec_op] and the [goto] back to it.  Every round of a repeat
    decrements CX, so a bound of one more than CX rounds is enough as long
    as the handler leaves CX alone. *)
Fixpoint exec_op (fuel : nat) (op : opcode) (f : op_func) : M unit :=
  match fuel with
  | O => fun _ => OutOfFuel
  | S fuel' =>
      c <- gets id ;;
      if repeat c && (cx c =? 0)
      then ret tt
      else
        when (repeat c) (modify (fun c => set_reg16 CX (cx c - 1) c)) ;;
        call f op ;;
        c <- gets id ;;
        if repeat c
        then
          let delta := delta_table (is_word op) (cpu8086_getflag c FLAG_DIRECTION) in
          modify (fun c => set_reg16 SI (si c + delta) c) ;;
          modify (fun c => set_reg16 DI (di c + delta) c) ;;
          exec_op fuel' op f
        else modify (fun c => set_cycles (u8 (cycles c - 1)) c)
  end.

(** A local [struct opcode* op] is [None] while it points to no entry of the
    table (never assigned, or past the end); using it then is undefined. *)

(** case CPU8086_EXECUTING *)
Definition stage_executing (op : option opcode) : M unit :=
  o <- defined op ;;
  match func o with
  | None => c_assert false
  | Some f =>
      c <- gets id ;;
      when (repeat c) (add_cycles 9) ;;
      c <- gets id ;;
      exec_op (S (Z.to_nat (cx c))) o f
  end.

(** case CPU8086_DECODE_LOC *)
Definition stage_decode_loc (op : option opcode) : M unit :=
  o <- defined op ;;
  d <- gets destination ;;
  d' <- loc_set d (op_destination o) ;;
  modify (set_destination d') ;;
  s <- gets source ;;
  s' <- loc_set s (op_source o) ;;
  modify (set_source s') ;;
  modify (set_stage CPU8086_EXECUTING) ;;
  stage_executing op.

(** One optional byte of the instruction: when the scratch field still holds
    its sentinel, return from the tick if the queue is empty, else dequeue
    into the field; then go on. *)
Definition fetch_byte (missing : cpu8086 -> bool) (store : Z -> cpu8086 -> cpu8086)
    (k : M unit) : M unit :=
  c <- gets id ;;
  if missing c
  then if mt c
       then ret tt
       else b <- cpu8086_prefetch_dequeue ;; modify (store b) ;; k
  else k.

(** case CPU8086_FETCH_ADDRESS *)
Definition stage_fetch_address (op : option opcode) : M unit :=
  fetch_byte (fun c => imm8_byte c =? IMM8_NONE) set_imm8_byte
  (fetch_byte (fun c => imm16_byte c =? IMM16_NONE) set_imm16_byte
  (o <- defined op ;;
   let segoff := loc_eqb (op_source o) LOC_SEGOFF in
   let finish :=
     modify (fun c =>
       set_immediate
         (to_immediate (if segoff
               then Z.lor (Z.lor (Z.lor (Z.shiftl (imm16_byte c) 24)
                                        (Z.shiftl (imm8_byte c) 16))
                                 (Z.shiftl (hi_segment c) 8))
                          (lo_segment c)
               else Z.lor (Z.shiftl (imm16_byte c) 8) (imm8_byte c))) c) ;;
     modify (set_stage CPU8086_DECODE_LOC) ;;
     stage_decode_loc op in
   if segoff
   then fetch_byte (fun c => lo_segment c =? LO_SEGMENT_NONE) set_lo_segment
       (fetch_byte (fun c => hi_segment c =? HI_SEGMENT_NONE) set_hi_segment
        finish)
   else finish)).

(** case CPU8086_FETCH_IMM *)
Definition stage_fetch_imm (op : option opcode) : M unit :=
  fetch_byte (fun c => imm8_byte c =? IMM8_NONE) set_imm8_byte
  (o <- defined op ;;
   let finish :=
     modify (fun c =>
       set_immediate
         (to_immediate (if is_word o
               then Z.lor (Z.shiftl (imm16_byte c) 8) (imm8_byte c)
               else imm8_byte c)) c) ;;
     modify (set_stage CPU8086_DECODE_LOC) ;;
     stage_decode_loc op in
   c <- gets id ;;
   if is_word o && (imm16_byte c =? IMM16_NONE)
   then if loc_eqb (op_source o) LOC_IMM8
        then modify (fun c =>
               set_imm16_byte (0xFF * Z.land (Z.shiftr (imm8_byte c) 7) 1) c) ;;
             finish
        else fetch_byte (fun _ => true) set_imm16_byte finish
   else finish).

(** The stage an instruction goes to once its ModR/M byte, if any, is read. *)
Definition after_modrm (o : opcode) (op : option opcode) : M unit :=
  if loc_eqb (op_source o) LOC_IMM || loc_eqb (op_source o) LOC_IMM8
  then modify (set_stage CPU8086_FETCH_IMM) ;; stage_fetch_imm op
  else if loc_eqb (op_destination o) LOC_ADDR || loc_eqb (op_source o) LOC_ADDR
          || loc_eqb (op_source o) LOC_SEGOFF
  then modify (set_stage CPU8086_FETCH_ADDRESS) ;; stage_fetch_address op
  else modify (set_stage CPU8086_DECODE_LOC) ;; stage_decode_loc op.

(** The switch on [fields.rm] of the memory forms: the offset before the
    displacement, the default segment register, the cycles charged. *)
Definition modrm_base (c : cpu8086) : Z * Z * Z :=
  match modrm_rm c with
  | 0 => (u16 (bx c + si c), DS, 7)
  | 1 => (u16 (bx c + di c), DS, 8)
  | 2 => (u16 (bp c + si c), SS, 8)
  | 3 => (u16 (bp c + di c), SS, 7)
  | 4 => (si c, DS, 5)
  | 5 => (di c, DS, 5)
  | 6 => if negb (modrm_mod c =? 0)
         then (bp c, SS, 5)
         else (Z.lor (Z.shiftl (disp16_byte c) 8) (disp8_byte c), DS, 6)
  | _ => (bx c, DS, 5)
  end.

(** The rest of case CPU8086_FETCH_MODRM once the ModR/M byte and its
    displacement are in: [cpu->reg], [cpu->rm] and the next stage. *)
Definition resolve_modrm (op : option opcode) : M unit :=
  o <- defined op ;;
  modify (set_modrm_is_segreg
            (loc_eqb (op_destination o) LOC_SREG || loc_eqb (op_source o) LOC_SREG)) ;;
  c <- gets id ;;
  r <- (if is_word o
        then cpu8086_reg_word (modrm_reg c + 8 * of_bool (modrm_is_segreg c))
        else cpu8086_reg_byte (modrm_reg c)) ;;
  modify (set_reg r) ;;
  (if modrm_mod c =? MOD_REG
   then p <- (if is_word o
              then cpu8086_reg_word (modrm_reg c)
              else cpu8086_reg_byte (modrm_rm c)) ;;
        modify (set_rm p)
   else
     let '(base, default_segment, ea_cycles) := modrm_base c in
     add_cycles ea_cycles ;;
     let prefix := if negb (prefix_g2 c =? PREFIX_G2_NONE)
                   then g2_segment c else default_segment in
     offset <- (if modrm_mod c =? MOD_DISP16
                then add_cycles 4 ;;
                     ret (u16 (base + s16 (Z.lor (Z.shiftl (disp16_byte c) 8)
                                                 (disp8_byte c))))
                else if modrm_mod c =? MOD_DISP8
                then add_cycles 4 ;; ret (u16 (base + s8 (disp8_byte c)))
                else ret base) ;;
     p <- cpu8086_reg_word prefix ;;
     seg <- defined (host_read_word c p) ;;
     modify (set_rm (Num (Z.land (Z.shiftl seg 4 + offset) 0xFFFFF)))) ;;
  after_modrm o op.

(** case CPU8086_FETCH_MODRM *)
Definition stage_fetch_modrm (op : option opcode) : M unit :=
  c <- gets id ;;
  if mt c then ret tt else
  when (modrm_byte c =? MODRM_NONE)
       (b <- cpu8086_prefetch_dequeue ;; modify (set_modrm_byte b)) ;;
  c <- gets id ;;
  let is_disp16 := ((modrm_mod c =? 0) && (modrm_rm c =? 6))
                   || (modrm_mod c =? MOD_DISP16) in
  fetch_byte (fun c => ((modrm_mod c =? MOD_DISP8) || is_disp16)
                       && (disp8_byte c =? DISP8_NONE)) set_disp8_byte
  (fetch_byte (fun c => is_disp16 && (disp16_byte c =? DISP16_NONE)) set_disp16_byte
  (resolve_modrm op)).

(** case CPU8086_READY *)
Definition stage_ready : M unit :=
  byte <- cpu8086_prefetch_dequeue ;;
  if byte =? PREFIX_G1_LOCK
  then modify (set_cycles 1)
  else if (byte =? PREFIX_G1_REPNZ) || (byte =? PREFIX_G1_REPZ)
  then modify (set_repeat true) ;;
       modify (set_prefix_g1 byte) ;;
       modify (set_cycles 1)
  else if (byte =? PREFIX_G2_ES) || (byte =? PREFIX_G2_CS)
          || (byte =? PREFIX_G2_SS) || (byte =? PREFIX_G2_DS)
  then modify (set_prefix_g2 byte) ;;
       modify (set_cycles 1)
  else
    modify (set_opcode_byte byte) ;;
    let op := op_table_at byte in
    o <- defined op ;;
    c <- gets id ;;
    when (repeat c && negb (is_string o)) (modify (set_repeat false)) ;;
    if loc_eqb (op_destination o) LOC_RM || loc_eqb (op_source o) LOC_RM
    then modify (set_stage CPU8086_FETCH_MODRM) ;; stage_fetch_modrm op
    else after_modrm o op.

(** The label [next_stage] as the tick first reaches it. *)
Definition next_stage (op : option opcode) : M unit :=
  c <- gets id ;;
  match stage c with
  | CPU8086_READY => stage_ready
  | CPU8086_FETCH_MODRM => stage_fetch_modrm op
  | CPU8086_FETCH_IMM => stage_fetch_imm op
  | CPU8086_FETCH_ADDRESS => stage_fetch_address op
  | CPU8086_DECODE_LOC => stage_decode_loc op
  | CPU8086_EXECUTING => stage_executing op
  end.

(** The EU half of a tick. *)
Definition clock_eu : M unit :=
  c <- gets id ;;
  (* If the last opcode was WAIT and TEST is high, stall for another 5 cycles. *)
  when ((opcode_byte c =? 0x9B) && test c) (add_cycles 5) ;;
  c <- gets id ;;
  (* Skip if there are remaining cycles of execution. *)
  if 0 <? cycles c
  then modify (fun c => set_cycles (u8 (cycles c - 1)) c)
  (* Skip if the prefetch queue is empty. *)
  else if mt c
  then ret tt
  else
    when (match stage c with CPU8086_EXECUTING => true | _ => false end)
         (modify cpu8086_reset_execution_regs) ;;
    c <- gets id ;;
    next_stage (if negb (opcode_byte c =? OPCODE_NONE)
                then op_table_at (opcode_byte c) else None).

Definition cpu8086_clock : M unit := clock_biu ;; clock_eu.

(** [n] calls of [cpu8086_clock] in a row. *)
Fixpoint run (n : nat) : M unit :=
  match n with
  | O => ret tt
  | S n' => cpu8086_clock ;; run n'
  end.

(** ** Scenarios and auxiliary notions *)

(** [memcpy(&pc->memory[at], bytes, sizeof(bytes))], as main.c loads code. *)
Fixpoint load_bytes (bytes : list Z) (at_ : Z) (m : Z -> Z) : Z -> Z :=
  match bytes with
  | [] => m
  | b :: t => load_bytes t (at_ + 1) (fun a => if a =? at_ then b else m a)
  end.

(** [bus_new(0x100000)] with [code] at physical 0xFFFF0, where the reset
    CS:IP points, and [data] at [data_at]. *)
Definition boot (code : list Z) (data : list Z) (data_at : Z) : cpu8086 :=
  cpu8086_new
    (mkbus (load_bytes code 0xFFFF0 (load_bytes data data_at (fun _ => 0))) 0x100000).

(** REP MOVSB over four bytes: DS = ES = 0, SI = 0x100, DI = 0x200, CX = 4. *)
Definition rep_movsb_scenario : cpu8086 :=
  set_reg16 CX 4 (set_reg16 SI 0x100 (set_reg16 DI 0x200
    (boot [0xF3; 0xA4] [0xAA; 0xBB; 0xCC; 0xDD] 0x100))).

(** CALL FAR F000:E05B, encoded offset first: 9A 5B E0 00 F0. *)
Definition far_call_scenario : cpu8086 := boot [0x9A; 0x5B; 0xE0; 0x00; 0xF0] [] 0.

(** LDS AX, [BX] with BX = 0x100 and the far pointer 5678:1234 at DS:0100. *)
Definition lds_scenario : cpu8086 :=
  set_reg16 BX 0x100 (boot [0xC5; 0x07] [0x34; 0x12; 0x78; 0x56] 0x100).

(** LES AX, [BX] on the same data. *)
Definition les_scenario : cpu8086 :=
  set_reg16 BX 0x100 (boot [0xC4; 0x07] [0x34; 0x12; 0x78; 0x56] 0x100).

(** XOR AX, AX. *)
Definition xor_scenario : cpu8086 := boot [0x31; 0xC0] [] 0.

(** The byte 0xCC (INT 3) as the first instruction. *)
Definition int3_scenario : cpu8086 := boot [0xCC] [] 0.

(** The byte 0x0F, an entry of the table without a handler. *)
Definition illegal_scenario : cpu8086 := boot [0x0F] [] 0.

(** The memory behind the bus spans the whole 20-bit address space, as
    that of [bus_new(0x100000)] does. *)
Definition covers_1MiB (b : struct_bus) : Prop := 0x100000 <= memory_size b.

(** The condition under which the BIU refills: the queue is empty, or
    [q_w != q_r]. *)
Definition queue_not_full (c : cpu8086) : bool := mt c || negb (q_w c =? q_r c).

(** [n] BIU steps with the EU left out. *)
Fixpoint biu_only (n : nat) : M unit :=
  match n with
  | O => ret tt
  | S n' => clock_biu ;; biu_only n'
  end.

(** The state a fetching BIU step leaves when the countdown was zero and
    the store into the queue gave [l']. *)
Definition after_fetch (c : cpu8086) (l' : list Z) : cpu8086 :=
  let c1 := set_mt false (set_q_w ((q_w c + 1) mod 3) (set_q l' c)) in
  let c2 := if Z.odd (ip c)
            then set_ip (u16 (ip c + 1)) (set_hl true c1)
            else set_ip (u16 (ip c + 2)) c1 in
  set_biu_prefetch_cycles (u8 (Z.rem (0 - 1) 4)) c2.

(** A computation that, when it returns, has left both operand locations
    of the CPU as they were. *)
Definition keeps_locations {A : Type} (m : M A) : Prop :=
  forall c a c', m c = Done a c' ->
    destination c' = destination c /\ source c' = source c.

(** Even parity of the low eight bits of [x]: the PF of the 8086. *)
Definition even_parity8 (x : Z) : bool :=
  negb (fold_right xorb false (map (Z.testbit x) [0; 1; 2; 3; 4; 5; 6; 7])).

(** [m] leaves the observation [f] of the state as it was whenever it
    returns. *)
Definition preserves {A B : Type} (f : cpu8086 -> B) (m : M A) : Prop :=
  forall c a c', m c = Done a c' -> f c' = f c.

(** Even parity of the low sixteen bits of [x]. *)
Definition even_parity16 (x : Z) : bool :=
  negb (fold_right xorb false
          (map (Z.testbit x) [0; 1; 2; 3; 4; 5; 6; 7; 8; 9; 10; 11; 12; 13; 14; 15])).


(** The value of a [width]-bit operand read as a signed number. *)
Definition signed (is_word : bool) (x : Z) : Z := if is_word then s16 x else s8 x.

(** [op_table[b]], for a byte inside the table. *)
Definition table_entry (b : Z) : opcode :=
  match op_table_at b with
  | Some o => o
  | None => mkop EmptyString LOC_NULL LOC_NULL false false None
  end.

(** The state in which a handler finds the CPU after the decoder has
    resolved a register-to-register form of opcode [b]: destination and
    source point into the register block. *)
Definition decoded_regs (b d s : Z) (c : cpu8086) : cpu8086 :=
  set_source (mkloc DECODED_REGISTER (RegPtr s) false)
    (set_destination (mkloc DECODED_REGISTER (RegPtr d) false)
       (set_opcode_byte b c)).

(** ADD AX, BX (01 D8) with AX = 0x7FFF and BX = 1, decoded. *)
Definition add_scenario : cpu8086 :=
  decoded_regs 0x01 0 6 (set_reg16 BX 1 (set_reg16 AX 0x7FFF (boot [0x01; 0xD8] [] 0))).

(** CMP AX, BX (39 D8) with AX = BX = 0x1234, decoded. *)
Definition cmp_scenario : cpu8086 :=
  decoded_regs 0x39 0 6 (set_reg16 BX 0x1234 (set_reg16 AX 0x1234 (boot [0x39; 0xD8] [] 0))).

(** INC AX (40) with AX = 0xFFFF and CF set, decoded: INC has no source. *)
Definition inc_scenario : cpu8086 :=
  decoded_regs 0x40 0 0
    (cpu8086_setflag FLAG_CARRY true (set_reg16 AX 0xFFFF (boot [0x40] [] 0))).

(** TEST AX, BX (85 D8) with AX = 0xFF00, BX = 0x00FF and CF, OF, AF set,
    decoded. *)
Definition test_scenario : cpu8086 :=
  decoded_regs 0x85 0 6
    (set_flags 0x0811 (set_reg16 BX 0x00FF (set_reg16 AX 0xFF00 (boot [0x85; 0xD8] [] 0)))).

(** The packed BCD encoding of a number below 100: tens in the high nibble,
    units in the low nibble. *)
Definition bcd (x : Z) : Z := (x / 10) * 16 + x mod 10.

(** What the body of [op_daa] computes from AL, AF and CF: the new AL and
    the new CF. *)
Definition daa_adjust (a : Z) (af cf : bool) : Z * bool :=
  let low := (9 <? Z.land a 0xF) || af in
  let added := if low then 6 else 0 in
  let high := (0x99 + (if af then 6 else 0) <? a) || cf in
  let added := if high then u8 (added + 0x60) else added in
  (u8 (a + added), high).

(** The same for [op_das]. *)
Definition das_adjust (a : Z) (af cf : bool) : Z * bool :=
  let low := (9 <? Z.land a 0xF) || af in
  let added := if low then 6 else 0 in
  let high := (0x99 + (if af then 6 else 0) <? a) || cf in
  let added := if high then u8 (added + 0x60) else added in
  (u8 (a + u8 (Z.lnot added + 1)), high).

(** What the bodies of [op_aaa] and [op_aas] compute from AL, AH and AF:
    the new AL, the new AH and the new CF. *)
Definition aaa_adjust (a h : Z) (af : bool) : Z * Z * bool :=
  let adjust := (9 <? Z.land a 0xF) || af in
  if adjust
  then (u8 (Z.land (u8 (a + 6)) 0xF), u8 (h + 1), true)
  else (u8 (Z.land a 0xF), h, false).

Definition aas_adjust (a h : Z) (af : bool) : Z * Z * bool :=
  let adjust := (9 <? Z.land a 0xF) || af in
  if adjust
  then (u8 (Z.land (u8 (a + u16 (Z.lnot 6 + 1))) 0xF), u8 (h - 1), true)
  else (u8 (Z.land a 0xF), h, false).

(** ** bus.c: the master clock *)

(** [bus_clock]: the CPU is clocked when the divider [bus->cpu_clock], an
    [int], is zero; the divider then becomes [(cpu_clock - 1) % 3] with the
    truncating remainder of C.  The divider is threaded beside the CPU
    state, which holds the memory of the bus. *)
Definition bus_clock (cpu_clock : Z) : M Z :=
  when (cpu_clock =? 0) cpu8086_clock ;;
  ret (Z.rem (cpu_clock - 1) 3).

(** [n] calls of [bus_clock], as the loop of main.c makes them. *)
Fixpoint bus_run (n : nat) (cpu_clock : Z) : M Z :=
  match n with
  | O => ret cpu_clock
  | S n' => k <- bus_clock cpu_clock ;; bus_run n' k
  end.

(** The prefetch queue is empty and consistent: marked empty, read and
    write index equal and inside the three-word array, no half-read word. *)
Definition queue_empty (c : cpu8086) : Prop :=
  mt c = true /\ hl c = false /\ q_r c = q_w c /\ 0 <= q_w c < 3
  /\ List.length (q c) = 3%nat.

(** Every cell of the bus memory holds a byte. *)
Definition holds_bytes (b : struct_bus) : Prop :=
  forall a, 0 <= memory b a < 256.

(** A 1 MiB memory in which every cell holds the low byte of its own
    address. *)
Definition counting_memory : struct_bus := mkbus (fun a => a mod 256) 0x100000.

(** The machine [bus_new] builds on that memory, with the BIU countdown
    run down to zero. *)
Definition ready_to_fetch : cpu8086 :=
  set_biu_prefetch_cycles 0 (cpu8086_new counting_memory).

(** * Properties *)

Ltac cmp_true := symmetry; first [apply Z.leb_le | apply Z.ltb_lt | apply Z.eqb_eq]; lia.
Ltac cmp_false := symmetry; apply Z.eqb_neq; lia.

(** ** Arithmetic of bytes and words *)

Lemma land_20_range a : 0 <= Z.land a 0xFFFFF < 0x100000.
Proof.
  change 0xFFFFF with (Z.ones 20). rewrite Z.land_ones by lia.
  change (2 ^ 20) with 0x100000. apply Z.mod_pos_bound. lia.
Qed.

Lemma land_20_succ_neq a : Z.land (a + 1) 0xFFFFF <> Z.land a 0xFFFFF.
Proof.
  change 0xFFFFF with (Z.ones 20). rewrite !Z.land_ones by lia.
  intro H.
  assert (E : (a + 1 - a) mod 2 ^ 20 = 0).
  { rewrite Zminus_mod, H, Z.sub_diag. reflexivity. }
  replace (a + 1 - a) with 1 in E by lia. discriminate E.
Qed.

Lemma high_byte_disjoint r y : Z.land (r mod 256) (y * 256) = 0.
Proof.
  apply Z.bits_inj'. intros n Hn. rewrite Z.land_spec, Z.bits_0.
  destruct (Z.ltb_spec n 8).
  - replace (y * 256) with (Z.shiftl y 8) by (rewrite Z.shiftl_mul_pow2; lia).
    rewrite (Z.shiftl_spec_low _ _ n) by lia. apply andb_false_r.
  - change 256 with (2 ^ 8) at 1. rewrite Z.mod_pow2_bits_high by lia. reflexivity.
Qed.

Lemma recompose16 x :
  0 <= x < 65536 ->
  Z.lor (Z.land x 0xFF) (Z.shiftl (u8 (Z.shiftr x 8)) 8) = x.
Proof.
  intros Hx. unfold u8.
  change 0xFF with (Z.ones 8). rewrite Z.land_ones by lia.
  rewrite Z.shiftr_div_pow2, Z.shiftl_mul_pow2 by lia.
  change (2 ^ 8) with 256.
  assert (Hq : 0 <= x / 256 < 256)
    by (split; [apply Z.div_pos | apply Z.div_lt_upper_bound]; lia).
  rewrite (Z.mod_small (x / 256)) by lia.
  rewrite <- Z.lxor_lor, <- Z.add_nocarry_lxor by apply high_byte_disjoint.
  pose proof (Z.div_mod x 256). lia.
Qed.

Lemma u16_range x : 0 <= u16 x < 65536.
Proof. unfold u16. apply Z.mod_pos_bound. lia. Qed.

Lemma u16_small x : 0 <= x < 65536 -> u16 x = x.
Proof. intros. unfold u16. apply Z.mod_small. lia. Qed.

Lemma u16_push_pop s : 0 <= s < 65536 -> u16 (u16 (s - 2) + 2) = s.
Proof.
  intros Hs. unfold u16.
  rewrite Zplus_mod_idemp_l. replace (s - 2 + 2) with s by lia.
  apply Z.mod_small. lia.
Qed.

Lemma odd_land_1 x : to_bool (Z.land x 1) = Z.odd x.
Proof.
  unfold to_bool. change 1 with (Z.ones 1) at 1. rewrite Z.land_ones by lia.
  change (2 ^ 1) with 2. rewrite <- Z.bit0_odd, <- (Z.bit0_mod x).
  destruct (Z.testbit x 0); reflexivity.
Qed.

(** A property checked on every number below [n] holds of each of them. *)
Lemma forallb_below (P : Z -> bool) (n : nat) :
  forallb P (map Z.of_nat (seq 0 n)) = true ->
  forall x, 0 <= x < Z.of_nat n -> P x = true.
Proof.
  intros H x Hx. rewrite forallb_forall in H. apply H.
  rewrite <- (Z2Nat.id x) by lia. apply in_map, in_seq. lia.
Qed.

(** ** The register block *)

Section Registers.

Variable c : cpu8086.

Lemma reg16_set_reg16_same r v : reg16 (set_reg16 r v c) r = u16 v.
Proof.
  unfold reg16, set_reg16, set_regs. cbn [regs].
  rewrite Z.eqb_refl.
  replace (2 * r + 1 =? 2 * r) with false by cmp_false.
  rewrite Z.eqb_refl.
  pose proof (u16_range v) as Hv.
  assert (Hq : 0 <= Z.shiftr (u16 v) 8 < 256).
  { rewrite Z.shiftr_div_pow2 by lia. change (2 ^ 8) with 256.
    split; [apply Z.div_pos | apply Z.div_lt_upper_bound]; lia. }
  rewrite <- (recompose16 (u16 v)) at 3 by exact Hv.
  unfold u8. rewrite (Z.mod_small (Z.shiftr (u16 v) 8)) by lia. reflexivity.
Qed.

Lemma reg16_set_reg16_other r r' v :
  r' <> r -> reg16 (set_reg16 r v c) r' = reg16 c r'.
Proof.
  intros Hr. unfold reg16, set_reg16, set_regs. cbn [regs].
  replace (2 * r' =? 2 * r) with false by cmp_false.
  replace (2 * r' =? 2 * r + 1) with false by cmp_false.
  replace (2 * r' + 1 =? 2 * r) with false by cmp_false.
  replace (2 * r' + 1 =? 2 * r + 1) with false by cmp_false.
  reflexivity.
Qed.

End Registers.

(** ** The bus *)

Section Bus.

Variable b : struct_bus.
Hypothesis Hb : covers_1MiB b.

Lemma mem_store_ok i v :
  0 <= i < 0x100000 ->
  mem_store b i v
  = Some (mkbus (fun j => if j =? i then v else memory b j) (memory_size b)).
Proof.
  unfold covers_1MiB, mem_store in *. intros Hi.
  replace (0 <=? i) with true by cmp_true.
  replace (i <? memory_size b) with true by cmp_true.
  reflexivity.
Qed.

Lemma mem_load_ok i : 0 <= i < 0x100000 -> mem_load b i = Some (memory b i).
Proof.
  unfold covers_1MiB, mem_load in *. intros Hi.
  replace (0 <=? i) with true by cmp_true.
  replace (i <? memory_size b) with true by cmp_true.
  reflexivity.
Qed.

End Bus.

(** A word written at any address is the word read back there: the two
    bytes go to [a & 0xFFFFF] and [(a + 1) & 0xFFFFF], which differ. *)
Lemma bus_write_short_read_short b a x :
  covers_1MiB b -> 0 <= x < 65536 ->
  exists b', bus_write_short b a x = Some b'
             /\ bus_read_short b' a = Some x
             /\ memory_size b' = memory_size b.
Proof.
  intros Hb Hx. unfold bus_write_short.
  rewrite (u16_small x) by exact Hx.
  pose proof (land_20_range a) as Ha. pose proof (land_20_range (a + 1)) as Ha1.
  pose proof (land_20_succ_neq a) as Hne.
  rewrite mem_store_ok by assumption.
  rewrite mem_store_ok by (unfold covers_1MiB in *; simpl; assumption).
  eexists. split; [reflexivity|]. split; [|reflexivity].
  unfold bus_read_short.
  rewrite !mem_load_ok by (unfold covers_1MiB in *; simpl; assumption).
  cbn [memory].
  rewrite !Z.eqb_refl.
  replace (Z.land a 1048575 =? Z.land (a + 1) 1048575) with false
    by (symmetry; apply Z.eqb_neq; congruence).
  rewrite recompose16 by exact Hx. rewrite u16_small by exact Hx. reflexivity.
Qed.

(** ** The stack *)

(** C9. For every 16-bit value [x] and every SS:SP, a push of [x] followed
    by a pop returns [x] and leaves SP at its pre-push value: the push
    decrements SP by 2 and then writes the word at SS:SP, the pop reads the
    word at SS:SP and then increments SP by 2. *)
Theorem push_pop_roundtrip (c : cpu8086) (x : Z) :
  0 <= x < 65536 -> 0 <= sp c < 65536 -> covers_1MiB (bus c) ->
  exists c1 c2,
    cpu8086_push x c = Done tt c1
    /\ sp c1 = u16 (sp c - 2)
    /\ bus_read_short (bus c1) (Z.shiftl (ss c1) 4 + sp c1) = Some x
    /\ cpu8086_pop c1 = Done x c2
    /\ sp c2 = u16 (sp c1 + 2)
    /\ sp c2 = sp c
    /\ ss c2 = ss c.
Proof.
  intros Hx Hsp Hb.
  set (c0 := set_reg16 SP (sp c - 2) c).
  destruct (bus_write_short_read_short (bus c0) (Z.shiftl (ss c0) 4 + sp c0) x)
    as (b' & Hw & Hr & Hsz).
  { exact Hb. }
  { exact Hx. }
  assert (Hsp0 : sp c0 = u16 (sp c - 2)) by apply reg16_set_reg16_same.
  assert (Hss0 : ss c0 = ss c) by (apply reg16_set_reg16_other; discriminate).
  exists (set_bus b' c0), (set_reg16 SP (sp (set_bus b' c0) + 2) (set_bus b' c0)).
  assert (Hpush : cpu8086_push x c = Done tt (set_bus b' c0)).
  { unfold cpu8086_push, bind, modify, gets, defined, ret, id. fold c0.
    rewrite (u16_small x) by exact Hx. rewrite Hw. reflexivity. }
  assert (Hsp1 : sp (set_bus b' c0) = u16 (sp c - 2)) by exact Hsp0.
  assert (Hrd : bus_read_short (bus (set_bus b' c0))
                  (Z.shiftl (ss (set_bus b' c0)) 4 + sp (set_bus b' c0)) = Some x)
    by exact Hr.
  split; [exact Hpush|].
  split; [exact Hsp1|].
  split; [exact Hrd|].
  split.
  { unfold cpu8086_pop, bind, modify, gets, defined, ret, id.
    rewrite Hrd. reflexivity. }
  split; [apply reg16_set_reg16_same|].
  split.
  { unfold sp at 1. rewrite reg16_set_reg16_same, Hsp1. apply u16_push_pop. exact Hsp. }
  unfold ss. rewrite reg16_set_reg16_other by discriminate. exact Hss0.
Qed.

Lemma push_pop_roundtrip_witness :
  exists c1 c2,
    cpu8086_push 0x1234 far_call_scenario = Done tt c1
    /\ sp c1 = u16 (sp far_call_scenario - 2)
    /\ bus_read_short (bus c1) (Z.shiftl (ss c1) 4 + sp c1) = Some 0x1234
    /\ cpu8086_pop c1 = Done 0x1234 c2
    /\ sp c2 = u16 (sp c1 + 2)
    /\ sp c2 = sp far_call_scenario
    /\ ss c2 = ss far_call_scenario.
Proof.
  apply (push_pop_roundtrip far_call_scenario 0x1234).
  - lia.
  - vm_compute. split; [discriminate | reflexivity].
  - vm_compute. discriminate.
Defined.

(** ** Flags *)

Section Flags.

Variable c : cpu8086.

Lemma getflag_testbit k :
  0 <= k -> cpu8086_getflag c (Z.shiftl 1 k) = Z.testbit (flags c) k.
Proof.
  intros Hk. unfold cpu8086_getflag, to_bool.
  rewrite Z.shiftl_1_l.
  destruct (Z.testbit (flags c) k) eqn:E.
  - apply negb_true_iff, Z.eqb_neq. intro H0.
    assert (Hbit : Z.testbit (Z.land (flags c) (2 ^ k)) k = true).
    { rewrite Z.land_spec, E, Z.pow2_bits_true by lia. reflexivity. }
    rewrite H0, Z.bits_0 in Hbit. discriminate Hbit.
  - apply negb_false_iff, Z.eqb_eq. apply Z.bits_inj'. intros n Hn.
    rewrite Z.land_spec, Z.bits_0, Z.pow2_bits_eqb by lia.
    destruct (Z.eqb_spec k n) as [->|_].
    + rewrite E. reflexivity.
    + apply andb_false_r.
Qed.

Lemma testbit_setflag k v j :
  0 <= k < 16 -> 0 <= j < 16 ->
  Z.testbit (flags (cpu8086_setflag (Z.shiftl 1 k) v c)) j
  = if j =? k then v else Z.testbit (flags c) j.
Proof.
  intros Hk Hj. unfold cpu8086_setflag.
  rewrite Z.shiftl_1_l.
  destruct v; unfold set_flags; cbn [flags]; unfold u16;
    change 65536 with (2 ^ 16); rewrite Z.mod_pow2_bits_low by lia.
  - rewrite Z.lor_spec, Z.pow2_bits_eqb by lia.
    rewrite (Z.eqb_sym k j). destruct (j =? k); [apply orb_true_r | apply orb_false_r].
  - rewrite Z.land_spec, Z.lnot_spec, Z.pow2_bits_eqb by lia.
    rewrite (Z.eqb_sym k j). destruct (j =? k); [apply andb_false_r | apply andb_true_r].
Qed.

End Flags.

(** The parity flag [cpu8086_setpzs_flags] leaves behind is what
    [calculate_parity] returned for the 16-bit result. *)
Lemma setpzs_parity result w c :
  cpu8086_getflag (cpu8086_setpzs_flags result w c) FLAG_PARITY
  = calculate_parity (u16 result) w.
Proof.
  unfold FLAG_PARITY. rewrite getflag_testbit by lia.
  unfold cpu8086_setpzs_flags, FLAG_SIGN, FLAG_ZERO, FLAG_PARITY.
  rewrite !testbit_setflag by lia. reflexivity.
Qed.

(** ** What an operation leaves alone *)

Lemma bind_Done {A B : Type} (m : M A) (k : A -> M B) c b c' :
  bind m k c = Done b c' ->
  exists a c1, m c = Done a c1 /\ k a c1 = Done b c'.
Proof.
  unfold bind. destruct (m c) as [a c1| | |]; try discriminate.
  intros H. exists a, c1. split; [reflexivity | exact H].
Qed.

Section Preserves.

Context {B : Type}.
Variable f : cpu8086 -> B.

Lemma preserves_ret {A : Type} (a : A) : preserves f (ret a).
Proof. intros c x c' H. injection H as _ <-. reflexivity. Qed.

Lemma preserves_gets {A : Type} (g : cpu8086 -> A) : preserves f (gets g).
Proof. intros c x c' H. injection H as _ <-. reflexivity. Qed.

Lemma preserves_c_assert b : preserves f (c_assert b).
Proof.
  intros c x c'. unfold c_assert. destruct b; [|discriminate].
  intros H. injection H; intros; subst; reflexivity.
Qed.

Lemma preserves_undefined {A : Type} : preserves f (@undefined A).
Proof. intros c x c'. discriminate. Qed.

Lemma preserves_defined {A : Type} (o : option A) : preserves f (defined o).
Proof. destruct o; [apply preserves_ret | apply preserves_undefined]. Qed.

Lemma preserves_modify g : (forall c, f (g c) = f c) -> preserves f (modify g).
Proof. intros Hg c x c' H. injection H; intros; subst. apply Hg. Qed.

Lemma preserves_bind {A C : Type} (m : M A) (k : A -> M C) :
  preserves f m -> (forall a, preserves f (k a)) -> preserves f (bind m k).
Proof.
  intros Hm Hk c x c' H. apply bind_Done in H as (a & c1 & H1 & H2).
  rewrite (Hk a _ _ _ H2). exact (Hm _ _ _ H1).
Qed.

Lemma preserves_when b m : preserves f m -> preserves f (when b m).
Proof. intros Hm. destruct b; [exact Hm | apply preserves_ret]. Qed.

End Preserves.

Ltac preserves_step :=
  lazymatch goal with
  | |- preserves _ (bind _ _) => apply preserves_bind; [|intros ?]
  | |- preserves _ (ret _) => apply preserves_ret
  | |- preserves _ (gets _) => apply preserves_gets
  | |- preserves _ (c_assert _) => apply preserves_c_assert
  | |- preserves _ undefined => apply preserves_undefined
  | |- preserves _ (defined _) => apply preserves_defined
  | |- preserves _ (when _ _) => apply preserves_when
  | |- preserves _ (modify _) => apply preserves_modify; intros ?; reflexivity
  | |- preserves _ (match ?x with _ => _ end) => destruct x
  end.

Ltac preserves_tac := repeat preserves_step.

(** Observations that the operand accessors cannot change: those blind to
    the cycle counter, the bus, the register block and the immediate
    field. *)
Section Accessors.

Context {B : Type}.
Variable f : cpu8086 -> B.
Hypothesis f_cycles : forall v c, f (set_cycles v c) = f c.

Lemma current_is_word_preserves : preserves f current_is_word.
Proof. unfold current_is_word. preserves_tac. Qed.

Lemma add_cycles_preserves n : preserves f (add_cycles n).
Proof. unfold add_cycles. apply preserves_modify. intros c. apply f_cycles. Qed.

Lemma loc_read_byte_preserves loc : preserves f (loc_read_byte loc).
Proof. unfold loc_read_byte. preserves_tac. Qed.

Lemma loc_read_word_preserves loc : preserves f (loc_read_word loc).
Proof.
  unfold loc_read_word. preserves_tac.
  apply preserves_modify. intros c. apply f_cycles.
Qed.

Lemma loc_read_preserves loc : preserves f (loc_read loc).
Proof.
  unfold loc_read. apply preserves_bind; [apply current_is_word_preserves|].
  intros [|]; [apply loc_read_word_preserves | apply loc_read_byte_preserves].
Qed.

Hypothesis f_bus : forall v c, f (set_bus v c) = f c.
Hypothesis f_regs : forall v c, f (set_regs v c) = f c.
Hypothesis f_immediate : forall v c, f (set_immediate v c) = f c.

Lemma host_write_byte_preserves p v c c' :
  host_write_byte p v c = Some c' -> f c' = f c.
Proof.
  unfold host_write_byte. destruct p as [n|off|off]; [discriminate| |].
  - destruct (_ && _); [|discriminate]. intros H. injection H as <-.
    unfold set_reg8. apply f_regs.
  - destruct (_ && _); [|discriminate]. intros H. injection H as <-.
    apply f_immediate.
Qed.

Lemma host_write_word_preserves p v c c' :
  host_write_word p v c = Some c' -> f c' = f c.
Proof.
  unfold host_write_word.
  destruct (host_write_byte p _ c) as [c1|] eqn:E; [|discriminate].
  intros H. rewrite (host_write_byte_preserves _ _ _ _ H).
  exact (host_write_byte_preserves _ _ _ _ E).
Qed.

Lemma loc_write_byte_preserves loc v : preserves f (loc_write_byte loc v).
Proof.
  intros c a c'.
  unfold loc_write_byte, defined, undefined, gets, modify, id, ret, bind.
  destruct (virtual loc).
  - destruct (number_of _); [|discriminate].
    destruct (bus_write_byte _ _ _); [|discriminate].
    intros H; injection H; intros; subst. apply f_bus.
  - destruct (host_write_byte _ _ _) eqn:E; [|discriminate].
    intros H; injection H; intros; subst. exact (host_write_byte_preserves _ _ _ _ E).
Qed.

Lemma loc_write_word_preserves loc v : preserves f (loc_write_word loc v).
Proof.
  unfold loc_write_word. destruct (virtual loc).
  - preserves_tac; apply preserves_modify; intros c; auto.
  - intros c a c'. unfold defined, undefined, gets, modify, id, ret, bind.
    destruct (host_write_word _ _ _) eqn:E; [|discriminate].
    intros H; injection H; intros; subst. exact (host_write_word_preserves _ _ _ _ E).
Qed.

Lemma loc_write_preserves loc v : preserves f (loc_write loc v).
Proof.
  unfold loc_write. apply preserves_bind; [apply current_is_word_preserves|].
  intros [|]; [apply loc_write_word_preserves | apply loc_write_byte_preserves].
Qed.

Lemma cpu8086_push_preserves w : preserves f (cpu8086_push w).
Proof.
  unfold cpu8086_push. preserves_tac;
    apply preserves_modify; intros c; unfold set_reg16; auto.
Qed.

Lemma cpu8086_pop_preserves : preserves f cpu8086_pop.
Proof.
  unfold cpu8086_pop. preserves_tac.
  apply preserves_modify; intros c; unfold set_reg16; auto.
Qed.

End Accessors.

(** The same for an observation all of whose invariance conditions hold by
    computation, such as a field other than those four. *)
Ltac preserves_access :=
  lazymatch goal with
  | |- preserves _ (loc_read _) => apply loc_read_preserves; solve [assumption | intros; reflexivity]
  | |- preserves _ (loc_write _ _) => apply loc_write_preserves; solve [assumption | intros; reflexivity]
  | |- preserves _ (cpu8086_push _) => apply cpu8086_push_preserves; solve [assumption | intros; reflexivity]
  | |- preserves _ cpu8086_pop => apply cpu8086_pop_preserves; solve [assumption | intros; reflexivity]
  | |- preserves _ (add_cycles _) => apply add_cycles_preserves; solve [assumption | intros; reflexivity]
  | |- _ => preserves_step
  end.

(** ** Parity *)

Lemma parity_table_even v :
  0 <= v < 256 -> parity_at v = even_parity8 v.
Proof.
  intros Hv.
  apply (forallb_below (fun v => Bool.eqb (parity_at v) (even_parity8 v)) 256) in Hv.
  - apply eqb_prop. exact Hv.
  - vm_compute. reflexivity.
Qed.

Lemma low_byte_range x : 0 <= Z.land x 0xFF < 256.
Proof.
  change 0xFF with (Z.ones 8). rewrite Z.land_ones by lia.
  apply Z.mod_pos_bound. lia.
Qed.

Lemma even_parity8_low_byte x : even_parity8 (Z.land (u16 x) 0xFF) = even_parity8 x.
Proof.
  unfold even_parity8. f_equal. f_equal.
  apply map_ext_in. intros i Hi.
  assert (0 <= i < 8) by (simpl in Hi; lia).
  unfold u16. change 65536 with (2 ^ 16). change 0xFF with (Z.ones 8).
  rewrite Z.land_spec, Z.mod_pow2_bits_low, Z.testbit_ones_nonneg by lia.
  replace (i <? 8) with true by cmp_true.
  apply andb_true_r.
Qed.

(** The flag writes that follow [cpu8086_setpzs_flags] in the handlers
    (carry, auxiliary carry, overflow) leave PF as it is. *)
Lemma later_flags_keep_parity c k v :
  0 <= k < 16 -> k <> 2 ->
  cpu8086_getflag (cpu8086_setflag (Z.shiftl 1 k) v c) FLAG_PARITY
  = cpu8086_getflag c FLAG_PARITY.
Proof.
  intros Hk Hne. unfold FLAG_PARITY. rewrite !getflag_testbit by lia.
  rewrite testbit_setflag by lia.
  replace (2 =? k) with false by cmp_false. reflexivity.
Qed.

Lemma even_parity16_u16 x : even_parity16 (u16 x) = even_parity16 x.
Proof.
  unfold even_parity16. f_equal. f_equal.
  apply map_ext_in. intros i Hi.
  assert (0 <= i < 16) by (simpl in Hi; lia).
  unfold u16. change 65536 with (2 ^ 16).
  apply Z.mod_pow2_bits_low. lia.
Qed.

Lemma fold_xorb_app (l1 l2 : list bool) :
  fold_right xorb false (l1 ++ l2)
  = xorb (fold_right xorb false l1) (fold_right xorb false l2).
Proof.
  induction l1 as [|h t IH]; cbn [app fold_right].
  - destruct (fold_right xorb false l2); reflexivity.
  - rewrite IH. symmetry. apply xorb_assoc.
Qed.

Lemma even_parity8_land x : even_parity8 (Z.land x 0xFF) = even_parity8 x.
Proof.
  unfold even_parity8. f_equal. f_equal.
  apply map_ext_in. intros i Hi.
  assert (0 <= i < 8) by (simpl in Hi; lia).
  change 0xFF with (Z.ones 8).
  rewrite Z.land_spec, Z.testbit_ones_nonneg by lia.
  replace (i <? 8) with true by cmp_true.
  apply andb_true_r.
Qed.

(** The word branch of [calculate_parity] in terms of the parities of the
    two bytes. *)
Lemma calculate_parity_word_bytes v :
  calculate_parity v true
  = xorb (even_parity8 v) (even_parity8 (Z.shiftr v 8)).
Proof.
  unfold calculate_parity.
  rewrite !parity_table_even by apply low_byte_range.
  rewrite !even_parity8_land. reflexivity.
Qed.

(** It is the odd parity of the sixteen bits: the xor of two entries of a
    table in which 1 stands for even. *)
Lemma calculate_parity_word_odd v :
  calculate_parity v true = negb (even_parity16 v).
Proof.
  rewrite calculate_parity_word_bytes. unfold even_parity16, even_parity8.
  change [0; 1; 2; 3; 4; 5; 6; 7; 8; 9; 10; 11; 12; 13; 14; 15]
    with ([0; 1; 2; 3; 4; 5; 6; 7] ++ [8; 9; 10; 11; 12; 13; 14; 15]).
  rewrite map_app, fold_xorb_app.
  replace (map (Z.testbit (Z.shiftr v 8)) [0; 1; 2; 3; 4; 5; 6; 7])
    with (map (Z.testbit v) [8; 9; 10; 11; 12; 13; 14; 15]).
  - destruct (fold_right xorb false (map (Z.testbit v) [0; 1; 2; 3; 4; 5; 6; 7])),
             (fold_right xorb false (map (Z.testbit v) [8; 9; 10; 11; 12; 13; 14; 15]));
      reflexivity.
  - cbn [map]. rewrite !Z.shiftr_spec by lia. reflexivity.
Qed.

Lemma even_parity8_u16 x : even_parity8 (u16 x) = even_parity8 x.
Proof.
  unfold even_parity8. f_equal. f_equal.
  apply map_ext_in. intros i Hi.
  assert (0 <= i < 8) by (simpl in Hi; lia).
  unfold u16. change 65536 with (2 ^ 16).
  apply Z.mod_pow2_bits_low. lia.
Qed.

Lemma getflag_flags c1 c2 flag :
  flags c1 = flags c2 -> cpu8086_getflag c1 flag = cpu8086_getflag c2 flag.
Proof. unfold cpu8086_getflag. intros ->. reflexivity. Qed.

Lemma incdec_cycles_flags op : preserves flags (incdec_cycles op).
Proof.
  unfold incdec_cycles. preserves_tac;
    apply add_cycles_preserves; intros; reflexivity.
Qed.

Lemma gets_Done {A : Type} (g : cpu8086 -> A) c a c' :
  gets g c = Done a c' -> a = g c /\ c' = c.
Proof. unfold gets. intros H. injection H; intros; subst; split; reflexivity. Qed.

Lemma modify_Done g c a c' : modify g c = Done a c' -> c' = g c.
Proof. unfold modify. intros H. injection H; intros; subst; reflexivity. Qed.

(** The parity flag INC leaves behind is what [calculate_parity] returns
    for the value read plus one, at the width of the opcode. *)
Lemma op_inc_parity op c c' :
  op_inc op c = Done tt c' ->
  exists dest c1,
    loc_read (destination c) c = Done dest c1
    /\ cpu8086_getflag c' FLAG_PARITY = calculate_parity (u16 (dest + 1)) (is_word op).
Proof.
  unfold op_inc. intros H.
  apply bind_Done in H as (d & c0 & Hd & H). apply gets_Done in Hd as [-> ->].
  apply bind_Done in H as (dest & c1 & Hr & H).
  apply bind_Done in H as ([] & c2 & Hw & H).
  apply bind_Done in H as ([] & c3 & Hm & H).
  apply modify_Done in Hm. apply incdec_cycles_flags in H.
  exists dest, c1. split; [exact Hr|].
  rewrite (getflag_flags c' c3) by exact H. subst c3.
  unfold FLAG_OVERFLOW, FLAG_AUXILIARY.
  rewrite !later_flags_keep_parity by lia.
  apply setpzs_parity.
Qed.

Lemma op_dec_parity op c c' :
  op_dec op c = Done tt c' ->
  exists dest c1,
    loc_read (destination c) c = Done dest c1
    /\ cpu8086_getflag c' FLAG_PARITY
       = calculate_parity (u16 (u32 (dest - 1))) (is_word op).
Proof.
  unfold op_dec. intros H.
  apply bind_Done in H as (d & c0 & Hd & H). apply gets_Done in Hd as [-> ->].
  apply bind_Done in H as (dest & c1 & Hr & H).
  apply bind_Done in H as ([] & c2 & Hw & H).
  apply bind_Done in H as ([] & c3 & Hm & H).
  apply modify_Done in Hm. apply incdec_cycles_flags in H.
  exists dest, c1. split; [exact Hr|].
  rewrite (getflag_flags c' c3) by exact H. subst c3.
  unfold FLAG_OVERFLOW, FLAG_AUXILIARY.
  rewrite !later_flags_keep_parity by lia.
  apply setpzs_parity.
Qed.

(** C5 fails on the code for word-sized results.  For a byte-sized result
    PF is the even parity of the low 8 bits, as the claim and the comment
    on [parity_table] (1 = even, 0 = odd) say.  For a word-sized result
    [calculate_parity] xors two entries of that table, which gives the odd
    parity of all sixteen bits: PF is the claimed value when the high byte
    has odd parity and its negation when the high byte has even parity.
    The additive and the logical handlers, INC and DEC all leave PF as
    [calculate_parity] returned it for the width of the opcode.  XOR AX, AX
    run from reset ends with the result 0 and PF clear. *)
Theorem word_parity_breaks_even_polarity
    (c : cpu8086) (op : opcode) (dest src result : Z) (aux : bool) :
  cpu8086_getflag (cpu8086_setpzs_flags result false c) FLAG_PARITY = even_parity8 result
  /\ cpu8086_getflag (cpu8086_setpzs_flags result true c) FLAG_PARITY
     = negb (even_parity16 result)
  /\ cpu8086_getflag (cpu8086_setpzs_flags result true c) FLAG_PARITY
     = (if even_parity8 (Z.shiftr (u16 result) 8)
        then negb (even_parity8 result) else even_parity8 result)
  /\ cpu8086_getflag (add_flags op dest src result aux c) FLAG_PARITY
     = cpu8086_getflag (cpu8086_setpzs_flags result (is_word op) c) FLAG_PARITY
  /\ cpu8086_getflag (logic_flags op result c) FLAG_PARITY
     = cpu8086_getflag (cpu8086_setpzs_flags result (is_word op) c) FLAG_PARITY
  /\ match op_inc op c with
     | Done _ c' =>
         exists v c1,
           loc_read (destination c) c = Done v c1
           /\ cpu8086_getflag c' FLAG_PARITY
              = cpu8086_getflag (cpu8086_setpzs_flags (v + 1) (is_word op) c) FLAG_PARITY
     | _ => True
     end
  /\ match op_dec op c with
     | Done _ c' =>
         exists v c1,
           loc_read (destination c) c = Done v c1
           /\ cpu8086_getflag c' FLAG_PARITY
              = cpu8086_getflag (cpu8086_setpzs_flags (u32 (v - 1)) (is_word op) c)
                  FLAG_PARITY
     | _ => True
     end
  /\ even_parity8 0 = true
  /\ cpu8086_getflag (cpu8086_setpzs_flags 0 true xor_scenario) FLAG_PARITY = false
  /\ match run 4 xor_scenario with
     | Done _ c' => ax c' = 0 /\ cpu8086_getflag c' FLAG_PARITY = false
     | _ => False
     end.
Proof.
  split.
  { rewrite setpzs_parity. unfold calculate_parity.
    rewrite parity_table_even by apply low_byte_range.
    apply even_parity8_low_byte. }
  split.
  { rewrite setpzs_parity, calculate_parity_word_odd.
    rewrite even_parity16_u16. reflexivity. }
  split.
  { rewrite setpzs_parity, calculate_parity_word_bytes, even_parity8_u16.
    destruct (even_parity8 result), (even_parity8 (Z.shiftr (u16 result) 8));
      reflexivity. }
  split.
  { unfold add_flags, FLAG_OVERFLOW, FLAG_AUXILIARY, FLAG_CARRY.
    rewrite !later_flags_keep_parity by lia. reflexivity. }
  split.
  { unfold logic_flags, FLAG_OVERFLOW, FLAG_AUXILIARY, FLAG_CARRY.
    rewrite !later_flags_keep_parity by lia. reflexivity. }
  split.
  { destruct (op_inc op c) as [[] c'| | |] eqn:E; try exact I.
    apply op_inc_parity in E as (v & c1 & Hread & Hpf).
    exists v, c1. split; [exact Hread|].
    rewrite setpzs_parity. exact Hpf. }
  split.
  { destruct (op_dec op c) as [[] c'| | |] eqn:E; try exact I.
    apply op_dec_parity in E as (v & c1 & Hread & Hpf).
    exists v, c1. split; [exact Hread|].
    rewrite setpzs_parity. exact Hpf. }
  vm_compute. split; [reflexivity|]. split; [reflexivity|]. split; reflexivity.
Qed.

(** ** Prefetch *)

Lemma list_store_3 (l : list Z) (i v : Z) :
  List.length l = 3%nat -> 0 <= i < 3 ->
  exists l', list_store l (Z.to_nat i) v = Some l'
             /\ nth_error l' (Z.to_nat i) = Some v
             /\ List.length l' = 3%nat.
Proof.
  intros Hl Hi.
  destruct l as [|a [|b [|d [|]]]]; try discriminate Hl.
  assert (Hc : i = 0 \/ i = 1 \/ i = 2) by lia.
  destruct Hc as [-> | [-> | ->]]; eexists; repeat split.
Qed.

(** A BIU step that finds a non-zero countdown only counts. *)
Lemma clock_biu_counts (d : cpu8086) :
  queue_not_full d = true ->
  (biu_prefetch_cycles d =? 0) = false ->
  clock_biu d
  = Done tt (set_biu_prefetch_cycles (u8 (Z.rem (biu_prefetch_cycles d - 1) 4)) d).
Proof.
  intros Hnf Hz. unfold queue_not_full in Hnf.
  unfold clock_biu, bind, gets, id, when. rewrite Hnf, Hz. reflexivity.
Qed.

(** With [mt] clear and [q_r = q_w] the BIU takes the queue for full and
    leaves the whole state as it is. *)
Lemma clock_biu_idle (d : cpu8086) :
  queue_not_full d = false -> clock_biu d = Done tt d.
Proof.
  intros Hnf. unfold queue_not_full in Hnf.
  unfold clock_biu, bind, gets, id, when. rewrite Hnf. reflexivity.
Qed.

Lemma clock_biu_fetches (c : cpu8086) (w : Z) (l' : list Z) :
  queue_not_full c = true ->
  biu_prefetch_cycles c = 0 ->
  bus_read_short (bus c) (Z.shiftl (cs c) 4 + ip c) = Some w ->
  q_store c (q_w c) w = Some (set_q l' c) ->
  clock_biu c = Done tt (after_fetch c l').
Proof.
  intros Hnf Hz Hrd Hqs. unfold queue_not_full in Hnf.
  unfold clock_biu, bind, gets, id, when. rewrite Hnf, Hz. cbn [Z.eqb].
  unfold bind, defined, ret. rewrite Hrd, Hqs.
  unfold modify, gets, id, after_fetch.
  change (ip (set_mt false (set_q_w ((q_w (set_q l' c) + 1) mod 3) (set_q l' c))))
    with (ip c).
  rewrite odd_land_1.
  destruct (Z.odd (ip c)); cbn [biu_prefetch_cycles set_ip set_hl set_mt set_q_w set_q];
    rewrite Hz; reflexivity.
Qed.

(** From the countdown a fetch leaves, three BIU steps on a queue that is
    not full bring the countdown to zero and change nothing else. *)
Lemma biu_three_more (d : cpu8086) :
  queue_not_full d = true ->
  biu_prefetch_cycles d = u8 (Z.rem (0 - 1) 4) ->
  biu_only 3 d = Done tt (set_biu_prefetch_cycles 0 d).
Proof.
  intros Hnf Hcount. change (u8 (Z.rem (0 - 1) 4)) with 255 in Hcount.
  unfold biu_only. unfold bind at 1.
  rewrite clock_biu_counts by (try exact Hnf; rewrite Hcount; reflexivity).
  rewrite Hcount. change (u8 (Z.rem (255 - 1) 4)) with 2.
  unfold bind at 1.
  rewrite clock_biu_counts by (try exact Hnf; reflexivity).
  change (biu_prefetch_cycles (set_biu_prefetch_cycles 2 d)) with 2.
  change (u8 (Z.rem (2 - 1) 4)) with 1.
  unfold bind at 1.
  rewrite clock_biu_counts by (try exact Hnf; reflexivity).
  reflexivity.
Qed.

(** C7, as the code has it.  On a tick where the queue is not full and the
    BIU countdown is zero, the word read at [(CS << 4) + IP] is stored at
    [q[q_w]], [q_w] advances by one mod 3, the queue is marked non-empty
    and IP advances by two, or by one with [hl] set when IP was odd.  The
    countdown then restarts so that, while the queue stays not full, three
    further BIU steps only count it down to zero: the next word is fetched
    on the fourth tick after this one. *)
Theorem biu_fetch_tick (c : cpu8086) (w : Z) :
  queue_not_full c = true ->
  biu_prefetch_cycles c = 0 ->
  bus_read_short (bus c) (Z.shiftl (cs c) 4 + ip c) = Some w ->
  0 <= q_w c < 3 -> List.length (q c) = 3%nat ->
  exists c',
    clock_biu c = Done tt c'
    /\ q_at c' (q_w c) = Some w
    /\ q_w c' = (q_w c + 1) mod 3
    /\ mt c' = false
    /\ (if Z.odd (ip c)
        then hl c' = true /\ ip c' = u16 (ip c + 1)
        else hl c' = hl c /\ ip c' = u16 (ip c + 2))
    /\ (queue_not_full c' = true ->
        biu_only 3 c' = Done tt (set_biu_prefetch_cycles 0 c')).
Proof.
  intros Hnf Hz Hrd Hw Hq.
  destruct (list_store_3 (q c) (q_w c) w Hq Hw) as (l' & Hst & Hnth & Hl').
  assert (Hqs : q_store c (q_w c) w = Some (set_q l' c)).
  { unfold q_store. replace (0 <=? q_w c) with true by cmp_true.
    rewrite Hst. reflexivity. }
  exists (after_fetch c l').
  split; [apply (clock_biu_fetches c w l'); assumption|].
  split.
  { unfold q_at. replace (0 <=? q_w c) with true by cmp_true.
    unfold after_fetch. destruct (Z.odd (ip c)); exact Hnth. }
  split; [unfold after_fetch; destruct (Z.odd (ip c)); reflexivity|].
  split; [unfold after_fetch; destruct (Z.odd (ip c)); reflexivity|].
  split; [unfold after_fetch; destruct (Z.odd (ip c)); split; reflexivity|].
  intros Hnf'. apply biu_three_more; [exact Hnf'|].
  unfold after_fetch. destruct (Z.odd (ip c)); reflexivity.
Qed.

Lemma biu_fetch_tick_witness :
  exists c',
    clock_biu (set_biu_prefetch_cycles 0 far_call_scenario) = Done tt c'
    /\ q_at c' 0 = Some 0x5B9A
    /\ q_w c' = 1
    /\ mt c' = false
    /\ (hl c' = false /\ ip c' = 2)
    /\ (queue_not_full c' = true ->
        biu_only 3 c' = Done tt (set_biu_prefetch_cycles 0 c')).
Proof.
  apply (biu_fetch_tick (set_biu_prefetch_cycles 0 far_call_scenario) 0x5B9A).
  - vm_compute. reflexivity.
  - reflexivity.
  - vm_compute. reflexivity.
  - vm_compute. split; [discriminate | reflexivity].
  - reflexivity.
Defined.

(** C7 as stated fails on the countdown: the fourth tick after reset finds
    the queue not full and the countdown at zero, fetches, and leaves a
    countdown that is not four. *)
Lemma biu_countdown_counterexample :
  match run 3 far_call_scenario with
  | Done _ c3 =>
      queue_not_full c3 = true /\ biu_prefetch_cycles c3 = 0
      /\ match cpu8086_clock c3 with
         | Done _ c4 => ip c4 = 2 /\ biu_prefetch_cycles c4 <> 4
         | _ => False
         end
  | _ => False
  end.
Proof. vm_compute. repeat split. discriminate. Qed.

(** ** Control transfers *)

Lemma cpu8086_jump_queue (c : cpu8086) (new_cs new_ip : Z) :
  mt (cpu8086_jump new_cs new_ip c) = false
  /\ hl (cpu8086_jump new_cs new_ip c) = false
  /\ q_r (cpu8086_jump new_cs new_ip c) = q_w (cpu8086_jump new_cs new_ip c).
Proof.
  unfold cpu8086_jump. destruct (negb _); split; [|split| |split]; reflexivity.
Qed.

(** C1 does not hold of the code.  [cpu8086_jump] sets the half-byte
    cursor to zero and the read index to the write index, but it clears the
    empty flag instead of setting it: the queue a control transfer leaves
    counts as full, and the next BIU step fetches nothing. *)
Theorem cpu8086_jump_leaves_queue_marked_full (c : cpu8086) (new_cs new_ip : Z) :
  let c' := cpu8086_jump new_cs new_ip c in
  mt c' = false /\ hl c' = false /\ q_r c' = q_w c'
  /\ queue_not_full c' = false
  /\ clock_biu c' = Done tt c'.
Proof.
  cbv zeta.
  destruct (cpu8086_jump_queue c new_cs new_ip) as (Hmt & Hhl & Hq).
  revert Hmt Hhl Hq. generalize (cpu8086_jump new_cs new_ip c) as d.
  intros d Hmt Hhl Hq.
  assert (Hnf : queue_not_full d = false).
  { unfold queue_not_full. rewrite Hmt, Hq, Z.eqb_refl. reflexivity. }
  split; [exact Hmt|]. split; [exact Hhl|]. split; [exact Hq|]. split; [exact Hnf|].
  apply clock_biu_idle. exact Hnf.
Qed.

(** C4 does not hold of the code.  CALL FAR F000:E05B, encoded
    9A 5B E0 00 F0, pushes CS = FFFF and then current_ip = 5, but the
    decoder packs the offset bytes into the high half of the immediate and
    the handler takes IP from the low half: IP becomes the encoded segment
    F000 and CS the encoded offset E05B. *)
Theorem far_call_swaps_segment_and_offset :
  match run 12 far_call_scenario with
  | Done _ c =>
      immediate c = 0xE05BF000
      /\ cs c = 0xE05B /\ ip c = 0xF000
      /\ sp c = 0xFFFC
      /\ bus_read_short (bus c) 0xFFFE = Some 0xFFFF
      /\ bus_read_short (bus c) 0xFFFC = Some 5
      /\ mt c = false
  | _ => False
  end.
Proof. vm_compute. repeat split. Qed.

(** ** Byte registers *)

(** C3 does not hold of the code for the register numbers 4..7.
    [cpu8086_reg_byte] adds [reg & 0b100], that is 4, where the high byte
    of a register lies 1 past its low byte.  The numbers 0..3 resolve to
    the byte offsets 0, 2, 4, 6 (AL, CL, DL, BL), but 4..7 resolve to
    4, 6, 8, 10 instead of 1, 3, 5, 7: number 4 (AH) is the low byte of
    DX, and a write through the AH location changes DL and leaves AH
    alone. *)
Theorem loc_AH_resolves_to_DL (c : cpu8086) (loc : location) (v : Z) :
  map (fun r => cpu8086_reg_byte r c) [0; 1; 2; 3; 4; 5; 6; 7]
  = map (fun off => Done (RegPtr off) c) [0; 2; 4; 6; 4; 6; 8; 10]
  /\ loc_set loc LOC_AH c = Done (mkloc DECODED_ACCUMULATOR (RegPtr 4) false) c
  /\ loc_write_byte (mkloc DECODED_ACCUMULATOR (RegPtr 4) false) v c
     = Done tt (set_reg8 4 (u8 v) c)
  /\ ah (set_reg8 4 (u8 v) c) = ah c
  /\ reg8 (set_reg8 4 (u8 v) c) (2 * DX) = u8 v.
Proof.
  split; [reflexivity|]. split; [reflexivity|]. split; [reflexivity|].
  split; [reflexivity|].
  unfold reg8, set_reg8, set_regs. cbn [regs]. change (2 * DX =? 4) with true.
  unfold u8. apply Zmod_mod.
Qed.

(** ** Whole instructions *)

(** The string cases of [loc_set] end in the LOC_NULL case. *)
Lemma loc_set_strsrc_state loc c l c' :
  loc_set_strsrc loc c = Done l c' -> c' = c.
Proof.
  unfold loc_set_strsrc, cpu8086_reg_word, c_assert, defined, undefined, gets, id, ret, bind.
  destruct (_ <? _); [|discriminate].
  destruct (host_read_word _ _); [|discriminate].
  intros H. injection H as _ <-. reflexivity.
Qed.

Lemma loc_set_string_source_is_null loc c l c' :
  loc_set loc LOC_STRSRC c = Done l c' ->
  l = mkloc DECODED_NULL (Num (Z.shiftl (es c) 4 + di c)) true /\ c' = c.
Proof.
  cbn [loc_set]. unfold bind.
  destruct (loc_set_strsrc loc c) as [l1 c1| | |] eqn:E; try discriminate.
  apply loc_set_strsrc_state in E. subst c1.
  unfold loc_set_strdst, loc_set_null, bind, gets, id, ret. cbn [address virtual].
  intros H. injection H as <- <-. split; reflexivity.
Qed.

Lemma loc_set_string_destination_is_null loc c :
  loc_set loc LOC_STRDST c
  = Done (mkloc DECODED_NULL (Num (Z.shiftl (es c) 4 + di c)) true) c.
Proof. reflexivity. Qed.

(** ** Operand accesses leave the two operand locations alone *)

Lemma host_write_byte_locations p v c c' :
  host_write_byte p v c = Some c' ->
  destination c' = destination c /\ source c' = source c.
Proof.
  destruct p as [n|off|off]; cbn [host_write_byte]; [discriminate| |];
    destruct (_ && _); try discriminate;
    intros H; injection H as <-; split; reflexivity.
Qed.

Lemma host_write_word_locations p v c c' :
  host_write_word p v c = Some c' ->
  destination c' = destination c /\ source c' = source c.
Proof.
  unfold host_write_word.
  destruct (host_write_byte p _ c) as [c1|] eqn:E1; [|discriminate].
  intros E2.
  apply host_write_byte_locations in E1. apply host_write_byte_locations in E2.
  destruct E1 as [A1 B1]. destruct E2 as [A2 B2]. split; congruence.
Qed.

Lemma loc_read_byte_keeps loc : keeps_locations (loc_read_byte loc).
Proof.
  intros c a c'.
  unfold loc_read_byte, defined, undefined, gets, id, ret, bind.
  destruct (virtual loc).
  - destruct (number_of _); [|discriminate].
    destruct (bus_read_byte _ _); [|discriminate].
    intros H; injection H as _ <-; split; reflexivity.
  - destruct (host_read_byte _ _); [|discriminate].
    intros H; injection H as _ <-; split; reflexivity.
Qed.

Lemma loc_read_word_keeps loc : keeps_locations (loc_read_word loc).
Proof.
  intros c a c'.
  unfold loc_read_word, defined, undefined, when, modify, gets, id, ret, bind.
  destruct (virtual loc).
  - destruct (number_of _); [|discriminate].
    destruct (to_bool _).
    + cbn [bus set_cycles].
      destruct (bus_read_short _ _); [|discriminate].
      intros H; injection H as _ <-; split; reflexivity.
    + destruct (bus_read_short _ _); [|discriminate].
      intros H; injection H as _ <-; split; reflexivity.
  - destruct (host_read_word _ _); [|discriminate].
    intros H; injection H as _ <-; split; reflexivity.
Qed.

Lemma loc_write_byte_keeps loc v : keeps_locations (loc_write_byte loc v).
Proof.
  intros c a c'.
  unfold loc_write_byte, defined, undefined, modify, gets, id, ret, bind.
  destruct (virtual loc).
  - destruct (number_of _); [|discriminate].
    destruct (bus_write_byte _ _ _); [|discriminate].
    intros H; injection H as _ <-; split; reflexivity.
  - destruct (host_write_byte _ _ _) as [c1|] eqn:E; [|discriminate].
    intros H; injection H as _ <-. exact (host_write_byte_locations _ _ _ _ E).
Qed.

Lemma loc_write_word_keeps loc v : keeps_locations (loc_write_word loc v).
Proof.
  intros c a c'.
  unfold loc_write_word, defined, undefined, when, modify, gets, id, ret, bind.
  destruct (virtual loc).
  - destruct (number_of _); [|discriminate].
    destruct (to_bool _).
    + cbn [bus set_cycles].
      destruct (bus_write_short _ _ _); [|discriminate].
      intros H; injection H as _ <-; split; reflexivity.
    + destruct (bus_write_short _ _ _); [|discriminate].
      intros H; injection H as _ <-; split; reflexivity.
  - destruct (host_write_word _ _ _) as [c1|] eqn:E; [|discriminate].
    intros H; injection H as _ <-. exact (host_write_word_locations _ _ _ _ E).
Qed.

Lemma current_is_word_state c w c' : current_is_word c = Done w c' -> c' = c.
Proof.
  unfold current_is_word, defined, undefined, gets, id, ret, bind.
  destruct (op_table_at _); [|discriminate].
  intros H; injection H as _ <-; reflexivity.
Qed.

Lemma loc_read_keeps loc : keeps_locations (loc_read loc).
Proof.
  intros c a c'. unfold loc_read, bind.
  destruct (current_is_word c) as [w c1| | |] eqn:E; try discriminate.
  apply current_is_word_state in E. subst c1.
  destruct w; [apply loc_read_word_keeps | apply loc_read_byte_keeps].
Qed.

Lemma loc_write_keeps loc v : keeps_locations (loc_write loc v).
Proof.
  intros c a c'. unfold loc_write, bind.
  destruct (current_is_word c) as [w c1| | |] eqn:E; try discriminate.
  apply current_is_word_state in E. subst c1.
  destruct w; [apply loc_write_word_keeps | apply loc_write_byte_keeps].
Qed.

(** With the destination resolved to DECODED_NULL, [op_mov] does not
    return: every case of its cycle switch names another category. *)
Lemma op_mov_null_never_returns op c c' :
  loc_type (destination c) = DECODED_NULL ->
  op_mov op c <> Done tt c'.
Proof.
  intros Hd. unfold op_mov. unfold bind at 1. unfold gets at 1. unfold bind at 1.
  destruct (loc_read (source c) c) as [v c1| | |] eqn:E1; try discriminate.
  apply loc_read_keeps in E1. destruct E1 as [Hd1 Hs1].
  unfold bind at 1. unfold gets at 1. unfold bind at 1.
  destruct (loc_write (destination c1) v c1) as [u c2| | |] eqn:E2; try discriminate.
  apply loc_write_keeps in E2. destruct E2 as [Hd2 Hs2].
  unfold bind, gets, id.
  rewrite Hd2, Hd1, Hd. discriminate.
Qed.

Lemma exec_op_mov_null_never_returns fuel op c c' :
  loc_type (destination c) = DECODED_NULL ->
  repeat c && (cx c =? 0) = false ->
  exec_op fuel op op_mov_fn c <> Done tt c'.
Proof.
  intros Hd Hrep. destruct fuel as [|fuel]; [discriminate|].
  cbn [exec_op]. unfold bind at 1. unfold gets at 1. unfold id.
  cbv beta iota. rewrite Hrep.
  assert (Hstep : forall d, loc_type (destination d) = DECODED_NULL ->
            forall k, bind (call op_mov_fn op) k d <> Done tt c').
  { intros d Hdd k. unfold bind. cbn [call call_direct].
    destruct (op_mov op d) as [u d'| | |] eqn:E; try discriminate.
    destruct u. exfalso. exact (op_mov_null_never_returns op d d' Hdd E). }
  destruct (repeat c); cbn [when]; unfold modify, ret; apply Hstep; exact Hd.
Qed.

(** MOVSB, with or without a repeat prefix, never gets through this
    decoder: whatever the state in which its operands are resolved, the
    tick does not return, except for a repeat that finds CX = 0 and does
    nothing. *)
Lemma movsb_never_completes c c' :
  repeat c && (cx c =? 0) = false ->
  stage_decode_loc (op_table_at 0xA4) c <> Done tt c'.
Proof.
  intros Hrep.
  change (op_table_at 0xA4)
    with (Some (mkop "MOVSB" LOC_STRDST LOC_STRSRC false true (Some op_mov_fn))).
  unfold stage_decode_loc. unfold bind at 1. cbn [defined ret].
  cbn [op_destination op_source].
  unfold bind at 1. unfold gets at 1. unfold bind at 1.
  rewrite loc_set_string_destination_is_null.
  unfold bind at 1. unfold modify at 1.
  unfold bind at 1. unfold gets at 1. unfold bind at 1.
  set (c1 := set_destination _ c).
  destruct (loc_set (source c1) LOC_STRSRC c1) as [l c1'| | |] eqn:E; try discriminate.
  apply loc_set_string_source_is_null in E. destruct E as [-> ->].
  unfold bind at 1. unfold modify at 1. unfold bind at 1. unfold modify at 1.
  set (c2 := set_stage _ _).
  assert (Hd2 : loc_type (destination c2) = DECODED_NULL) by reflexivity.
  assert (Hrep2 : repeat c2 && (cx c2 =? 0) = false) by exact Hrep.
  clearbody c2. clear c1 Hrep.
  unfold stage_executing. unfold bind at 1. cbn [defined ret func].
  unfold bind at 1. unfold gets at 1. unfold id. cbv beta iota.
  unfold bind at 1.
  destruct (repeat c2) eqn:Hr; cbn [when]; unfold add_cycles, modify, ret;
    unfold bind at 1; unfold gets at 1; cbv beta iota;
    apply exec_op_mov_null_never_returns; try exact Hd2.
  - cbn [repeat set_cycles]. rewrite Hr. exact Hrep2.
  - rewrite Hr. reflexivity.
Qed.

(** C2 does not hold of the code.  REP MOVSB with CX = 4 stops in the
    first round: [loc_set] runs from the string cases into the LOC_NULL
    case, so the source comes out as DECODED_NULL at ES:DI = 0x200 rather
    than a string at DS:SI = 0x100, and the cycle switch of [op_mov] ends
    in [assert(false)]. *)
Theorem rep_movsb_aborts :
  loc_set (source rep_movsb_scenario) LOC_STRSRC rep_movsb_scenario
  = Done (mkloc DECODED_NULL (Num 0x200) true) rep_movsb_scenario
  /\ run 5 rep_movsb_scenario <> AssertFailed
  /\ run 6 rep_movsb_scenario = AssertFailed.
Proof.
  split; [reflexivity|]. split; [vm_compute; discriminate|].
  vm_compute. reflexivity.
Qed.

(** C6 does not hold of the code for LDS.  The handler of LDS is that of
    LES under another name: LDS AX, [BX] reads the word at the address
    into AX and the word at the address + 2 into ES, exactly as
    LES AX, [BX] does, and DS keeps its value. *)
Theorem lds_loads_es :
  (forall op, op_lds op = op_les op)
  /\ match run 4 lds_scenario with
     | Done _ c => ax c = 0x1234 /\ es c = 0x5678 /\ ds c = 0 /\ ds lds_scenario = 0
     | _ => False
     end
  /\ match run 4 les_scenario with
     | Done _ c => ax c = 0x1234 /\ es c = 0x5678 /\ ds c = 0
     | _ => False
     end.
Proof.
  split; [intros op; reflexivity|].
  vm_compute. repeat split.
Qed.

(** C8 does not hold of the code.  The root table has 204 entries, for the
    bytes 0x00..0xCB; the byte 0xCC in the READY state indexes past its
    end.  An entry without a handler, such as 0x0F, does stop at the
    assertion of the EXECUTING stage. *)
Theorem opcode_CC_reads_past_the_table :
  List.length op_table = 204%nat
  /\ op_table_at 0xCB <> None
  /\ op_table_at 0xCC = None
  /\ run 4 int3_scenario = Undefined
  /\ run 4 illegal_scenario = AssertFailed.
Proof. vm_compute. repeat split. discriminate. Qed.

(** * Further properties of the code *)

Lemma forallb_below2 (P : Z -> Z -> bool) (n m : nat) :
  forallb (fun x => forallb (P x) (map Z.of_nat (seq 0 m))) (map Z.of_nat (seq 0 n)) = true ->
  forall x y, 0 <= x < Z.of_nat n -> 0 <= y < Z.of_nat m -> P x y = true.
Proof.
  intros H x y Hx Hy.
  apply (forallb_below (fun x => forallb (P x) (map Z.of_nat (seq 0 m))) n H) in Hx.
  exact (forallb_below (P x) m Hx y Hy).
Qed.

(** ** More on the bus *)

Lemma land_20_mod a : Z.land a 0xFFFFF = a mod 0x100000.
Proof. change 0xFFFFF with (Z.ones 20). rewrite Z.land_ones by lia. reflexivity. Qed.

Lemma land_20_wrap a k : Z.land (a + k * 0x100000) 0xFFFFF = Z.land a 0xFFFFF.
Proof. rewrite !land_20_mod. apply Z_mod_plus_full. Qed.

Lemma mem_store_size b i v b' :
  mem_store b i v = Some b' -> memory_size b' = memory_size b.
Proof.
  unfold mem_store. destruct ((0 <=? i) && (i <? memory_size b)); [|discriminate].
  intros E. injection E as <-. reflexivity.
Qed.

Lemma mem_store_load_other b i v b' j :
  mem_store b i v = Some b' -> j <> i -> mem_load b' j = mem_load b j.
Proof.
  unfold mem_store. destruct ((0 <=? i) && (i <? memory_size b)); [|discriminate].
  intros E Hj. injection E as <-. unfold mem_load. cbn [memory memory_size].
  replace (j =? i) with false by (symmetry; apply Z.eqb_neq; exact Hj).
  reflexivity.
Qed.

Lemma shiftr8_u16_range v : 0 <= Z.shiftr (u16 v) 8 < 256.
Proof.
  unfold u16. rewrite Z.shiftr_div_pow2 by lia. change (2 ^ 8) with 256.
  pose proof (Z.mod_pos_bound v 65536 ltac:(lia)).
  split; [apply Z.div_pos | apply Z.div_lt_upper_bound]; lia.
Qed.

Lemma bus_write_byte_read_byte (b : struct_bus) (a v k : Z) :
  covers_1MiB b ->
  exists b',
    bus_write_byte b a v = Some b'
    /\ bus_read_byte b' (a + k * 0x100000) = Some (u8 v)
    /\ memory_size b' = memory_size b.
Proof.
  intros Hb. unfold bus_write_byte.
  rewrite (mem_store_ok b Hb) by apply land_20_range.
  eexists. split; [reflexivity|]. split; [|reflexivity].
  unfold bus_read_byte. rewrite land_20_wrap.
  rewrite mem_load_ok by (try apply land_20_range; exact Hb).
  cbn [memory]. rewrite Z.eqb_refl. reflexivity.
Qed.

(** X1. A byte written at [a] is read back at [a] and at every address that
    differs from [a] by a multiple of 1 MiB: the bus masks addresses to 20
    bits.  The byte stored is the low 8 bits of the value given. *)
Theorem bus_byte_round_trip_wraps (b : struct_bus) (a v k : Z) :
  covers_1MiB b ->
  exists b',
    bus_write_byte b a v = Some b'
    /\ bus_read_byte b' (a + k * 0x100000) = Some (u8 v)
    /\ memory_size b' = memory_size b.
Proof. apply bus_write_byte_read_byte. Qed.

Lemma bus_byte_round_trip_wraps_witness :
  exists b',
    bus_write_byte (bus far_call_scenario) 0x12345 0x1AB = Some b'
    /\ bus_read_byte b' (0x12345 + 1 * 0x100000) = Some (u8 0x1AB)
    /\ memory_size b' = memory_size (bus far_call_scenario).
Proof.
  apply (bus_byte_round_trip_wraps (bus far_call_scenario) 0x12345 0x1AB 1).
  vm_compute. discriminate.
Defined.

(** X2. A byte write that succeeds changes one cell only: every address
    that the 20-bit mask does not send to the written cell reads as it did
    before, an out-of-range read staying out of range. *)
Theorem bus_write_byte_elsewhere (b b' : struct_bus) (a a' v : Z) :
  bus_write_byte b a v = Some b' ->
  Z.land a' 0xFFFFF <> Z.land a 0xFFFFF ->
  bus_read_byte b' a' = bus_read_byte b a'.
Proof.
  unfold bus_write_byte, bus_read_byte. intros Hw Hne.
  exact (mem_store_load_other _ _ _ _ _ Hw Hne).
Qed.

Lemma bus_write_byte_elsewhere_witness :
  bus_write_byte (bus far_call_scenario) 0x12345 0xAB
  = Some (mkbus (fun j => if j =? 0x12345 then 0xAB else memory (bus far_call_scenario) j)
                (memory_size (bus far_call_scenario)))
  /\ bus_read_byte
       (mkbus (fun j => if j =? 0x12345 then 0xAB else memory (bus far_call_scenario) j)
              (memory_size (bus far_call_scenario))) 0xFFFF0
     = bus_read_byte (bus far_call_scenario) 0xFFFF0.
Proof.
  split; [reflexivity|].
  apply (bus_write_byte_elsewhere (bus far_call_scenario) _ 0x12345 0xFFFF0 0xAB).
  - reflexivity.
  - vm_compute. discriminate.
Defined.

(** X3. A word write stores the low byte of the 16-bit value at the address
    and the high byte at the next address, the next address being taken
    modulo 1 MiB: a word written at 0xFFFFF has its high byte at address 0. *)
Theorem bus_write_short_little_endian (b : struct_bus) (a v : Z) :
  covers_1MiB b ->
  exists b',
    bus_write_short b a v = Some b'
    /\ bus_read_byte b' a = Some (Z.land (u16 v) 0xFF)
    /\ bus_read_byte b' (a + 1) = Some (Z.shiftr (u16 v) 8)
    /\ (Z.land a 0xFFFFF = 0xFFFFF -> bus_read_byte b' 0 = Some (Z.shiftr (u16 v) 8)).
Proof.
  intros Hb. unfold bus_write_short.
  pose proof (land_20_range a) as Ha. pose proof (land_20_range (a + 1)) as Ha1.
  pose proof (land_20_succ_neq a) as Hne.
  rewrite mem_store_ok by assumption.
  rewrite mem_store_ok by (unfold covers_1MiB in *; simpl; assumption).
  assert (Hhi : u8 (Z.shiftr (u16 v) 8) = Z.shiftr (u16 v) 8)
    by (unfold u8; apply Z.mod_small, shiftr8_u16_range).
  eexists. split; [reflexivity|].
  unfold bus_read_byte.
  rewrite !mem_load_ok by (unfold covers_1MiB in *; simpl; (assumption || apply land_20_range)).
  cbn [memory]. rewrite !Z.eqb_refl.
  replace (Z.land a 1048575 =? Z.land (a + 1) 1048575) with false
    by (symmetry; apply Z.eqb_neq; congruence).
  rewrite Hhi.
  split; [reflexivity|]. split; [reflexivity|].
  intros Htop.
  assert (E : Z.land (a + 1) 1048575 = 0).
  { rewrite land_20_mod in *. rewrite <- Zplus_mod_idemp_l, Htop. reflexivity. }
  rewrite E.
  rewrite mem_load_ok by (unfold covers_1MiB in *; simpl; (assumption || lia)).
  reflexivity.
Qed.

Lemma bus_write_short_little_endian_witness :
  exists b',
    bus_write_short (bus far_call_scenario) 0xFFFFF 0xBEEF = Some b'
    /\ bus_read_byte b' 0xFFFFF = Some (Z.land (u16 0xBEEF) 0xFF)
    /\ bus_read_byte b' (0xFFFFF + 1) = Some (Z.shiftr (u16 0xBEEF) 8)
    /\ (Z.land 0xFFFFF 0xFFFFF = 0xFFFFF ->
        bus_read_byte b' 0 = Some (Z.shiftr (u16 0xBEEF) 8)).
Proof.
  apply (bus_write_short_little_endian (bus far_call_scenario) 0xFFFFF 0xBEEF).
  vm_compute. discriminate.
Defined.

(** ** Flags: set and get *)

Lemma to_bool_land_bit y k : 0 <= k -> to_bool (Z.land y (Z.shiftl 1 k)) = Z.testbit y k.
Proof.
  intros Hk. unfold to_bool. rewrite Z.shiftl_1_l.
  destruct (Z.testbit y k) eqn:E.
  - apply negb_true_iff, Z.eqb_neq. intro H0.
    assert (Hbit : Z.testbit (Z.land y (2 ^ k)) k = true).
    { rewrite Z.land_spec, E, Z.pow2_bits_true by lia. reflexivity. }
    rewrite H0, Z.bits_0 in Hbit. discriminate Hbit.
  - apply negb_false_iff, Z.eqb_eq. apply Z.bits_inj'. intros n Hn.
    rewrite Z.land_spec, Z.bits_0, Z.pow2_bits_eqb by lia.
    destruct (Z.eqb_spec k n) as [->|_].
    + rewrite E. reflexivity.
    + apply andb_false_r.
Qed.

Lemma getflag_setflag c k j v :
  0 <= k < 16 -> 0 <= j < 16 ->
  cpu8086_getflag (cpu8086_setflag (Z.shiftl 1 k) v c) (Z.shiftl 1 j)
  = if j =? k then v else cpu8086_getflag c (Z.shiftl 1 j).
Proof.
  intros Hk Hj. rewrite !getflag_testbit by lia. apply testbit_setflag; assumption.
Qed.

Lemma setflag_regs flag v c : regs (cpu8086_setflag flag v c) = regs c.
Proof. unfold cpu8086_setflag. destruct v; reflexivity. Qed.

Lemma setpzs_regs r w c : regs (cpu8086_setpzs_flags r w c) = regs c.
Proof. unfold cpu8086_setpzs_flags. rewrite !setflag_regs. reflexivity. Qed.

Lemma getflag_setpzs_other r w c j :
  0 <= j < 16 -> j <> 2 -> j <> 6 -> j <> 7 ->
  cpu8086_getflag (cpu8086_setpzs_flags r w c) (Z.shiftl 1 j)
  = cpu8086_getflag c (Z.shiftl 1 j).
Proof.
  intros Hj H2 H6 H7. unfold cpu8086_setpzs_flags, FLAG_PARITY, FLAG_ZERO, FLAG_SIGN.
  rewrite !getflag_setflag by lia.
  replace (j =? 7) with false by cmp_false.
  replace (j =? 6) with false by cmp_false.
  replace (j =? 2) with false by cmp_false.
  reflexivity.
Qed.

(** X4. Setting flag [k] and then testing flag [j] gives the value just
    set when [j = k] and the old value of flag [j] otherwise: a flag write
    touches one bit of FLAGS. *)
Theorem setflag_then_getflag (c : cpu8086) (k j : Z) (v : bool) :
  0 <= k < 16 -> 0 <= j < 16 ->
  cpu8086_getflag (cpu8086_setflag (Z.shiftl 1 k) v c) (Z.shiftl 1 j)
  = if j =? k then v else cpu8086_getflag c (Z.shiftl 1 j).
Proof. apply getflag_setflag. Qed.

Lemma setflag_then_getflag_witness :
  cpu8086_getflag (cpu8086_setflag (Z.shiftl 1 11) true far_call_scenario) (Z.shiftl 1 0)
  = if 0 =? 11 then true else cpu8086_getflag far_call_scenario (Z.shiftl 1 0).
Proof. apply (setflag_then_getflag far_call_scenario 11 0 true); lia. Defined.

Lemma u16_testbit x n : 0 <= n < 16 -> Z.testbit (u16 x) n = Z.testbit x n.
Proof.
  intros Hn. unfold u16. change 65536 with (2 ^ 16).
  apply Z.mod_pow2_bits_low. lia.
Qed.

Lemma land_1_testbit x : to_bool (Z.land x 1) = Z.testbit x 0.
Proof. apply (to_bool_land_bit x 0). lia. Qed.

Lemma mask_mod_zero r w :
  (Z.land (u16 r) (mask_buffer w) =? 0) = (r mod 2 ^ (sign_bit w + 1) =? 0).
Proof.
  unfold u16. destruct w; cbn [mask_buffer sign_bit].
  - change 0xFFFF with (Z.ones 16). rewrite Z.land_ones by lia.
    change (2 ^ 16) with 65536. change (2 ^ (15 + 1)) with 65536.
    rewrite Z.mod_mod by lia. reflexivity.
  - change 0xFF with (Z.ones 8). rewrite Z.land_ones by lia.
    change (2 ^ 8) with 256. change (2 ^ (7 + 1)) with 256.
    replace (r mod 65536 mod 256) with (r mod 256); [reflexivity|].
    change 65536 with (256 * 256).
    rewrite Z.rem_mul_r by lia.
    rewrite (Z.mul_comm 256), Z_mod_plus_full, Z.mod_mod by lia. reflexivity.
Qed.

Lemma setpzs_zero r w c :
  cpu8086_getflag (cpu8086_setpzs_flags r w c) FLAG_ZERO
  = (r mod 2 ^ (sign_bit w + 1) =? 0).
Proof.
  unfold cpu8086_setpzs_flags, FLAG_PARITY, FLAG_ZERO, FLAG_SIGN.
  rewrite !getflag_setflag by lia. cbn [Z.eqb Pos.eqb].
  apply mask_mod_zero.
Qed.

Lemma setpzs_sign r w c :
  cpu8086_getflag (cpu8086_setpzs_flags r w c) FLAG_SIGN = Z.testbit r (sign_bit w).
Proof.
  unfold cpu8086_setpzs_flags, FLAG_PARITY, FLAG_ZERO, FLAG_SIGN.
  rewrite !getflag_setflag by lia. cbn [Z.eqb Pos.eqb].
  rewrite land_1_testbit, Z.shiftr_spec by lia.
  rewrite u16_testbit by (destruct w; cbn [sign_bit]; lia).
  reflexivity.
Qed.

(** X5. After [cpu8086_setpzs_flags], ZF says that the result is zero
    modulo 2^8 (byte) or 2^16 (word), and SF is bit 7 (byte) or bit 15
    (word) of the result; the flags other than PF, ZF and SF keep their
    values. *)
Theorem setpzs_zero_and_sign (c : cpu8086) (result : Z) (is_word : bool) :
  cpu8086_getflag (cpu8086_setpzs_flags result is_word c) FLAG_ZERO
  = (result mod 2 ^ (sign_bit is_word + 1) =? 0)
  /\ cpu8086_getflag (cpu8086_setpzs_flags result is_word c) FLAG_SIGN
     = Z.testbit result (sign_bit is_word)
  /\ cpu8086_getflag (cpu8086_setpzs_flags result is_word c) FLAG_CARRY
     = cpu8086_getflag c FLAG_CARRY
  /\ cpu8086_getflag (cpu8086_setpzs_flags result is_word c) FLAG_AUXILIARY
     = cpu8086_getflag c FLAG_AUXILIARY
  /\ cpu8086_getflag (cpu8086_setpzs_flags result is_word c) FLAG_OVERFLOW
     = cpu8086_getflag c FLAG_OVERFLOW
  /\ cpu8086_getflag (cpu8086_setpzs_flags result is_word c) FLAG_DIRECTION
     = cpu8086_getflag c FLAG_DIRECTION.
Proof.
  split; [apply setpzs_zero|]. split; [apply setpzs_sign|].
  unfold FLAG_CARRY, FLAG_AUXILIARY, FLAG_OVERFLOW, FLAG_DIRECTION.
  rewrite !getflag_setpzs_other by lia.
  split; [reflexivity|]. split; [reflexivity|]. split; reflexivity.
Qed.

(** ** Handlers and FLAGS *)

Section FlagsUntouched.





















End FlagsUntouched.




(** ** The arithmetic flags *)

Lemma testbit_below_4 x n :
  0 <= n -> 0 <= x < 4 * 2 ^ n ->
  Z.testbit x n = ((2 ^ n <=? x) && (x <? 2 * 2 ^ n)) || (3 * 2 ^ n <=? x).
Proof.
  intros Hn Hx. rewrite Z.testbit_odd, Z.shiftr_div_pow2 by lia.
  assert (Hp : 0 < 2 ^ n) by (apply Z.pow_pos_nonneg; lia).
  pose proof (Z.div_mod x (2 ^ n) ltac:(lia)) as E.
  pose proof (Z.mod_pos_bound x (2 ^ n) Hp) as Hm.
  set (q := x / 2 ^ n) in *. set (r := x mod 2 ^ n) in *. set (p := 2 ^ n) in *.
  assert (Hq : q = 0 \/ q = 1 \/ q = 2 \/ q = 3) by nia.
  destruct Hq as [-> | [-> | [-> | ->]]]; cbn [Z.odd];
    destruct (Z.leb_spec p x), (Z.ltb_spec x (2 * p)), (Z.leb_spec (3 * p) x);
    cbn [andb orb]; try reflexivity; lia.
Qed.

Lemma signed_small w x :
  0 <= x <= mask_buffer w ->
  signed w x = if x <? 2 ^ sign_bit w then x else x - 2 * 2 ^ sign_bit w.
Proof.
  unfold signed, s16, s8, u16, u8. destruct w; cbn [mask_buffer sign_bit]; intros Hx.
  - rewrite Z.mod_small by lia. reflexivity.
  - rewrite Z.mod_small by lia. reflexivity.
Qed.

(** The overflow expression of the additive handlers, for the sum of two
    operands of the width of the opcode. *)
Lemma add_overflow_bit w dest src :
  0 <= dest <= mask_buffer w -> 0 <= src <= mask_buffer w ->
  to_bool (Z.land (Z.land (Z.lxor (dest + src) dest) (Z.lxor (dest + src) src))
                  (Z.shiftl 1 (sign_bit w)))
  = negb ((- 2 ^ sign_bit w <=? signed w dest + signed w src)
          && (signed w dest + signed w src <? 2 ^ sign_bit w)).
Proof.
  intros Hd Hs.
  assert (Hn : 0 <= sign_bit w) by (destruct w; cbn; lia).
  rewrite to_bool_land_bit by exact Hn.
  rewrite Z.land_spec, !Z.lxor_spec.
  rewrite !signed_small by assumption.
  assert (Hm : mask_buffer w = 2 * 2 ^ sign_bit w - 1) by (destruct w; reflexivity).
  assert (Hp : 0 < 2 ^ sign_bit w) by (apply Z.pow_pos_nonneg; lia).
  rewrite !testbit_below_4 by lia.
  set (p := 2 ^ sign_bit w) in *.
  destruct (Z.leb_spec p (dest + src)), (Z.ltb_spec (dest + src) (2 * p)),
           (Z.leb_spec (3 * p) (dest + src)),
           (Z.leb_spec p dest), (Z.ltb_spec dest (2 * p)), (Z.leb_spec (3 * p) dest),
           (Z.leb_spec p src), (Z.ltb_spec src (2 * p)), (Z.leb_spec (3 * p) src);
    try lia;
    destruct (Z.ltb_spec dest p), (Z.ltb_spec src p); try lia;
    cbn [andb orb xorb negb];
    match goal with
    | |- _ = negb ((?a <=? ?b) && (?c <? ?d)) =>
        destruct (Z.leb_spec a b), (Z.ltb_spec c d); cbn [andb negb]; try reflexivity; lia
    end.
Qed.

Lemma add_flags_carry op dest src result aux c :
  cpu8086_getflag (add_flags op dest src result aux c) FLAG_CARRY
  = (mask_buffer (is_word op) <? result).
Proof.
  unfold add_flags, FLAG_OVERFLOW, FLAG_AUXILIARY, FLAG_CARRY.
  rewrite !getflag_setflag by lia. reflexivity.
Qed.

Lemma add_flags_overflow op dest src result aux c :
  cpu8086_getflag (add_flags op dest src result aux c) FLAG_OVERFLOW
  = to_bool (Z.land (Z.land (Z.lxor result dest) (Z.lxor result src))
                    (Z.shiftl 1 (sign_bit (is_word op)))).
Proof.
  unfold add_flags, FLAG_OVERFLOW, FLAG_AUXILIARY, FLAG_CARRY.
  rewrite !getflag_setflag by lia. reflexivity.
Qed.

Lemma add_flags_auxiliary op dest src result aux c :
  cpu8086_getflag (add_flags op dest src result aux c) FLAG_AUXILIARY = aux.
Proof.
  unfold add_flags, FLAG_OVERFLOW, FLAG_AUXILIARY, FLAG_CARRY.
  rewrite !getflag_setflag by lia. reflexivity.
Qed.

Lemma add_flags_zero op dest src result aux c :
  cpu8086_getflag (add_flags op dest src result aux c) FLAG_ZERO
  = (result mod 2 ^ (sign_bit (is_word op) + 1) =? 0).
Proof.
  unfold add_flags, FLAG_OVERFLOW, FLAG_AUXILIARY, FLAG_CARRY, FLAG_ZERO.
  rewrite !getflag_setflag by lia. cbn [Z.eqb Pos.eqb].
  apply setpzs_zero.
Qed.

Lemma add_flags_sign op dest src result aux c :
  cpu8086_getflag (add_flags op dest src result aux c) FLAG_SIGN
  = Z.testbit result (sign_bit (is_word op)).
Proof.
  unfold add_flags, FLAG_OVERFLOW, FLAG_AUXILIARY, FLAG_CARRY, FLAG_SIGN.
  rewrite !getflag_setflag by lia. cbn [Z.eqb Pos.eqb].
  apply setpzs_sign.
Qed.

Lemma logic_flags_cleared op result c :
  cpu8086_getflag (logic_flags op result c) FLAG_CARRY = false
  /\ cpu8086_getflag (logic_flags op result c) FLAG_OVERFLOW = false
  /\ cpu8086_getflag (logic_flags op result c) FLAG_AUXILIARY = false.
Proof.
  unfold logic_flags, FLAG_OVERFLOW, FLAG_AUXILIARY, FLAG_CARRY.
  rewrite !getflag_setflag by lia. split; [|split]; reflexivity.
Qed.

(** ** Handlers: what the flags say afterwards *)

Ltac invert_run :=
  repeat match goal with
         | H : bind _ _ _ = Done _ _ |- _ =>
             apply bind_Done in H; destruct H as (? & ? & ? & ?)
         | H : gets _ _ = Done _ _ |- _ =>
             apply gets_Done in H; destruct H; subst
         | H : modify _ _ = Done _ _ |- _ =>
             apply modify_Done in H; subst
         end.

Lemma arith_cycles_flags : preserves flags arith_cycles.
Proof. unfold arith_cycles. repeat preserves_access. Qed.

Lemma same_read {A : Type} (m : M A) c a1 c1 a2 c2 :
  m c = Done a1 c1 -> m c = Done a2 c2 -> a1 = a2 /\ c1 = c2.
Proof. intros H1 H2. rewrite H1 in H2. injection H2; intros; subst; split; reflexivity. Qed.

(** X7. ADD sets the flags from the two operand values it read: CF is the
    carry out of the operand width, OF says that the sum of the operands
    taken as signed numbers does not fit the width, ZF that the sum is zero
    modulo the width, SF is the top bit of the sum and AF the carry out of
    bit 3. *)
Theorem op_add_flags (op : opcode) (c c1 c2 c' : cpu8086) (dest src : Z) :
  loc_read (destination c) c = Done dest c1 ->
  loc_read (source c) c1 = Done src c2 ->
  0 <= dest <= mask_buffer (is_word op) ->
  0 <= src <= mask_buffer (is_word op) ->
  op_add op c = Done tt c' ->
  cpu8086_getflag c' FLAG_CARRY = (mask_buffer (is_word op) <? dest + src)
  /\ cpu8086_getflag c' FLAG_OVERFLOW
     = negb ((- 2 ^ sign_bit (is_word op)
              <=? signed (is_word op) dest + signed (is_word op) src)
             && (signed (is_word op) dest + signed (is_word op) src
                 <? 2 ^ sign_bit (is_word op)))
  /\ cpu8086_getflag c' FLAG_ZERO
     = ((dest + src) mod 2 ^ (sign_bit (is_word op) + 1) =? 0)
  /\ cpu8086_getflag c' FLAG_SIGN = Z.testbit (dest + src) (sign_bit (is_word op))
  /\ cpu8086_getflag c' FLAG_AUXILIARY = (0xF <? Z.land dest 0xF + Z.land src 0xF).
Proof.
  intros Hrd Hrs Hd Hs H. unfold op_add in H. invert_run.
  match goal with
  | R : loc_read (destination c) c = Done ?a ?b |- _ =>
      destruct (same_read _ _ _ _ _ _ Hrd R); subst a b; clear R
  end.
  assert (Hsrc : source c1 = source c) by (apply (loc_read_keeps _ _ _ _ Hrd)).
  rewrite Hsrc in *.
  match goal with
  | R : loc_read (source c) c1 = Done ?a ?b |- _ =>
      destruct (same_read _ _ _ _ _ _ Hrs R); subst a b; clear R
  end.
  match goal with
  | R : arith_cycles _ = Done _ c' |- _ => apply arith_cycles_flags in R; rename R into Hf
  end.
  rewrite !(getflag_flags c' _ _ Hf).
  rewrite add_flags_carry, add_flags_overflow, add_flags_zero, add_flags_sign,
    add_flags_auxiliary.
  rewrite add_overflow_bit by assumption.
  split; [reflexivity|]. split; [reflexivity|]. split; [reflexivity|].
  split; reflexivity.
Qed.

Lemma op_add_flags_witness :
  exists c',
    op_add (table_entry 0x01) add_scenario = Done tt c'
    /\ cpu8086_getflag c' FLAG_CARRY = false
    /\ cpu8086_getflag c' FLAG_OVERFLOW = true
    /\ cpu8086_getflag c' FLAG_ZERO = false
    /\ cpu8086_getflag c' FLAG_SIGN = true
    /\ cpu8086_getflag c' FLAG_AUXILIARY = true.
Proof.
  eexists. split; [vm_compute; reflexivity|].
  eapply (op_add_flags (table_entry 0x01) add_scenario _ _ _ 0x7FFF 1).
  - vm_compute. reflexivity.
  - vm_compute. reflexivity.
  - vm_compute. split; discriminate.
  - vm_compute. split; discriminate.
  - vm_compute. reflexivity.
Defined.

(** Observations blind to FLAGS and to the cycle counter: CMP and TEST
    cannot change them. *)
Section ReadOnly.

Context {B : Type}.
Variable f : cpu8086 -> B.
Hypothesis f_cycles : forall v c, f (set_cycles v c) = f c.
Hypothesis f_flags : forall v c, f (set_flags v c) = f c.

Lemma setflag_keeps flag v c : f (cpu8086_setflag flag v c) = f c.
Proof. unfold cpu8086_setflag. destruct v; apply f_flags. Qed.

Lemma setpzs_keeps r w c : f (cpu8086_setpzs_flags r w c) = f c.
Proof. unfold cpu8086_setpzs_flags. rewrite !setflag_keeps. reflexivity. Qed.

Lemma add_flags_keeps op dest src r aux c : f (add_flags op dest src r aux c) = f c.
Proof. unfold add_flags. rewrite !setflag_keeps. apply setpzs_keeps. Qed.

Lemma logic_flags_keeps op r c : f (logic_flags op r c) = f c.
Proof. unfold logic_flags. rewrite !setflag_keeps. apply setpzs_keeps. Qed.

Lemma op_cmp_keeps op : preserves f (op_cmp op).
Proof.
  unfold op_cmp.
  repeat first [ preserves_access
               | apply preserves_modify; intros ?; apply add_flags_keeps ].
Qed.

Lemma op_test_keeps op : preserves f (op_test op).
Proof.
  unfold op_test.
  repeat first [ preserves_access
               | apply preserves_modify; intros ?; apply logic_flags_keeps ].
Qed.

End ReadOnly.

Lemma sub_zero_iff w dest v :
  0 <= dest <= mask_buffer w -> 0 <= v <= mask_buffer w ->
  ((dest + u16 (Z.lnot v + 1)) mod 2 ^ (sign_bit w + 1) =? 0) = (dest =? v).
Proof.
  intros Hd Hv. unfold u16, Z.lnot.
  replace (Z.pred (- v) + 1) with (- v) by lia.
  assert (E : (dest + (- v) mod 65536) mod 2 ^ (sign_bit w + 1)
              = (dest - v) mod 2 ^ (sign_bit w + 1)).
  { destruct w; cbn [sign_bit mask_buffer] in *.
    - change (2 ^ (15 + 1)) with 65536.
      rewrite Zplus_mod_idemp_r. f_equal; lia.
    - change (2 ^ (7 + 1)) with 256.
      rewrite <- (Zplus_mod_idemp_r ((- v) mod 65536)).
      replace ((- v) mod 65536 mod 256) with ((- v) mod 256).
      + rewrite Zplus_mod_idemp_r. f_equal; lia.
      + change 65536 with (256 * 256).
        rewrite Z.rem_mul_r by lia.
        rewrite (Z.mul_comm 256), Z_mod_plus_full, Z.mod_mod by lia. reflexivity. }
  rewrite E.
  assert (Hm : mask_buffer w = 2 ^ (sign_bit w + 1) - 1) by (destruct w; reflexivity).
  set (p := 2 ^ (sign_bit w + 1)) in *.
  destruct (Z.eqb_spec dest v) as [->|Hne].
  - rewrite Z.sub_diag, Z.mod_0_l by lia. reflexivity.
  - apply Z.eqb_neq. intro H0.
    destruct (Z.lt_ge_cases dest v).
    + rewrite <- (Z_mod_plus_full _ 1), Z.mod_small in H0 by lia. lia.
    + rewrite Z.mod_small in H0 by lia. lia.
Qed.

Lemma op_cmp_flags (op : opcode) (c c1 c2 c' : cpu8086) (dest v : Z) :
  loc_read (destination c) c = Done dest c1 ->
  loc_read (source c) c1 = Done v c2 ->
  op_cmp op c = Done tt c' ->
  flags c'
  = flags (add_flags op dest (u16 (Z.lnot v + 1)) (dest + u16 (Z.lnot v + 1))
             (Z.land dest 0xF <? Z.land (Z.lnot (u16 (Z.lnot v + 1)) + 1) 0xF) c2).
Proof.
  intros Hrd Hrs H.
  unfold op_cmp in H. invert_run.
  match goal with
  | R : loc_read (destination c) c = Done ?a ?b |- _ =>
      destruct (same_read _ _ _ _ _ _ Hrd R); subst a b; clear R
  end.
  assert (Hsrc : source c1 = source c) by (apply (loc_read_keeps _ _ _ _ Hrd)).
  rewrite Hsrc in *.
  match goal with
  | R : loc_read (source c) c1 = Done ?a ?b |- _ =>
      destruct (same_read _ _ _ _ _ _ Hrs R); subst a b; clear R
  end.
  match goal with
  | R : ?m ?d = Done _ c' |- _ =>
      assert (Hp : preserves flags m) by (repeat preserves_access);
      apply Hp in R; exact R
  end.
Qed.

(** X8. CMP writes no register and no memory, and leaves ZF set exactly
    when the two operand values it read are equal. *)
Theorem op_cmp_compares (op : opcode) (c c1 c2 c' : cpu8086) (dest v : Z) :
  loc_read (destination c) c = Done dest c1 ->
  loc_read (source c) c1 = Done v c2 ->
  0 <= dest <= mask_buffer (is_word op) ->
  0 <= v <= mask_buffer (is_word op) ->
  op_cmp op c = Done tt c' ->
  cpu8086_getflag c' FLAG_ZERO = (dest =? v)
  /\ regs c' = regs c
  /\ bus c' = bus c
  /\ ip c' = ip c.
Proof.
  intros Hrd Hrs Hd Hv H.
  split; [|split; [|split]].
  2: exact (op_cmp_keeps regs (fun _ _ => eq_refl) (fun _ _ => eq_refl) op _ _ _ H).
  2: exact (op_cmp_keeps bus (fun _ _ => eq_refl) (fun _ _ => eq_refl) op _ _ _ H).
  2: exact (op_cmp_keeps ip (fun _ _ => eq_refl) (fun _ _ => eq_refl) op _ _ _ H).
  rewrite (getflag_flags c' _ _ (op_cmp_flags op c c1 c2 c' dest v Hrd Hrs H)).
  rewrite add_flags_zero. apply sub_zero_iff; assumption.
Qed.

Lemma op_cmp_compares_witness :
  exists c',
    op_cmp (table_entry 0x39) cmp_scenario = Done tt c'
    /\ cpu8086_getflag c' FLAG_ZERO = true
    /\ regs c' = regs cmp_scenario
    /\ bus c' = bus cmp_scenario
    /\ ip c' = ip cmp_scenario.
Proof.
  eexists. split; [vm_compute; reflexivity|].
  eapply (op_cmp_compares (table_entry 0x39) cmp_scenario _ _ _ 0x1234 0x1234).
  - vm_compute. reflexivity.
  - vm_compute. reflexivity.
  - vm_compute. split; discriminate.
  - vm_compute. split; discriminate.
  - vm_compute. reflexivity.
Defined.

Lemma loc_read_flags loc : preserves flags (loc_read loc).
Proof. preserves_access. Qed.

Lemma loc_write_flags loc v : preserves flags (loc_write loc v).
Proof. preserves_access. Qed.

Ltac flags_of_tail :=
  match goal with
  | R : ?m ?d = Done _ ?c' |- context [cpu8086_getflag ?c' _] =>
      let Hp := fresh in
      assert (Hp : preserves flags m)
        by (first [ apply arith_cycles_flags | apply incdec_cycles_flags
                  | repeat preserves_access ]);
      apply Hp in R; rewrite !(getflag_flags c' _ _ R)
  end.

Lemma logic_flags_after (k : Z -> Z -> Z) op tail c c' :
  preserves flags tail ->
  (d <- gets destination ;;
   dest <- loc_read d ;;
   s <- gets source ;;
   src <- loc_read s ;;
   loc_write d (k dest src) ;;
   modify (logic_flags op (k dest src)) ;;
   tail)%cpu c = Done tt c' ->
  cpu8086_getflag c' FLAG_CARRY = false
  /\ cpu8086_getflag c' FLAG_OVERFLOW = false
  /\ cpu8086_getflag c' FLAG_AUXILIARY = false.
Proof.
  intros Ht H. invert_run.
  match goal with
  | R : tail _ = Done _ c' |- _ => apply Ht in R; rewrite !(getflag_flags c' _ _ R)
  end.
  apply logic_flags_cleared.
Qed.

(** X9. The logical handlers AND, OR, XOR and TEST always leave CF, OF and
    AF clear, and TEST writes no register and no memory. *)
Theorem logic_handlers_clear_carry (f : op_func) (op : opcode) (c c' : cpu8086) :
  f = op_and_fn \/ f = op_or_fn \/ f = op_xor_fn \/ f = op_test_fn ->
  call f op c = Done tt c' ->
  cpu8086_getflag c' FLAG_CARRY = false
  /\ cpu8086_getflag c' FLAG_OVERFLOW = false
  /\ cpu8086_getflag c' FLAG_AUXILIARY = false
  /\ (f = op_test_fn -> regs c' = regs c /\ bus c' = bus c).
Proof.
  intros Hf H.
  assert (Hflags : cpu8086_getflag c' FLAG_CARRY = false
                   /\ cpu8086_getflag c' FLAG_OVERFLOW = false
                   /\ cpu8086_getflag c' FLAG_AUXILIARY = false).
  { destruct Hf as [-> | [-> | [-> | ->]]]; cbn [call call_direct] in H.
    - apply (logic_flags_after Z.land op arith_cycles c c' arith_cycles_flags H).
    - apply (logic_flags_after Z.lor op arith_cycles c c' arith_cycles_flags H).
    - apply (logic_flags_after Z.lxor op arith_cycles c c' arith_cycles_flags H).
    - unfold op_test in H. invert_run. flags_of_tail.
      apply logic_flags_cleared. }
  destruct Hflags as (H1 & H2 & H3).
  split; [exact H1|]. split; [exact H2|]. split; [exact H3|].
  intros ->. cbn [call call_direct] in H. split.
  - exact (op_test_keeps regs (fun _ _ => eq_refl) (fun _ _ => eq_refl) op _ _ _ H).
  - exact (op_test_keeps bus (fun _ _ => eq_refl) (fun _ _ => eq_refl) op _ _ _ H).
Qed.

Lemma logic_handlers_clear_carry_witness :
  cpu8086_getflag test_scenario FLAG_CARRY = true
  /\ exists c',
       call op_test_fn (table_entry 0x85) test_scenario = Done tt c'
       /\ cpu8086_getflag c' FLAG_CARRY = false
       /\ cpu8086_getflag c' FLAG_OVERFLOW = false
       /\ cpu8086_getflag c' FLAG_AUXILIARY = false
       /\ (op_test_fn = op_test_fn ->
           regs c' = regs test_scenario /\ bus c' = bus test_scenario).
Proof.
  split; [vm_compute; reflexivity|].
  eexists. split; [vm_compute; reflexivity|].
  apply (logic_handlers_clear_carry op_test_fn (table_entry 0x85) test_scenario).
  - right. right. right. reflexivity.
  - vm_compute. reflexivity.
Defined.

Lemma incdec_flags_keep_carry r w a o c :
  cpu8086_getflag
    (cpu8086_setflag FLAG_OVERFLOW o
       (cpu8086_setflag FLAG_AUXILIARY a (cpu8086_setpzs_flags r w c))) FLAG_CARRY
  = cpu8086_getflag c FLAG_CARRY.
Proof.
  unfold FLAG_OVERFLOW, FLAG_AUXILIARY, FLAG_CARRY.
  rewrite !getflag_setflag by lia. cbn [Z.eqb].
  apply getflag_setpzs_other; lia.
Qed.

(** X10. INC and DEC leave the carry flag as it was, whatever the operand:
    their flag update sets PF, ZF, SF, AF and OF only. *)
Theorem incdec_keep_carry (op : opcode) (c c' : cpu8086) :
  op_inc op c = Done tt c' \/ op_dec op c = Done tt c' ->
  cpu8086_getflag c' FLAG_CARRY = cpu8086_getflag c FLAG_CARRY.
Proof.
  intros [H | H]; [unfold op_inc in H | unfold op_dec in H]; invert_run;
    flags_of_tail;
    rewrite incdec_flags_keep_carry;
    apply getflag_flags;
    repeat match goal with
           | R : loc_write _ _ _ = Done _ _ |- _ => apply loc_write_flags in R
           | R : loc_read _ _ = Done _ _ |- _ => apply loc_read_flags in R
           end;
    congruence.
Qed.

Lemma incdec_keep_carry_witness :
  cpu8086_getflag inc_scenario FLAG_CARRY = true
  /\ exists c',
       op_inc (table_entry 0x40) inc_scenario = Done tt c'
       /\ ax c' = 0
       /\ cpu8086_getflag c' FLAG_ZERO = true
       /\ cpu8086_getflag c' FLAG_CARRY = cpu8086_getflag inc_scenario FLAG_CARRY.
Proof.
  split; [vm_compute; reflexivity|].
  eexists. split; [vm_compute; reflexivity|].
  split; [vm_compute; reflexivity|]. split; [vm_compute; reflexivity|].
  apply (incdec_keep_carry (table_entry 0x40) inc_scenario).
  left. vm_compute. reflexivity.
Defined.

Lemma sub_carry w dest v :
  0 <= dest <= mask_buffer w -> 0 <= v <= mask_buffer w ->
  (mask_buffer w <? dest + u16 (Z.lnot v + 1))
  = if v =? 0 then false else if w then v <=? dest else true.
Proof.
  intros Hd Hv. unfold u16, Z.lnot.
  replace (Z.pred (- v) + 1) with (- v) by lia.
  destruct (Z.eqb_spec v 0) as [->|Hne].
  - cbn. rewrite Z.add_0_r. apply Z.ltb_ge. lia.
  - assert (E : (- v) mod 65536 = 65536 - v).
    { rewrite <- (Z_mod_plus_full _ 1), Z.mod_small; [lia|].
      destruct w; cbn [mask_buffer] in *; lia. }
    rewrite E. destruct w; cbn [mask_buffer] in *.
    + destruct (Z.leb_spec v dest); [apply Z.ltb_lt | apply Z.ltb_ge]; lia.
    + apply Z.ltb_lt. lia.
Qed.

(** X25. The carry flag after CMP is the carry out of [dest + (-v)] with
    [-v] taken in 16 bits, not a borrow: it is clear when the source is 0;
    otherwise a word-sized CMP sets it exactly when [v <= dest], and a
    byte-sized CMP always sets it. *)
Theorem op_cmp_carry (op : opcode) (c c1 c2 c' : cpu8086) (dest v : Z) :
  loc_read (destination c) c = Done dest c1 ->
  loc_read (source c) c1 = Done v c2 ->
  0 <= dest <= mask_buffer (is_word op) ->
  0 <= v <= mask_buffer (is_word op) ->
  op_cmp op c = Done tt c' ->
  cpu8086_getflag c' FLAG_CARRY
  = if v =? 0 then false else if is_word op then v <=? dest else true.
Proof.
  intros Hrd Hrs Hd Hv H.
  rewrite (getflag_flags c' _ _ (op_cmp_flags op c c1 c2 c' dest v Hrd Hrs H)).
  rewrite add_flags_carry. apply sub_carry; assumption.
Qed.

Lemma op_cmp_carry_witness :
  exists c',
    op_cmp (table_entry 0x39) cmp_scenario = Done tt c'
    /\ cpu8086_getflag c' FLAG_CARRY
       = if 0x1234 =? 0 then false
         else if is_word (table_entry 0x39) then 0x1234 <=? 0x1234 else true.
Proof.
  eexists. split; [vm_compute; reflexivity|].
  eapply (op_cmp_carry (table_entry 0x39) cmp_scenario _ _ _ 0x1234 0x1234).
  - vm_compute. reflexivity.
  - vm_compute. reflexivity.
  - vm_compute. split; discriminate.
  - vm_compute. split; discriminate.
  - vm_compute. reflexivity.
Defined.

(** ** Conversions and flag transfers *)

Lemma cbw_byte a :
  0 <= a < 256 ->
  Z.lor a (Z.shiftl (u8 (0xFF * Z.land (Z.shiftr a 7) 1)) 8) = u16 (s8 a).
Proof.
  intros Ha.
  apply (forallb_below
           (fun a => Z.lor a (Z.shiftl (u8 (0xFF * Z.land (Z.shiftr a 7) 1)) 8)
                     =? u16 (s8 a)) 256) in Ha.
  - apply Z.eqb_eq. exact Ha.
  - vm_compute. reflexivity.
Qed.

(** X11. CBW sign-extends AL into AX: afterwards AX is AL read
    as a signed byte and reduced modulo 2^16, and AL is unchanged. *)
Theorem op_cbw_sign_extends (op : opcode) (c : cpu8086) :
  0 <= al c < 256 ->
  exists c',
    op_cbw op c = Done tt c'
    /\ ax c' = u16 (s8 (al c))
    /\ al c' = al c
    /\ ah c' = (if al c <? 128 then 0 else 0xFF).
Proof.
  intros Ha. eexists. split; [reflexivity|].
  unfold ax, al, ah, reg16, reg8, set_reg8, AX in *. cbn [regs set_cycles set_regs].
  change (2 * 0) with 0. change (0 + 1) with 1. cbn [Z.eqb Pos.eqb].
  split; [apply cbw_byte; exact Ha|]. split; [reflexivity|].
  apply (forallb_below
           (fun a => u8 (0xFF * Z.land (Z.shiftr a 7) 1)
                     =? (if a <? 128 then 0 else 0xFF)) 256) in Ha.
  - apply Z.eqb_eq. exact Ha.
  - vm_compute. reflexivity.
Qed.

Lemma op_cbw_sign_extends_witness :
  exists c',
    op_cbw (table_entry 0x98) (set_reg8 0 0x80 far_call_scenario) = Done tt c'
    /\ ax c' = u16 (s8 (al (set_reg8 0 0x80 far_call_scenario)))
    /\ al c' = al (set_reg8 0 0x80 far_call_scenario)
    /\ ah c' = (if al (set_reg8 0 0x80 far_call_scenario) <? 128 then 0 else 0xFF).
Proof.
  apply (op_cbw_sign_extends (table_entry 0x98) (set_reg8 0 0x80 far_call_scenario)).
  vm_compute. split; [discriminate | reflexivity].
Defined.

Lemma sign_of_word x :
  0 <= x < 65536 -> Z.land (Z.shiftr x 15) 1 = if x <? 32768 then 0 else 1.
Proof.
  intros Hx. rewrite Z.shiftr_div_pow2 by lia. change (2 ^ 15) with 32768.
  pose proof (Z.div_mod x 32768 ltac:(lia)) as E.
  pose proof (Z.mod_pos_bound x 32768 ltac:(lia)) as Hm.
  destruct (Z.ltb_spec x 32768).
  - replace (x / 32768) with 0 by lia. reflexivity.
  - replace (x / 32768) with 1 by lia. reflexivity.
Qed.

(** X12. CWD sign-extends AX into DX:AX: DX becomes 0 when AX is below
    0x8000 and 0xFFFF otherwise, so that DX:AX is AX read as a
    signed word and reduced modulo 2^32; AX is unchanged. *)
Theorem op_cwd_sign_extends (op : opcode) (c : cpu8086) :
  0 <= ax c < 65536 ->
  exists c',
    op_cwd op c = Done tt c'
    /\ dx c' = (if ax c <? 32768 then 0 else 0xFFFF)
    /\ ax c' = ax c
    /\ dx c' * 65536 + ax c' = u32 (s16 (ax c)).
Proof.
  intros Ha. eexists. split; [reflexivity|].
  assert (Hdx : dx (set_cycles (u8 (cycles (set_reg16 DX (0xFFFF * Z.land (Z.shiftr (ax c) 15) 1) c) + 5))
                      (set_reg16 DX (0xFFFF * Z.land (Z.shiftr (ax c) 15) 1) c))
                = if ax c <? 32768 then 0 else 0xFFFF).
  { unfold dx. change (reg16 (set_cycles ?v ?d) DX) with (reg16 d DX).
    rewrite reg16_set_reg16_same, sign_of_word by exact Ha.
    destruct (ax c <? 32768); reflexivity. }
  assert (Hax : ax (set_cycles (u8 (cycles (set_reg16 DX (0xFFFF * Z.land (Z.shiftr (ax c) 15) 1) c) + 5))
                      (set_reg16 DX (0xFFFF * Z.land (Z.shiftr (ax c) 15) 1) c))
                = ax c).
  { unfold ax. change (reg16 (set_cycles ?v ?d) AX) with (reg16 d AX).
    apply reg16_set_reg16_other. unfold AX, DX. lia. }
  split; [exact Hdx|]. split; [exact Hax|].
  rewrite Hdx, Hax. unfold u32, s16. rewrite u16_small by exact Ha.
  destruct (Z.ltb_spec (ax c) 32768).
  - rewrite Z.mod_small by lia. lia.
  - rewrite <- (Z_mod_plus_full _ 1), Z.mod_small by lia. lia.
Qed.

Lemma op_cwd_sign_extends_witness :
  exists c',
    op_cwd (table_entry 0x99) (set_reg16 AX 0x8001 far_call_scenario) = Done tt c'
    /\ dx c' = (if ax (set_reg16 AX 0x8001 far_call_scenario) <? 32768 then 0 else 0xFFFF)
    /\ ax c' = ax (set_reg16 AX 0x8001 far_call_scenario)
    /\ dx c' * 65536 + ax c' = u32 (s16 (ax (set_reg16 AX 0x8001 far_call_scenario))).
Proof.
  apply (op_cwd_sign_extends (table_entry 0x99) (set_reg16 AX 0x8001 far_call_scenario)).
  vm_compute. split; [discriminate | reflexivity].
Defined.

Lemma setflag_small c flag v :
  0 <= flags (cpu8086_setflag flag v c) < 65536.
Proof. unfold cpu8086_setflag. destruct v; cbn [flags set_flags]; apply u16_range. Qed.

(** X13. SAHF copies bits 7, 6, 4, 2 and 0 of AH into SF, ZF, AF, PF and
    CF and changes no other flag and no register; run after LAHF it puts
    FLAGS back as it was. *)
Theorem op_sahf_loads_flags (op : opcode) (c : cpu8086) :
  0 <= flags c < 65536 ->
  exists c' c'',
    op_sahf op c = Done tt c'
    /\ cpu8086_getflag c' FLAG_SIGN = Z.testbit (ah c) 7
    /\ cpu8086_getflag c' FLAG_ZERO = Z.testbit (ah c) 6
    /\ cpu8086_getflag c' FLAG_AUXILIARY = Z.testbit (ah c) 4
    /\ cpu8086_getflag c' FLAG_PARITY = Z.testbit (ah c) 2
    /\ cpu8086_getflag c' FLAG_CARRY = Z.testbit (ah c) 0
    /\ cpu8086_getflag c' FLAG_OVERFLOW = cpu8086_getflag c FLAG_OVERFLOW
    /\ cpu8086_getflag c' FLAG_DIRECTION = cpu8086_getflag c FLAG_DIRECTION
    /\ regs c' = regs c
    /\ (op_lahf op ;; op_sahf op)%cpu c = Done tt c''
    /\ flags c'' = flags c.
Proof.
  intros Hf.
  set (s := fun d : cpu8086 =>
    cpu8086_setflag FLAG_SIGN (to_bool (Z.land (ah d) FLAG_SIGN))
      (cpu8086_setflag FLAG_ZERO (to_bool (Z.land (ah d) FLAG_ZERO))
         (cpu8086_setflag FLAG_AUXILIARY (to_bool (Z.land (ah d) FLAG_AUXILIARY))
            (cpu8086_setflag FLAG_PARITY (to_bool (Z.land (ah d) FLAG_PARITY))
               (cpu8086_setflag FLAG_CARRY (to_bool (Z.land (ah d) FLAG_CARRY)) d))))).
  assert (Hrun : forall d, op_sahf op d = Done tt (set_cycles (u8 (cycles d + 4)) (s d))).
  { intros d. unfold op_sahf, add_cycles, bind, modify. cbv beta iota.
    unfold ah, reg8. rewrite !setflag_regs.
    rewrite !(setflag_keeps cycles (fun _ _ => eq_refl)).
    reflexivity. }
  assert (Hbits : forall d j, 0 <= j < 16 ->
            cpu8086_getflag (s d) (Z.shiftl 1 j)
            = if (j =? 7) || (j =? 6) || (j =? 4) || (j =? 2) || (j =? 0)
              then Z.testbit (ah d) j else cpu8086_getflag d (Z.shiftl 1 j)).
  { intros d j Hj. unfold s, FLAG_SIGN, FLAG_ZERO, FLAG_AUXILIARY, FLAG_PARITY, FLAG_CARRY.
    rewrite !getflag_setflag by lia. rewrite !to_bool_land_bit by lia.
    destruct (Z.eqb_spec j 7) as [->|]; [reflexivity|].
    destruct (Z.eqb_spec j 6) as [->|]; [reflexivity|].
    destruct (Z.eqb_spec j 4) as [->|]; [reflexivity|].
    destruct (Z.eqb_spec j 2) as [->|]; [reflexivity|].
    destruct (Z.eqb_spec j 0) as [->|]; reflexivity. }
  exists (set_cycles (u8 (cycles c + 4)) (s c)).
  exists (set_cycles (u8 (cycles (set_cycles (u8 (cycles (set_reg8 1 (flags c) c) + 4))
                                    (set_reg8 1 (flags c) c)) + 4))
            (s (set_cycles (u8 (cycles (set_reg8 1 (flags c) c) + 4))
                  (set_reg8 1 (flags c) c)))).
  split; [apply Hrun|].
  change (cpu8086_getflag (set_cycles ?v ?d) ?k) with (cpu8086_getflag d k).
  unfold FLAG_SIGN, FLAG_ZERO, FLAG_AUXILIARY, FLAG_PARITY, FLAG_CARRY, FLAG_OVERFLOW,
    FLAG_DIRECTION.
  rewrite !Hbits by lia. cbn [Z.eqb Pos.eqb orb].
  split; [reflexivity|]. split; [reflexivity|]. split; [reflexivity|].
  split; [reflexivity|]. split; [reflexivity|]. split; [reflexivity|].
  split; [reflexivity|].
  split.
  { change (regs (set_cycles ?v ?d)) with (regs d). unfold s.
    rewrite !setflag_regs. reflexivity. }
  split.
  { unfold bind at 1. unfold op_lahf, add_cycles, bind, modify. apply Hrun. }
  change (flags (set_cycles ?v ?d)) with (flags d).
  set (d := set_cycles _ (set_reg8 1 (flags c) c)).
  assert (Hd : 0 <= flags (s d) < 65536) by (unfold s; apply setflag_small).
  apply Z.bits_inj'. intros j Hj.
  destruct (Z.ltb_spec j 16) as [Hlt|Hge].
  - rewrite <- !getflag_testbit by lia. rewrite Hbits by lia.
    assert (Hah : ah d = u8 (flags c)).
    { unfold d, ah, reg8, set_reg8. cbn [regs set_cycles set_regs]. reflexivity. }
    assert (Hfd : cpu8086_getflag d (Z.shiftl 1 j) = cpu8086_getflag c (Z.shiftl 1 j))
      by reflexivity.
    rewrite Hah, Hfd.
    destruct ((j =? 7) || (j =? 6) || (j =? 4) || (j =? 2) || (j =? 0)) eqn:E;
      [|reflexivity].
    rewrite getflag_testbit by lia.
    unfold u8. change 256 with (2 ^ 8). apply Z.mod_pow2_bits_low.
    repeat (apply orb_true_iff in E; destruct E as [E|E]);
      apply Z.eqb_eq in E; lia.
  - rewrite !(Z.bits_above_log2) ; try reflexivity.
    + lia.
    + destruct (Z.eq_dec (flags c) 0) as [->|]; [cbn; lia|].
      apply Z.log2_lt_pow2; [lia|]. apply Z.lt_le_trans with (2 ^ 16); [lia|].
      apply Z.pow_le_mono_r; lia.
    + lia.
    + destruct (Z.eq_dec (flags (s d)) 0) as [->|]; [cbn; lia|].
      apply Z.log2_lt_pow2; [lia|]. apply Z.lt_le_trans with (2 ^ 16); [lia|].
      apply Z.pow_le_mono_r; lia.
Qed.

Lemma op_sahf_loads_flags_witness :
  exists c' c'',
    op_sahf (table_entry 0x9E) (set_reg8 1 0xD5 (set_flags 0x0800 far_call_scenario))
    = Done tt c'
    /\ cpu8086_getflag c' FLAG_SIGN
       = Z.testbit (ah (set_reg8 1 0xD5 (set_flags 0x0800 far_call_scenario))) 7
    /\ cpu8086_getflag c' FLAG_ZERO
       = Z.testbit (ah (set_reg8 1 0xD5 (set_flags 0x0800 far_call_scenario))) 6
    /\ cpu8086_getflag c' FLAG_AUXILIARY
       = Z.testbit (ah (set_reg8 1 0xD5 (set_flags 0x0800 far_call_scenario))) 4
    /\ cpu8086_getflag c' FLAG_PARITY
       = Z.testbit (ah (set_reg8 1 0xD5 (set_flags 0x0800 far_call_scenario))) 2
    /\ cpu8086_getflag c' FLAG_CARRY
       = Z.testbit (ah (set_reg8 1 0xD5 (set_flags 0x0800 far_call_scenario))) 0
    /\ cpu8086_getflag c' FLAG_OVERFLOW
       = cpu8086_getflag (set_reg8 1 0xD5 (set_flags 0x0800 far_call_scenario)) FLAG_OVERFLOW
    /\ cpu8086_getflag c' FLAG_DIRECTION
       = cpu8086_getflag (set_reg8 1 0xD5 (set_flags 0x0800 far_call_scenario)) FLAG_DIRECTION
    /\ regs c' = regs (set_reg8 1 0xD5 (set_flags 0x0800 far_call_scenario))
    /\ (op_lahf (table_entry 0x9E) ;; op_sahf (table_entry 0x9E))%cpu
         (set_reg8 1 0xD5 (set_flags 0x0800 far_call_scenario)) = Done tt c''
    /\ flags c'' = flags (set_reg8 1 0xD5 (set_flags 0x0800 far_call_scenario)).
Proof.
  apply (op_sahf_loads_flags (table_entry 0x9E)
           (set_reg8 1 0xD5 (set_flags 0x0800 far_call_scenario))).
  vm_compute. split; [discriminate | reflexivity].
Defined.

(** ** Decimal adjustment *)

Lemma al_setflag flag v c : al (cpu8086_setflag flag v c) = al c.
Proof. unfold al, reg8. rewrite setflag_regs. reflexivity. Qed.

Lemma al_setpzs r w c : al (cpu8086_setpzs_flags r w c) = al c.
Proof. unfold al, reg8. rewrite setpzs_regs. reflexivity. Qed.

Lemma ah_setflag flag v c : ah (cpu8086_setflag flag v c) = ah c.
Proof. unfold ah, reg8. rewrite setflag_regs. reflexivity. Qed.

Lemma ah_setpzs r w c : ah (cpu8086_setpzs_flags r w c) = ah c.
Proof. unfold ah, reg8. rewrite setpzs_regs. reflexivity. Qed.

Lemma al_set_al v c : al (set_reg8 0 v c) = u8 v.
Proof. reflexivity. Qed.

Lemma ah_set_al v c : ah (set_reg8 0 v c) = ah c.
Proof. reflexivity. Qed.

Lemma al_set_ah v c : al (set_reg8 1 v c) = al c.
Proof. reflexivity. Qed.

Lemma ah_set_ah v c : ah (set_reg8 1 v c) = u8 v.
Proof. reflexivity. Qed.

Lemma getflag_set_reg8 off v c flag :
  cpu8086_getflag (set_reg8 off v c) flag = cpu8086_getflag c flag.
Proof. reflexivity. Qed.

Lemma carry_after_adjust r w o c :
  cpu8086_getflag (cpu8086_setflag FLAG_OVERFLOW o (cpu8086_setpzs_flags r w c)) FLAG_CARRY
  = cpu8086_getflag c FLAG_CARRY.
Proof.
  unfold FLAG_OVERFLOW, FLAG_CARRY. rewrite getflag_setflag by lia. cbn [Z.eqb].
  apply getflag_setpzs_other; lia.
Qed.

Lemma carry_past_auxiliary v c :
  cpu8086_getflag (cpu8086_setflag FLAG_AUXILIARY v c) FLAG_CARRY
  = cpu8086_getflag c FLAG_CARRY.
Proof. unfold FLAG_AUXILIARY, FLAG_CARRY. rewrite getflag_setflag by lia. reflexivity. Qed.

Lemma carry_set v c :
  cpu8086_getflag (cpu8086_setflag FLAG_CARRY v c) FLAG_CARRY = v.
Proof. unfold FLAG_CARRY. rewrite getflag_setflag by lia. reflexivity. Qed.

(** [op_daa] returns, with AL and CF as [daa_adjust] gives them. *)
Lemma op_daa_adjusts op c :
  exists c',
    op_daa op c = Done tt c'
    /\ (al c', cpu8086_getflag c' FLAG_CARRY)
       = daa_adjust (al c) (cpu8086_getflag c FLAG_AUXILIARY) (cpu8086_getflag c FLAG_CARRY).
Proof.
  eexists. split; [reflexivity|].
  cbv zeta. unfold daa_adjust.
  change (al (set_cycles ?v ?d)) with (al d).
  change (cpu8086_getflag (set_cycles ?v ?d) ?k) with (cpu8086_getflag d k).
  rewrite carry_after_adjust, getflag_set_reg8, carry_set.
  rewrite al_setflag, al_setpzs, al_set_al, !al_setflag, carry_past_auxiliary.
  reflexivity.
Qed.

Lemma op_das_adjusts op c :
  exists c',
    op_das op c = Done tt c'
    /\ (al c', cpu8086_getflag c' FLAG_CARRY)
       = das_adjust (al c) (cpu8086_getflag c FLAG_AUXILIARY) (cpu8086_getflag c FLAG_CARRY).
Proof.
  eexists. split; [reflexivity|].
  cbv zeta. unfold das_adjust.
  change (al (set_cycles ?v ?d)) with (al d).
  change (cpu8086_getflag (set_cycles ?v ?d) ?k) with (cpu8086_getflag d k).
  rewrite carry_after_adjust, getflag_set_reg8, carry_set.
  rewrite al_setflag, al_setpzs, al_set_al, !al_setflag, carry_past_auxiliary.
  reflexivity.
Qed.

Lemma op_aaa_adjusts op c :
  exists c',
    op_aaa op c = Done tt c'
    /\ (al c', ah c', cpu8086_getflag c' FLAG_CARRY)
       = aaa_adjust (al c) (ah c) (cpu8086_getflag c FLAG_AUXILIARY).
Proof.
  eexists. split; [reflexivity|].
  cbv zeta. unfold aaa_adjust.
  change (al (set_cycles ?v ?d)) with (al d).
  change (ah (set_cycles ?v ?d)) with (ah d).
  change (cpu8086_getflag (set_cycles ?v ?d) ?k) with (cpu8086_getflag d k).
  rewrite carry_after_adjust, getflag_set_reg8.
  rewrite al_setflag, al_setpzs, al_set_al, ah_setflag, ah_setpzs, ah_set_al.
  destruct ((9 <? Z.land (al c) 15) || cpu8086_getflag c FLAG_AUXILIARY).
  - rewrite carry_set, !al_setflag, !ah_setflag, al_set_al, ah_set_al, al_set_ah, ah_set_ah.
    reflexivity.
  - rewrite carry_set, !al_setflag, !ah_setflag. reflexivity.
Qed.

Lemma op_aas_adjusts op c :
  exists c',
    op_aas op c = Done tt c'
    /\ (al c', ah c', cpu8086_getflag c' FLAG_CARRY)
       = aas_adjust (al c) (ah c) (cpu8086_getflag c FLAG_AUXILIARY).
Proof.
  eexists. split; [reflexivity|].
  cbv zeta. unfold aas_adjust.
  change (al (set_cycles ?v ?d)) with (al d).
  change (ah (set_cycles ?v ?d)) with (ah d).
  change (cpu8086_getflag (set_cycles ?v ?d) ?k) with (cpu8086_getflag d k).
  rewrite carry_after_adjust, getflag_set_reg8.
  rewrite al_setflag, al_setpzs, al_set_al, ah_setflag, ah_setpzs, ah_set_al.
  destruct ((9 <? Z.land (al c) 15) || cpu8086_getflag c FLAG_AUXILIARY).
  - rewrite carry_set, !al_setflag, !ah_setflag, al_set_al, ah_set_al, al_set_ah, ah_set_ah.
    reflexivity.
  - rewrite carry_set, !al_setflag, !ah_setflag. reflexivity.
Qed.

Lemma daa_table x y :
  0 <= x < 100 -> 0 <= y < 100 ->
  daa_adjust (u8 (bcd x + bcd y))
    (0xF <? Z.land (bcd x) 0xF + Z.land (bcd y) 0xF) (0xFF <? bcd x + bcd y)
  = (bcd ((x + y) mod 100), 100 <=? x + y).
Proof.
  intros Hx Hy.
  pose proof (forallb_below2
    (fun x y =>
       let r := daa_adjust (u8 (bcd x + bcd y))
                  (0xF <? Z.land (bcd x) 0xF + Z.land (bcd y) 0xF)
                  (0xFF <? bcd x + bcd y) in
       (fst r =? bcd ((x + y) mod 100)) && Bool.eqb (snd r) (100 <=? x + y))
    100 100) as H.
  cbv zeta in H. specialize (H ltac:(vm_compute; reflexivity) x y Hx Hy).
  apply andb_true_iff in H as [H1 H2].
  apply Z.eqb_eq in H1. apply eqb_prop in H2.
  destruct (daa_adjust _ _ _) as [a b]. cbn [fst snd] in *. congruence.
Qed.

Lemma das_table x y :
  0 <= x < 100 -> 0 <= y < 100 ->
  das_adjust (u8 (bcd x - bcd y))
    (Z.land (bcd x) 0xF <? Z.land (bcd y) 0xF) (bcd x <? bcd y)
  = (bcd ((x - y) mod 100), x <? y).
Proof.
  intros Hx Hy.
  pose proof (forallb_below2
    (fun x y =>
       let r := das_adjust (u8 (bcd x - bcd y))
                  (Z.land (bcd x) 0xF <? Z.land (bcd y) 0xF) (bcd x <? bcd y) in
       (fst r =? bcd ((x - y) mod 100)) && Bool.eqb (snd r) (x <? y))
    100 100) as H.
  cbv zeta in H. specialize (H ltac:(vm_compute; reflexivity) x y Hx Hy).
  apply andb_true_iff in H as [H1 H2].
  apply Z.eqb_eq in H1. apply eqb_prop in H2.
  destruct (das_adjust _ _ _) as [a b]. cbn [fst snd] in *. congruence.
Qed.

(** X14. DAA turns the binary sum of two packed BCD bytes into their packed
    BCD sum: with AL, AF and CF as the addition of the encodings of [x] and
    [y] leaves them, AL becomes the encoding of [(x + y) mod 100] and CF
    says whether [x + y] reached 100. *)
Theorem op_daa_packed_bcd (op : opcode) (c : cpu8086) (x y : Z) :
  0 <= x < 100 -> 0 <= y < 100 ->
  al c = u8 (bcd x + bcd y) ->
  cpu8086_getflag c FLAG_AUXILIARY = (0xF <? Z.land (bcd x) 0xF + Z.land (bcd y) 0xF) ->
  cpu8086_getflag c FLAG_CARRY = (0xFF <? bcd x + bcd y) ->
  exists c',
    op_daa op c = Done tt c'
    /\ al c' = bcd ((x + y) mod 100)
    /\ cpu8086_getflag c' FLAG_CARRY = (100 <=? x + y).
Proof.
  intros Hx Hy Hal Haf Hcf.
  destruct (op_daa_adjusts op c) as (c' & Hrun & Hres).
  exists c'. split; [exact Hrun|].
  rewrite Hal, Haf, Hcf, daa_table in Hres by assumption.
  injection Hres as H1 H2. split; assumption.
Qed.

(** X15. DAS does the same for subtraction: with AL, AF and CF as the
    subtraction of the encoding of [y] from that of [x] leaves them, AL
    becomes the encoding of [(x - y) mod 100] and CF is the decimal
    borrow. *)
Theorem op_das_packed_bcd (op : opcode) (c : cpu8086) (x y : Z) :
  0 <= x < 100 -> 0 <= y < 100 ->
  al c = u8 (bcd x - bcd y) ->
  cpu8086_getflag c FLAG_AUXILIARY = (Z.land (bcd x) 0xF <? Z.land (bcd y) 0xF) ->
  cpu8086_getflag c FLAG_CARRY = (bcd x <? bcd y) ->
  exists c',
    op_das op c = Done tt c'
    /\ al c' = bcd ((x - y) mod 100)
    /\ cpu8086_getflag c' FLAG_CARRY = (x <? y).
Proof.
  intros Hx Hy Hal Haf Hcf.
  destruct (op_das_adjusts op c) as (c' & Hrun & Hres).
  exists c'. split; [exact Hrun|].
  rewrite Hal, Haf, Hcf, das_table in Hres by assumption.
  injection Hres as H1 H2. split; assumption.
Qed.

Lemma op_daa_packed_bcd_witness :
  exists c',
    op_daa (table_entry 0x27)
      (cpu8086_setflag FLAG_AUXILIARY true (set_reg8 0 0x81 far_call_scenario))
    = Done tt c'
    /\ al c' = bcd ((39 + 48) mod 100)
    /\ cpu8086_getflag c' FLAG_CARRY = (100 <=? 39 + 48).
Proof.
  apply (op_daa_packed_bcd (table_entry 0x27)
           (cpu8086_setflag FLAG_AUXILIARY true (set_reg8 0 0x81 far_call_scenario))
           39 48).
  - lia.
  - lia.
  - vm_compute. reflexivity.
  - vm_compute. reflexivity.
  - vm_compute. reflexivity.
Defined.

Lemma op_das_packed_bcd_witness :
  exists c',
    op_das (table_entry 0x2F)
      (cpu8086_setflag FLAG_CARRY true
         (cpu8086_setflag FLAG_AUXILIARY true (set_reg8 0 0xDC far_call_scenario)))
    = Done tt c'
    /\ al c' = bcd ((12 - 36) mod 100)
    /\ cpu8086_getflag c' FLAG_CARRY = (12 <? 36).
Proof.
  apply (op_das_packed_bcd (table_entry 0x2F)
           (cpu8086_setflag FLAG_CARRY true
              (cpu8086_setflag FLAG_AUXILIARY true (set_reg8 0 0xDC far_call_scenario)))
           12 36).
  - lia.
  - lia.
  - vm_compute. reflexivity.
  - vm_compute. reflexivity.
  - vm_compute. reflexivity.
Defined.

Lemma aaa_digit x y :
  0 <= x < 10 -> 0 <= y < 10 ->
  forall h, 0 <= h < 256 ->
  aaa_adjust (x + y) h (0xF <? x + y)
  = ((x + y) mod 10, u8 (h + (x + y) / 10), 10 <=? x + y).
Proof.
  intros Hx Hy h Hh.
  pose proof (forallb_below2
    (fun x y =>
       Bool.eqb ((9 <? Z.land (x + y) 0xF) || (0xF <? x + y)) (10 <=? x + y)
       && (u8 (Z.land (u8 (x + y + 6)) 0xF) =? (x + y + 6) mod 16)
       && (u8 (Z.land (x + y) 0xF) =? (x + y) mod 16)
       && ((x + y) / 10 =? if 10 <=? x + y then 1 else 0)
       && ((x + y) mod 10 =? if 10 <=? x + y then (x + y + 6) mod 16 else (x + y) mod 16))
    10 10 ltac:(vm_compute; reflexivity) x y Hx Hy) as H.
  cbv beta in H.
  repeat (apply andb_true_iff in H; destruct H as [H ?]).
  apply eqb_prop in H.
  repeat match goal with E : (_ =? _) = true |- _ => apply Z.eqb_eq in E end.
  unfold aaa_adjust. rewrite H.
  destruct (10 <=? x + y).
  - congruence.
  - replace (h + (x + y) / 10) with h by lia.
    unfold u8 at 2. rewrite (Z.mod_small h) by lia. congruence.
Qed.

Lemma aas_digit x y :
  0 <= x < 10 -> 0 <= y < 10 ->
  forall h, 0 <= h < 256 ->
  aas_adjust (u8 (x - y)) h (x <? y)
  = ((x - y) mod 10, u8 (h - (if x <? y then 1 else 0)), x <? y).
Proof.
  intros Hx Hy h Hh.
  pose proof (forallb_below2
    (fun x y =>
       Bool.eqb ((9 <? Z.land (u8 (x - y)) 0xF) || (x <? y)) (x <? y)
       && (u8 (Z.land (u8 (u8 (x - y) + u16 (Z.lnot 6 + 1))) 0xF)
           =? (x - y + 10) mod 16)
       && (u8 (Z.land (u8 (x - y)) 0xF) =? (x - y) mod 16)
       && ((x - y) mod 10 =? if x <? y then (x - y + 10) mod 16 else (x - y) mod 16))
    10 10 ltac:(vm_compute; reflexivity) x y Hx Hy) as H.
  cbv beta in H.
  repeat (apply andb_true_iff in H; destruct H as [H ?]).
  apply eqb_prop in H.
  repeat match goal with E : (_ =? _) = true |- _ => apply Z.eqb_eq in E end.
  unfold aas_adjust. rewrite H.
  destruct (x <? y).
  - congruence.
  - replace (h - 0) with h by lia.
    unfold u8 at 3. rewrite (Z.mod_small h) by lia. congruence.
Qed.

(** X16. AAA turns the binary sum of two decimal digits into an unpacked
    decimal result: with AL and AF as the addition of the digits [x] and [y]
    leaves them, AL becomes the units digit of [x + y], AH goes up by the
    tens digit and CF says whether there was one. *)
Theorem op_aaa_unpacked_digits (op : opcode) (c : cpu8086) (x y : Z) :
  0 <= x < 10 -> 0 <= y < 10 ->
  0 <= ah c < 256 ->
  al c = x + y ->
  cpu8086_getflag c FLAG_AUXILIARY = (0xF <? x + y) ->
  exists c',
    op_aaa op c = Done tt c'
    /\ al c' = (x + y) mod 10
    /\ ah c' = u8 (ah c + (x + y) / 10)
    /\ cpu8086_getflag c' FLAG_CARRY = (10 <=? x + y).
Proof.
  intros Hx Hy Hh Hal Haf.
  destruct (op_aaa_adjusts op c) as (c' & Hrun & Hres).
  exists c'. split; [exact Hrun|].
  rewrite Hal, Haf, aaa_digit in Hres by assumption.
  injection Hres as H1 H2 H3. split; [|split]; assumption.
Qed.

Lemma op_aaa_unpacked_digits_witness :
  exists c',
    op_aaa (table_entry 0x37) (set_reg8 1 2 (set_reg8 0 15 far_call_scenario)) = Done tt c'
    /\ al c' = (7 + 8) mod 10
    /\ ah c' = u8 (ah (set_reg8 1 2 (set_reg8 0 15 far_call_scenario)) + (7 + 8) / 10)
    /\ cpu8086_getflag c' FLAG_CARRY = (10 <=? 7 + 8).
Proof.
  apply (op_aaa_unpacked_digits (table_entry 0x37)
           (set_reg8 1 2 (set_reg8 0 15 far_call_scenario)) 7 8).
  - lia.
  - lia.
  - vm_compute. split; [discriminate | reflexivity].
  - vm_compute. reflexivity.
  - vm_compute. reflexivity.
Defined.

(** X17. AAS does the same for subtraction: with AL and AF as the
    subtraction of the digit [y] from the digit [x] leaves them, AL becomes
    [(x - y) mod 10], AH goes down by one on a borrow and CF is the
    borrow. *)
Theorem op_aas_unpacked_digits (op : opcode) (c : cpu8086) (x y : Z) :
  0 <= x < 10 -> 0 <= y < 10 ->
  0 <= ah c < 256 ->
  al c = u8 (x - y) ->
  cpu8086_getflag c FLAG_AUXILIARY = (x <? y) ->
  exists c',
    op_aas op c = Done tt c'
    /\ al c' = (x - y) mod 10
    /\ ah c' = u8 (ah c - (if x <? y then 1 else 0))
    /\ cpu8086_getflag c' FLAG_CARRY = (x <? y).
Proof.
  intros Hx Hy Hh Hal Haf.
  destruct (op_aas_adjusts op c) as (c' & Hrun & Hres).
  exists c'. split; [exact Hrun|].
  rewrite Hal, Haf, aas_digit in Hres by assumption.
  injection Hres as H1 H2 H3. split; [|split]; assumption.
Qed.

Lemma op_aas_unpacked_digits_witness :
  exists c',
    op_aas (table_entry 0x3F)
      (cpu8086_setflag FLAG_AUXILIARY true
         (set_reg8 1 5 (set_reg8 0 0xFC far_call_scenario))) = Done tt c'
    /\ al c' = (3 - 7) mod 10
    /\ ah c' = u8 (ah (cpu8086_setflag FLAG_AUXILIARY true
                         (set_reg8 1 5 (set_reg8 0 0xFC far_call_scenario)))
                   - (if 3 <? 7 then 1 else 0))
    /\ cpu8086_getflag c' FLAG_CARRY = (3 <? 7).
Proof.
  apply (op_aas_unpacked_digits (table_entry 0x3F)
           (cpu8086_setflag FLAG_AUXILIARY true
              (set_reg8 1 5 (set_reg8 0 0xFC far_call_scenario))) 3 7).
  - lia.
  - lia.
  - vm_compute. split; [discriminate | reflexivity].
  - vm_compute. reflexivity.
  - vm_compute. reflexivity.
Defined.

(** ** The stack is last in, first out *)

Lemma mod_eq_multiple a b n :
  0 < n -> a mod n = b mod n -> exists k, a - b = k * n.
Proof.
  intros Hn H.
  exists (a / n - b / n).
  pose proof (Z.div_mod a n ltac:(lia)). pose proof (Z.div_mod b n ltac:(lia)). nia.
Qed.

Lemma u16_minus_2 s :
  0 <= s < 65536 -> u16 (s - 2) = s - 2 \/ u16 (s - 2) = s + 65534.
Proof.
  intros Hs. unfold u16. destruct (Z.lt_ge_cases s 2).
  - right. rewrite <- (Z_mod_plus_full _ 1), Z.mod_small by lia. lia.
  - left. apply Z.mod_small. lia.
Qed.

(** Two words pushed one after the other never share a byte, also when SP
    wraps around in between. *)
Lemma stack_words_apart seg s i j :
  0 <= s < 65536 -> 0 <= i <= 1 -> 0 <= j <= 1 ->
  Z.land (seg + s + j) 0xFFFFF <> Z.land (seg + u16 (s - 2) + i) 0xFFFFF.
Proof.
  intros Hs Hi Hj. rewrite !land_20_mod. intros E.
  apply mod_eq_multiple in E as [k E]; [|lia].
  destruct (u16_minus_2 s Hs) as [H | H]; rewrite H in E; lia.
Qed.

Lemma bus_write_short_size b a v b' :
  bus_write_short b a v = Some b' -> memory_size b' = memory_size b.
Proof.
  unfold bus_write_short.
  destruct (mem_store b _ _) as [b1|] eqn:E1; [|discriminate].
  intros E2. rewrite (mem_store_size _ _ _ _ E2). exact (mem_store_size _ _ _ _ E1).
Qed.

Lemma bus_write_short_elsewhere b p v b' a :
  bus_write_short b p v = Some b' ->
  (forall i j, 0 <= i <= 1 -> 0 <= j <= 1 ->
     Z.land (a + j) 0xFFFFF <> Z.land (p + i) 0xFFFFF) ->
  bus_read_short b' a = bus_read_short b a.
Proof.
  unfold bus_write_short, bus_read_short. intros Hw Hne.
  destruct (mem_store b _ _) as [b1|] eqn:E1; [|discriminate].
  pose proof (Hne 0 0 ltac:(lia) ltac:(lia)) as H00.
  pose proof (Hne 0 1 ltac:(lia) ltac:(lia)) as H01.
  pose proof (Hne 1 0 ltac:(lia) ltac:(lia)) as H10.
  pose proof (Hne 1 1 ltac:(lia) ltac:(lia)) as H11.
  rewrite !Z.add_0_r in *.
  rewrite (mem_store_load_other _ _ _ _ _ Hw H10).
  rewrite (mem_store_load_other _ _ _ _ _ E1 H00).
  rewrite (mem_store_load_other _ _ _ _ _ Hw H11).
  rewrite (mem_store_load_other _ _ _ _ _ E1 H01).
  reflexivity.
Qed.

Lemma cpu8086_push_runs c x :
  covers_1MiB (bus c) ->
  exists b',
    bus_write_short (bus c) (Z.shiftl (ss c) 4 + u16 (sp c - 2)) (u16 x) = Some b'
    /\ cpu8086_push x c = Done tt (set_bus b' (set_reg16 SP (sp c - 2) c)).
Proof.
  intros Hb.
  set (c0 := set_reg16 SP (sp c - 2) c).
  assert (Hsp0 : sp c0 = u16 (sp c - 2)) by apply reg16_set_reg16_same.
  assert (Hss0 : ss c0 = ss c) by (apply reg16_set_reg16_other; discriminate).
  destruct (bus_write_short_read_short (bus c) (Z.shiftl (ss c) 4 + u16 (sp c - 2)) (u16 x))
    as (b' & Hw & _ & _); [exact Hb | apply u16_range |].
  exists b'. split; [exact Hw|].
  unfold cpu8086_push, bind, modify, gets, defined, ret, id. fold c0.
  rewrite Hsp0, Hss0. change (bus c0) with (bus c). rewrite Hw. reflexivity.
Qed.

Lemma cpu8086_pop_runs c w :
  bus_read_short (bus c) (Z.shiftl (ss c) 4 + sp c) = Some w ->
  cpu8086_pop c = Done w (set_reg16 SP (sp c + 2) c).
Proof.
  intros Hr. unfold cpu8086_pop, bind, modify, gets, defined, ret, id.
  rewrite Hr. reflexivity.
Qed.

(** X18. The stack is last in, first out: after pushing [x] and then [y],
    two pops return [y] and then [x] and leave SP and SS as they were, for
    every SS:SP, also when SP wraps around zero in between. *)
Theorem stack_last_in_first_out (c : cpu8086) (x y : Z) :
  0 <= x < 65536 -> 0 <= y < 65536 -> 0 <= sp c < 65536 -> covers_1MiB (bus c) ->
  exists c',
    (cpu8086_push x ;; cpu8086_push y ;;
     a <- cpu8086_pop ;; b <- cpu8086_pop ;; ret (a, b))%cpu c = Done (y, x) c'
    /\ sp c' = sp c
    /\ ss c' = ss c.
Proof.
  intros Hx Hy Hsp Hb.
  destruct (cpu8086_push_runs c x Hb) as (b1 & Hw1 & Hp1).
  set (c1 := set_bus b1 (set_reg16 SP (sp c - 2) c)) in *.
  assert (Hsp1 : sp c1 = u16 (sp c - 2)) by apply reg16_set_reg16_same.
  assert (Hss1 : ss c1 = ss c) by (apply reg16_set_reg16_other; discriminate).
  assert (Hb1 : covers_1MiB (bus c1)).
  { unfold covers_1MiB in *. change (bus c1) with b1.
    rewrite (bus_write_short_size _ _ _ _ Hw1). exact Hb. }
  destruct (cpu8086_push_runs c1 y Hb1) as (b2 & Hw2 & Hp2).
  set (c2 := set_bus b2 (set_reg16 SP (sp c1 - 2) c1)) in *.
  assert (Hsp2 : sp c2 = u16 (sp c1 - 2)) by apply reg16_set_reg16_same.
  assert (Hss2 : ss c2 = ss c) by (rewrite <- Hss1; apply reg16_set_reg16_other; discriminate).
  assert (Hr2 : bus_read_short (bus c2) (Z.shiftl (ss c2) 4 + sp c2) = Some y).
  { change (bus c2) with b2. rewrite Hss2, Hsp2, <- Hss1.
    destruct (bus_write_short_read_short (bus c1)
                (Z.shiftl (ss c1) 4 + u16 (sp c1 - 2)) y Hb1 Hy) as (b' & Hw & Hr & _).
    rewrite (u16_small y) in Hw2 by exact Hy. rewrite Hw in Hw2.
    injection Hw2 as <-. exact Hr. }
  set (c3 := set_reg16 SP (sp c2 + 2) c2).
  assert (Hsp3 : sp c3 = sp c1).
  { unfold c3, sp at 1. rewrite reg16_set_reg16_same, Hsp2. apply u16_push_pop.
    rewrite Hsp1. apply u16_range. }
  assert (Hss3 : ss c3 = ss c) by (rewrite <- Hss2; apply reg16_set_reg16_other; discriminate).
  assert (Hr3 : bus_read_short (bus c3) (Z.shiftl (ss c3) 4 + sp c3) = Some x).
  { change (bus c3) with b2. rewrite Hss3, Hsp3, Hsp1.
    rewrite (bus_write_short_elsewhere _ _ _ _ _ Hw2).
    - change (bus c1) with b1.
      destruct (bus_write_short_read_short (bus c)
                  (Z.shiftl (ss c) 4 + u16 (sp c - 2)) x Hb Hx) as (b' & Hw & Hr & _).
      rewrite (u16_small x) in Hw1 by exact Hx. rewrite Hw in Hw1.
      injection Hw1 as <-. exact Hr.
    - intros i j Hi Hj. rewrite Hss1, Hsp1.
      apply stack_words_apart; [apply u16_range | exact Hi | exact Hj]. }
  exists (set_reg16 SP (sp c3 + 2) c3).
  split.
  { unfold bind at 1. rewrite Hp1. unfold bind at 1. rewrite Hp2.
    unfold bind at 1. rewrite (cpu8086_pop_runs c2 y Hr2). fold c3.
    unfold bind at 1. rewrite (cpu8086_pop_runs c3 x Hr3). reflexivity. }
  split.
  { unfold sp at 1. rewrite reg16_set_reg16_same, Hsp3, Hsp1.
    apply u16_push_pop. exact Hsp. }
  rewrite <- Hss3. apply reg16_set_reg16_other. discriminate.
Qed.

Lemma stack_last_in_first_out_witness :
  exists c',
    (cpu8086_push 0x1234 ;; cpu8086_push 0xABCD ;;
     a <- cpu8086_pop ;; b <- cpu8086_pop ;; ret (a, b))%cpu
      (set_reg16 SP 2 far_call_scenario) = Done (0xABCD, 0x1234) c'
    /\ sp c' = sp (set_reg16 SP 2 far_call_scenario)
    /\ ss c' = ss (set_reg16 SP 2 far_call_scenario).
Proof.
  apply (stack_last_in_first_out (set_reg16 SP 2 far_call_scenario) 0x1234 0xABCD).
  - lia.
  - lia.
  - vm_compute. split; [discriminate | reflexivity].
  - vm_compute. discriminate.
Defined.

(** ** The prefetch queue is first in, first out *)

Lemma dequeue_low (d : cpu8086) (w : Z) :
  q_at d (q_r d) = Some w -> hl d = false ->
  cpu8086_prefetch_dequeue d
  = Done (Z.land w 0xFF) (set_current_ip (u16 (current_ip d + 1)) (set_hl true d)).
Proof.
  intros Hq Hh. unfold cpu8086_prefetch_dequeue, bind, gets, id, defined, ret.
  rewrite Hq, Hh. cbn [when of_bool negb]. unfold modify, ret.
  cbn [hl set_hl current_ip]. rewrite Hh.
  change (0 * 8) with 0. rewrite Z.shiftr_0_r. reflexivity.
Qed.

Lemma dequeue_high (d : cpu8086) (w : Z) :
  q_at d (q_r d) = Some w -> hl d = true ->
  cpu8086_prefetch_dequeue d
  = Done (Z.land (Z.shiftr w 8) 0xFF)
      (set_current_ip (u16 (current_ip d + 1))
         (set_hl false
            (set_mt ((q_r d + 1) mod 3 =? q_w d) (set_q_r ((q_r d + 1) mod 3) d)))).
Proof.
  intros Hq Hh. unfold cpu8086_prefetch_dequeue, bind, gets, id, defined, ret.
  rewrite Hq, Hh. cbn [when of_bool negb]. unfold modify, bind, ret.
  cbn [hl set_hl set_mt set_q_r current_ip q_r q_w]. rewrite Hh.
  reflexivity.
Qed.

Lemma bytes_of_word m0 m1 :
  0 <= m0 < 256 -> 0 <= m1 < 256 ->
  Z.land (u16 (Z.lor m0 (Z.shiftl m1 8))) 0xFF = m0
  /\ Z.land (Z.shiftr (u16 (Z.lor m0 (Z.shiftl m1 8))) 8) 0xFF = m1.
Proof.
  intros H0 H1.
  pose proof (forallb_below2
    (fun m0 m1 =>
       (Z.land (u16 (Z.lor m0 (Z.shiftl m1 8))) 0xFF =? m0)
       && (Z.land (Z.shiftr (u16 (Z.lor m0 (Z.shiftl m1 8))) 8) 0xFF =? m1))
    256 256 ltac:(vm_compute; reflexivity) m0 m1 H0 H1) as H.
  cbv beta in H. apply andb_true_iff in H as [Ha Hb].
  apply Z.eqb_eq in Ha. apply Z.eqb_eq in Hb. split; assumption.
Qed.

(** X19. The prefetch queue hands the code bytes over in memory order.
    From an empty queue with the countdown at zero and an even IP, one BIU
    step fetches the word at CS:IP, and the next two dequeues return the
    byte at CS:IP and then the byte at CS:IP + 1; the queue is empty again
    afterwards and [current_ip] has advanced by two. *)
Theorem prefetch_queue_first_in_first_out (c : cpu8086) :
  queue_empty c ->
  biu_prefetch_cycles c = 0 ->
  Z.odd (ip c) = false ->
  covers_1MiB (bus c) ->
  holds_bytes (bus c) ->
  exists c1 c2 c3 lo hi,
    clock_biu c = Done tt c1
    /\ cpu8086_prefetch_dequeue c1 = Done lo c2
    /\ cpu8086_prefetch_dequeue c2 = Done hi c3
    /\ bus_read_byte (bus c) (Z.shiftl (cs c) 4 + ip c) = Some lo
    /\ bus_read_byte (bus c) (Z.shiftl (cs c) 4 + ip c + 1) = Some hi
    /\ ip c1 = u16 (ip c + 2)
    /\ mt c3 = true /\ hl c3 = false /\ q_r c3 = q_w c3
    /\ current_ip c3 = u16 (u16 (current_ip c + 1) + 1).
Proof.
  intros (Hmt & Hhl & Hrw & Hw & Hlen) Hz Hodd Hb Hbytes.
  set (a := Z.shiftl (cs c) 4 + ip c).
  set (m0 := memory (bus c) (Z.land a 0xFFFFF)).
  set (m1 := memory (bus c) (Z.land (a + 1) 0xFFFFF)).
  set (w := u16 (Z.lor m0 (Z.shiftl m1 8))).
  assert (Hr0 : bus_read_byte (bus c) a = Some m0)
    by (unfold bus_read_byte; apply mem_load_ok; [exact Hb | apply land_20_range]).
  assert (Hr1 : bus_read_byte (bus c) (a + 1) = Some m1)
    by (unfold bus_read_byte; apply mem_load_ok; [exact Hb | apply land_20_range]).
  assert (Hrd : bus_read_short (bus c) a = Some w).
  { unfold bus_read_short.
    rewrite !mem_load_ok by (try exact Hb; apply land_20_range). reflexivity. }
  destruct (bytes_of_word m0 m1 (Hbytes _) (Hbytes _)) as [Hlo Hhi]. fold w in Hlo, Hhi.
  destruct (list_store_3 (q c) (q_w c) w Hlen Hw) as (l' & Hst & Hnth & Hlen').
  assert (Hqs : q_store c (q_w c) w = Some (set_q l' c)).
  { unfold q_store. replace (0 <=? q_w c) with true by cmp_true. rewrite Hst. reflexivity. }
  assert (Hnf : queue_not_full c = true) by (unfold queue_not_full; rewrite Hmt; reflexivity).
  pose proof (clock_biu_fetches c w l' Hnf Hz Hrd Hqs) as Hstep.
  unfold after_fetch in Hstep. rewrite Hodd in Hstep. cbv zeta in Hstep.
  set (c1 := set_biu_prefetch_cycles _ _) in Hstep.
  assert (Hq1 : q_at c1 (q_r c1) = Some w).
  { unfold q_at. change (q_r c1) with (q_r c). change (q c1) with l'.
    rewrite Hrw. replace (0 <=? q_w c) with true by cmp_true. exact Hnth. }
  assert (Hh1 : hl c1 = false) by exact Hhl.
  pose proof (dequeue_low c1 w Hq1 Hh1) as Hd1.
  set (c2 := set_current_ip _ (set_hl true c1)) in Hd1.
  assert (Hq2 : q_at c2 (q_r c2) = Some w) by exact Hq1.
  pose proof (dequeue_high c2 w Hq2 eq_refl) as Hd2.
  set (c3 := set_current_ip _ _) in Hd2.
  exists c1, c2, c3, m0, m1.
  rewrite <- Hlo at 1. rewrite <- Hhi at 1.
  split; [exact Hstep|]. split; [exact Hd1|]. split; [exact Hd2|].
  split; [exact Hr0|].
  split; [replace (Z.shiftl (cs c) 4 + ip c + 1) with (a + 1) by (unfold a; lia); exact Hr1|].
  split; [reflexivity|].
  split.
  { change (mt c3) with ((q_r c + 1) mod 3 =? (q_w c + 1) mod 3).
    rewrite Hrw. apply Z.eqb_refl. }
  split; [reflexivity|].
  split.
  { change (q_r c3) with ((q_r c + 1) mod 3). change (q_w c3) with ((q_w c + 1) mod 3).
    rewrite Hrw. reflexivity. }
  reflexivity.
Qed.

Lemma prefetch_queue_first_in_first_out_witness :
  exists c1 c2 c3 lo hi,
    clock_biu ready_to_fetch = Done tt c1
    /\ cpu8086_prefetch_dequeue c1 = Done lo c2
    /\ cpu8086_prefetch_dequeue c2 = Done hi c3
    /\ bus_read_byte (bus ready_to_fetch)
         (Z.shiftl (cs ready_to_fetch) 4 + ip ready_to_fetch) = Some lo
    /\ bus_read_byte (bus ready_to_fetch)
         (Z.shiftl (cs ready_to_fetch) 4 + ip ready_to_fetch + 1) = Some hi
    /\ ip c1 = u16 (ip ready_to_fetch + 2)
    /\ mt c3 = true /\ hl c3 = false /\ q_r c3 = q_w c3
    /\ current_ip c3 = u16 (u16 (current_ip ready_to_fetch + 1) + 1).
Proof.
  apply (prefetch_queue_first_in_first_out ready_to_fetch).
  - split; [reflexivity|]. split; [reflexivity|]. split; [reflexivity|].
    split; [vm_compute; split; [discriminate | reflexivity] | reflexivity].
  - reflexivity.
  - reflexivity.
  - vm_compute. discriminate.
  - intros a. apply Z.mod_pos_bound. lia.
Defined.

(** ** The master clock divider *)

Lemma bus_clock_three (c : cpu8086) :
  bus_run 3 0 c = (cpu8086_clock ;; ret 0)%cpu c.
Proof.
  unfold bus_run, bus_clock. cbn [Z.eqb when].
  unfold bind, ret. destruct (cpu8086_clock c) as [[] c'| | |]; reflexivity.
Qed.

Lemma bus_run_app (n m : nat) (k : Z) (c : cpu8086) :
  bus_run (n + m) k c = (k' <- bus_run n k ;; bus_run m k')%cpu c.
Proof.
  revert k c. induction n as [|n IH]; intros k c; cbn [bus_run Nat.add].
  - reflexivity.
  - unfold bind.
    destruct (bus_clock k c) as [k1 c1| | |]; [|reflexivity..].
    rewrite IH. reflexivity.
Qed.

(** X20. The master clock is divided by three: starting from the divider
    value 0 that [bus_new] leaves, [3 * n] calls of [bus_clock] clock the
    CPU exactly [n] times and bring the divider back to 0, although the
    remainder [(cpu_clock - 1) % 3] of C goes through -1 and -2 on the
    way. *)
Theorem bus_clock_divides_by_three (n : nat) (c : cpu8086) :
  bus_run (3 * n) 0 c = (run n ;; ret 0)%cpu c
  /\ bus_run 1 0 c = (cpu8086_clock ;; ret (-1))%cpu c
  /\ bus_run 1 (-1) c = Done (-2) c
  /\ bus_run 1 (-2) c = Done 0 c.
Proof.
  split; [|split; [|split]]; try reflexivity.
  - revert c. induction n as [|n IH]; intros c.
    + reflexivity.
    + replace (3 * S n)%nat with (3 + 3 * n)%nat by lia.
      rewrite bus_run_app. unfold bind at 1. rewrite bus_clock_three.
      cbn [run]. unfold bind, ret.
      destruct (cpu8086_clock c) as [[] c'| | |]; [|reflexivity..].
      rewrite IH. reflexivity.
  - unfold bus_run, bus_clock. cbn [Z.eqb when].
    unfold bind, ret. destruct (cpu8086_clock c) as [[] c'| | |]; reflexivity.
Qed.

(** ** Reset *)

Lemma biu_count_then_fetch (d : cpu8086) (w : Z) (l' : list Z) :
  queue_not_full d = true ->
  biu_prefetch_cycles d = 3 ->
  bus_read_short (bus d) (Z.shiftl (cs d) 4 + ip d) = Some w ->
  list_store (q d) (Z.to_nat (q_w d)) w = Some l' ->
  0 <= q_w d ->
  biu_only 4 d = Done tt (after_fetch (set_biu_prefetch_cycles 0 d) l').
Proof.
  intros Hnf Hcount Hrd Hst Hw.
  unfold biu_only. unfold bind at 1.
  rewrite clock_biu_counts by (try exact Hnf; rewrite Hcount; reflexivity).
  rewrite Hcount. change (u8 (Z.rem (3 - 1) 4)) with 2.
  unfold bind at 1.
  rewrite clock_biu_counts by (try exact Hnf; reflexivity).
  change (biu_prefetch_cycles (set_biu_prefetch_cycles 2 d)) with 2.
  change (u8 (Z.rem (2 - 1) 4)) with 1.
  unfold bind at 1.
  rewrite clock_biu_counts by (try exact Hnf; reflexivity).
  change (biu_prefetch_cycles (set_biu_prefetch_cycles 1 (set_biu_prefetch_cycles 2 d)))
    with 1.
  change (u8 (Z.rem (1 - 1) 4)) with 0.
  change (set_biu_prefetch_cycles 0 (set_biu_prefetch_cycles 1 (set_biu_prefetch_cycles 2 d)))
    with (set_biu_prefetch_cycles 0 d).
  unfold bind at 1.
  rewrite (clock_biu_fetches (set_biu_prefetch_cycles 0 d) w l');
    [reflexivity | exact Hnf | reflexivity | exact Hrd |].
  unfold q_store. change (q_w (set_biu_prefetch_cycles 0 d)) with (q_w d).
  change (q (set_biu_prefetch_cycles 0 d)) with (q d).
  replace (0 <=? q_w d) with true by cmp_true. rewrite Hst. reflexivity.
Qed.

Lemma regs_reset c :
  regs (cpu8086_reset c)
  = regs (set_reg16 ES 0 (set_reg16 SS 0 (set_reg16 DS 0 (set_reg16 CS 0xFFFF c)))).
Proof. reflexivity. Qed.

Lemma reg16_regs c d r : regs c = regs d -> reg16 c r = reg16 d r.
Proof. unfold reg16. intros ->. reflexivity. Qed.

Lemma reset_segments c :
  cs (cpu8086_reset c) = 0xFFFF /\ ds (cpu8086_reset c) = 0
  /\ ss (cpu8086_reset c) = 0 /\ es (cpu8086_reset c) = 0.
Proof.
  unfold cs, ds, ss, es. rewrite !(reg16_regs _ _ _ (regs_reset c)).
  split; [|split; [|split]].
  - rewrite !reg16_set_reg16_other by discriminate. apply reg16_set_reg16_same.
  - rewrite !reg16_set_reg16_other by discriminate. apply reg16_set_reg16_same.
  - rewrite !reg16_set_reg16_other by discriminate. apply reg16_set_reg16_same.
  - apply reg16_set_reg16_same.
Qed.

Lemma reset_general_registers c r :
  0 <= r < 8 -> reg16 (cpu8086_reset c) r = reg16 c r.
Proof.
  intros Hr. rewrite (reg16_regs _ _ _ (regs_reset c)).
  unfold ES, SS, DS, CS. rewrite !reg16_set_reg16_other by lia. reflexivity.
Qed.

(** X21. Reset from any state: CS:IP is FFFF:0000, FLAGS and DS, SS, ES
    are zero, the eight general registers keep their values, and the
    fourth BIU step after the reset fetches the word at physical 0xFFFF0
    into the queue.  The write index of the queue is not reset: the word
    goes to the slot it pointed to before. *)
Theorem reset_then_first_fetch (c : cpu8086) :
  covers_1MiB (bus c) -> List.length (q c) = 3%nat -> 0 <= q_w c < 3 ->
  exists w c',
    bus_read_short (bus c) 0xFFFF0 = Some w
    /\ flags (cpu8086_reset c) = 0
    /\ cs (cpu8086_reset c) = 0xFFFF /\ ip (cpu8086_reset c) = 0
    /\ ds (cpu8086_reset c) = 0 /\ ss (cpu8086_reset c) = 0 /\ es (cpu8086_reset c) = 0
    /\ (forall r, 0 <= r < 8 -> reg16 (cpu8086_reset c) r = reg16 c r)
    /\ q_w (cpu8086_reset c) = q_w c
    /\ biu_only 4 (cpu8086_reset c) = Done tt c'
    /\ nth_error (q c') (Z.to_nat (q_w c)) = Some w
    /\ ip c' = 2.
Proof.
  intros Hb Hlen Hw.
  destruct (reset_segments c) as (Hcs & Hds & Hss & Hes).
  assert (Hrd : exists w, bus_read_short (bus c) 0xFFFF0 = Some w).
  { unfold bus_read_short.
    rewrite !mem_load_ok by (try exact Hb; apply land_20_range). eexists. reflexivity. }
  destruct Hrd as (w & Hrd).
  destruct (list_store_3 (q c) (q_w c) w Hlen Hw) as (l' & Hst & Hnth & Hlen').
  exists w, (after_fetch (set_biu_prefetch_cycles 0 (cpu8086_reset c)) l').
  split; [exact Hrd|]. split; [reflexivity|]. split; [exact Hcs|].
  split; [reflexivity|]. split; [exact Hds|]. split; [exact Hss|]. split; [exact Hes|].
  split; [intros r Hr; apply reset_general_registers; exact Hr|].
  split; [reflexivity|].
  split.
  { generalize Hcs. generalize (eq_refl : ip (cpu8086_reset c) = 0).
    generalize (eq_refl : bus (cpu8086_reset c) = bus c).
    generalize (eq_refl : q (cpu8086_reset c) = q c).
    generalize (eq_refl : q_w (cpu8086_reset c) = q_w c).
    generalize (eq_refl : queue_not_full (cpu8086_reset c) = true).
    generalize (eq_refl : biu_prefetch_cycles (cpu8086_reset c) = 3).
    generalize (cpu8086_reset c) as d.
    intros d Hcount Hnf Hqw Hq Hbus Hip Hcsd.
    apply (biu_count_then_fetch d w l'); try assumption.
    - rewrite Hbus, Hcsd, Hip. exact Hrd.
    - rewrite Hq, Hqw. exact Hst.
    - rewrite Hqw. lia. }
  split.
  { unfold after_fetch.
    destruct (Z.odd _); exact Hnth. }
  reflexivity.
Qed.

Lemma reset_then_first_fetch_witness :
  exists w c',
    bus_read_short (bus (set_q_w 2 (set_reg16 AX 0x1234 far_call_scenario))) 0xFFFF0 = Some w
    /\ flags (cpu8086_reset (set_q_w 2 (set_reg16 AX 0x1234 far_call_scenario))) = 0
    /\ cs (cpu8086_reset (set_q_w 2 (set_reg16 AX 0x1234 far_call_scenario))) = 0xFFFF
    /\ ip (cpu8086_reset (set_q_w 2 (set_reg16 AX 0x1234 far_call_scenario))) = 0
    /\ ds (cpu8086_reset (set_q_w 2 (set_reg16 AX 0x1234 far_call_scenario))) = 0
    /\ ss (cpu8086_reset (set_q_w 2 (set_reg16 AX 0x1234 far_call_scenario))) = 0
    /\ es (cpu8086_reset (set_q_w 2 (set_reg16 AX 0x1234 far_call_scenario))) = 0
    /\ (forall r, 0 <= r < 8 ->
        reg16 (cpu8086_reset (set_q_w 2 (set_reg16 AX 0x1234 far_call_scenario))) r
        = reg16 (set_q_w 2 (set_reg16 AX 0x1234 far_call_scenario)) r)
    /\ q_w (cpu8086_reset (set_q_w 2 (set_reg16 AX 0x1234 far_call_scenario)))
       = q_w (set_q_w 2 (set_reg16 AX 0x1234 far_call_scenario))
    /\ biu_only 4 (cpu8086_reset (set_q_w 2 (set_reg16 AX 0x1234 far_call_scenario)))
       = Done tt c'
    /\ nth_error (q c')
         (Z.to_nat (q_w (set_q_w 2 (set_reg16 AX 0x1234 far_call_scenario)))) = Some w
    /\ ip c' = 2.
Proof.
  apply (reset_then_first_fetch (set_q_w 2 (set_reg16 AX 0x1234 far_call_scenario))).
  - vm_compute. discriminate.
  - reflexivity.
  - vm_compute. split; [discriminate | reflexivity].
Defined.

(** ** Operand locations: write, then read *)

Lemma current_is_word_again c d w :
  opcode_byte d = opcode_byte c ->
  current_is_word c = Done w c -> current_is_word d = Done w d.
Proof.
  unfold current_is_word, defined, undefined, gets, id, ret, bind. intros ->.
  destruct (op_table_at _); [|discriminate].
  intros H. injection H as ->. reflexivity.
Qed.

Lemma u8_low_byte x : u8 (Z.land x 0xFF) = Z.land x 0xFF.
Proof. unfold u8. apply Z.mod_small. apply low_byte_range. Qed.

Lemma u8_u16 x : u8 (u16 x) = x mod 256.
Proof.
  unfold u8, u16. change 65536 with (256 * 256).
  rewrite Z.rem_mul_r by lia.
  rewrite (Z.mul_comm 256), Z_mod_plus_full, Z.mod_mod by lia. reflexivity.
Qed.

Lemma in_register_block off :
  0 <= off < 24 -> (0 <=? off) && (off <? 2 * REGISTER_COUNT) = true.
Proof.
  intros H. unfold REGISTER_COUNT.
  replace (0 <=? off) with true by cmp_true.
  replace (off <? 2 * 12) with true by cmp_true. reflexivity.
Qed.

Lemma register_byte_round_trip off x c :
  0 <= off < 24 ->
  host_write_byte (RegPtr off) x c = Some (set_reg8 off x c)
  /\ host_read_byte (set_reg8 off x c) (RegPtr off) = Some (u8 x).
Proof.
  intros H. unfold host_write_byte, host_read_byte.
  rewrite in_register_block by exact H.
  unfold set_reg8. cbn [regs set_regs]. rewrite Z.eqb_refl. split; reflexivity.
Qed.

Lemma register_word_round_trip off v c :
  0 <= off -> off + 1 < 24 ->
  exists c',
    host_write_word (RegPtr off) v c = Some c'
    /\ host_read_word c' (RegPtr off) = Some (u16 v)
    /\ opcode_byte c' = opcode_byte c.
Proof.
  intros H0 H1. unfold host_write_word, host_read_word, host_write_byte, host_read_byte.
  cbn [uintptr_add].
  rewrite !in_register_block by lia.
  eexists. split; [reflexivity|]. split; [|reflexivity].
  unfold set_reg8. cbn [regs set_regs].
  rewrite !Z.eqb_refl.
  replace (off =? off + 1) with false by cmp_false.
  rewrite u8_low_byte. f_equal. apply recompose16. apply u16_range.
Qed.

(** X22. What is written to an operand location is what is read back from
    it, cut to the width of the current opcode: for a location in memory
    (any address, the bus masks it) and for a location in the register
    block. *)
Theorem loc_write_then_read (loc : location) (v : Z) (w : bool) (c : cpu8086) :
  current_is_word c = Done w c ->
  (virtual loc = true /\ (exists a, address loc = Num a) /\ covers_1MiB (bus c))
  \/ (virtual loc = false
      /\ exists off, address loc = RegPtr off /\ 0 <= off
                     /\ off + (if w then 1 else 0) < 24) ->
  exists c1 c2,
    loc_write loc v c = Done tt c1
    /\ loc_read loc c1 = Done (v mod 2 ^ (sign_bit w + 1)) c2.
Proof.
  intros Hw Hloc.
  assert (Hv : v mod 2 ^ (sign_bit w + 1) = if w then u16 v else u8 (u16 v)).
  { destruct w; cbn [sign_bit]; [reflexivity | symmetry; apply u8_u16]. }
  rewrite Hv. clear Hv.
  unfold loc_write, loc_read. unfold bind at 1. rewrite Hw.
  destruct Hloc as [(Hvirt & (a & Ha) & Hb) | (Hvirt & off & Ha & H0 & H1)].
  - destruct w.
    + (* a word in memory *)
      destruct (bus_write_short_read_short (bus c) a (u16 v) Hb (u16_range v))
        as (b' & Hwr & Hrd & _).
      unfold loc_write_word, loc_read_word. rewrite Hvirt, Ha. cbn [number_of defined].
      set (tick := when (to_bool (Z.land a 1))
                     (modify (fun c0 => set_cycles (u8 (cycles c0 + 4)) c0))).
      assert (Htick : forall d, exists d',
                tick d = Done tt d' /\ bus d' = bus d /\ opcode_byte d' = opcode_byte d).
      { intros d. unfold tick, when. destruct (to_bool _).
        - eexists. split; [reflexivity|]. split; reflexivity.
        - eexists. split; [reflexivity|]. split; reflexivity. }
      destruct (Htick c) as (d1 & Ht1 & Hb1 & Ho1).
      set (c1 := set_bus b' d1).
      assert (Hw1 : current_is_word c1 = Done true c1)
        by (apply (current_is_word_again c); [exact Ho1 | exact Hw]).
      destruct (Htick c1) as (d2 & Ht2 & Hb2 & Ho2).
      exists c1, d2. split.
      * unfold bind, ret, gets, id. fold tick. rewrite Ht1. unfold defined, ret.
        rewrite Hb1. rewrite (u16_small (u16 v)) by apply u16_range.
        rewrite Hwr. reflexivity.
      * unfold bind at 1. rewrite Hw1.
        unfold bind, ret, gets, id. fold tick. rewrite Ht2. rewrite Hb2.
        change (bus c1) with b'. rewrite Hrd. reflexivity.
    + (* a byte in memory *)
      destruct (bus_write_byte_read_byte (bus c) a (u8 (u16 v)) 0 Hb)
        as (b' & Hwr & Hrd & _).
      rewrite Z.add_0_r in Hrd.
      assert (E : u8 (u8 (u16 v)) = u8 (u16 v))
        by (unfold u8; apply Z.mod_mod; lia).
      rewrite E in Hrd.
      unfold loc_write_byte, loc_read_byte. rewrite Hvirt, Ha. cbn [number_of defined].
      set (c1 := set_bus b' c).
      assert (Hw1 : current_is_word c1 = Done false c1)
        by (apply (current_is_word_again c); [reflexivity | exact Hw]).
      exists c1, c1. split.
      * unfold bind, ret, gets, id, defined. rewrite Hwr. reflexivity.
      * unfold bind at 1. rewrite Hw1.
        unfold bind, ret, gets, id, defined. change (bus c1) with b'.
        rewrite Hrd. reflexivity.
  - destruct w.
    + (* a word in the register block *)
      destruct (register_word_round_trip off (u16 (u16 v)) c H0 H1)
        as (c1 & Hwr & Hrd & Ho).
      rewrite !(u16_small (u16 _)) in Hrd by apply u16_range.
      assert (Hw1 : current_is_word c1 = Done true c1)
        by (apply (current_is_word_again c); [exact Ho | exact Hw]).
      unfold loc_write_word, loc_read_word. rewrite Hvirt, Ha.
      exists c1, c1. split.
      * unfold bind, ret, gets, id, defined, modify. rewrite Hwr. reflexivity.
      * unfold bind at 1. rewrite Hw1.
        unfold bind, ret, gets, id, defined. rewrite Hrd. reflexivity.
    + (* a byte in the register block *)
      destruct (register_byte_round_trip off (u8 (u16 v)) c ltac:(lia)) as (Hwr & Hrd).
      assert (E : u8 (u8 (u16 v)) = u8 (u16 v))
        by (unfold u8; apply Z.mod_mod; lia).
      rewrite E in Hrd.
      set (c1 := set_reg8 off (u8 (u16 v)) c) in *.
      assert (Hw1 : current_is_word c1 = Done false c1)
        by (apply (current_is_word_again c); [reflexivity | exact Hw]).
      unfold loc_write_byte, loc_read_byte. rewrite Hvirt, Ha.
      exists c1, c1. split.
      * unfold bind, ret, gets, id, defined, modify. rewrite Hwr. reflexivity.
      * unfold bind at 1. rewrite Hw1.
        unfold bind, ret, gets, id, defined. rewrite Hrd. reflexivity.
Qed.

Lemma loc_write_then_read_witness :
  exists c1 c2,
    loc_write (mkloc DECODED_MEMORY (Num 0xFFFFF) true) 0x1BEEF
      (set_opcode_byte 0x89 far_call_scenario) = Done tt c1
    /\ loc_read (mkloc DECODED_MEMORY (Num 0xFFFFF) true) c1
       = Done (0x1BEEF mod 2 ^ (sign_bit true + 1)) c2.
Proof.
  apply (loc_write_then_read (mkloc DECODED_MEMORY (Num 0xFFFFF) true) 0x1BEEF true
           (set_opcode_byte 0x89 far_call_scenario)).
  - vm_compute. reflexivity.
  - left. split; [reflexivity|]. split; [exists 0xFFFFF; reflexivity|].
    vm_compute. discriminate.
Defined.

(** ** Register pointers *)

(** X23. [cpu8086_reg_word] of a register number 0..11 points at that
    register: reading through the pointer gives the value of the register, and
    writing through it is the assignment to the register, byte for byte. *)
Theorem cpu8086_reg_word_points_at_register (c : cpu8086) (r v : Z) :
  0 <= r < 12 ->
  exists c',
    cpu8086_reg_word r c = Done (RegPtr (2 * r)) c
    /\ host_read_word c (RegPtr (2 * r)) = Some (reg16 c r)
    /\ host_write_word (RegPtr (2 * r)) v c = Some c'
    /\ (forall j, regs c' j = regs (set_reg16 r v c) j)
    /\ reg16 c' r = u16 v.
Proof.
  intros Hr.
  assert (Hptr : cpu8086_reg_word r c = Done (RegPtr (2 * r)) c).
  { unfold cpu8086_reg_word, c_assert, bind, ret, u32, REGISTER_COUNT.
    rewrite Z.mod_small by lia.
    replace (r <? Z.shiftl 1 12) with true by (change (Z.shiftl 1 12) with 4096; cmp_true).
    reflexivity. }
  assert (Hrd : host_read_word c (RegPtr (2 * r)) = Some (reg16 c r)).
  { unfold host_read_word, host_read_byte. cbn [uintptr_add].
    rewrite !in_register_block by lia. reflexivity. }
  assert (Hwr : host_write_word (RegPtr (2 * r)) v c
                = Some (set_reg8 (2 * r + 1) (Z.shiftr (u16 v) 8)
                          (set_reg8 (2 * r) (Z.land (u16 v) 0xFF) c))).
  { unfold host_write_word, host_write_byte. cbn [uintptr_add].
    rewrite !in_register_block by lia. reflexivity. }
  assert (Hregs : forall j,
            regs (set_reg8 (2 * r + 1) (Z.shiftr (u16 v) 8)
                    (set_reg8 (2 * r) (Z.land (u16 v) 0xFF) c)) j
            = regs (set_reg16 r v c) j).
  { intros j. unfold set_reg8, set_reg16. cbn [regs set_regs].
    rewrite u8_low_byte.
    assert (Hhi : u8 (Z.shiftr (u16 v) 8) = Z.shiftr (u16 v) 8).
    { unfold u8. apply Z.mod_small. rewrite Z.shiftr_div_pow2 by lia.
      pose proof (u16_range v). change (2 ^ 8) with 256.
      split; [apply Z.div_pos | apply Z.div_lt_upper_bound]; lia. }
    rewrite Hhi.
    destruct (Z.eqb_spec j (2 * r + 1)) as [->|]; [|reflexivity].
    replace (2 * r + 1 =? 2 * r) with false by cmp_false. reflexivity. }
  eexists. split; [exact Hptr|]. split; [exact Hrd|]. split; [exact Hwr|].
  split; [exact Hregs|].
  unfold reg16. rewrite !Hregs. apply reg16_set_reg16_same.
Qed.

Lemma cpu8086_reg_word_points_at_register_witness :
  exists c',
    cpu8086_reg_word 9 far_call_scenario = Done (RegPtr (2 * 9)) far_call_scenario
    /\ host_read_word far_call_scenario (RegPtr (2 * 9)) = Some (reg16 far_call_scenario 9)
    /\ host_write_word (RegPtr (2 * 9)) 0x1234 far_call_scenario = Some c'
    /\ (forall j, regs c' j = regs (set_reg16 9 0x1234 far_call_scenario) j)
    /\ reg16 c' 9 = u16 0x1234.
Proof. apply (cpu8086_reg_word_points_at_register far_call_scenario 9 0x1234). lia. Defined.

(** X24. A segment-override prefix byte selects its own segment register:
    for the bytes 0x26, 0x2E, 0x36 and 0x3E the expression
    [ES + (prefix_g2 - PREFIX_G2_ES) / 8] of the decoder is the number of
    ES, CS, SS and DS, and the pointer taken for it reads that register. *)
Theorem segment_override_selects_segment (c : cpu8086) (k : Z) :
  0 <= k < 4 ->
  prefix_g2 c = 0x26 + 8 * k ->
  g2_segment c = ES + k
  /\ g2_segment c
     = nth (Z.to_nat k) [ES; CS; SS; DS] 0
  /\ cpu8086_reg_word (g2_segment c) c = Done (RegPtr (2 * (ES + k))) c
  /\ host_read_word c (RegPtr (2 * (ES + k))) = Some (reg16 c (ES + k)).
Proof.
  intros Hk Hp.
  assert (Hg : g2_segment c = ES + k).
  { unfold g2_segment, PREFIX_G2_ES, ES, u32. rewrite Hp.
    replace (38 + 8 * k - 38) with (k * 8) by lia.
    rewrite Z.quot_mul by lia. apply Z.mod_small. lia. }
  split; [exact Hg|].
  split.
  { rewrite Hg. assert (Hc : k = 0 \/ k = 1 \/ k = 2 \/ k = 3) by lia.
    destruct Hc as [-> | [-> | [-> | ->]]]; reflexivity. }
  rewrite Hg.
  split.
  - unfold cpu8086_reg_word, c_assert, bind, ret, u32, REGISTER_COUNT, ES.
    rewrite Z.mod_small by lia.
    replace (8 + k <? Z.shiftl 1 12) with true
      by (change (Z.shiftl 1 12) with 4096; cmp_true).
    reflexivity.
  - unfold host_read_word, host_read_byte, ES. cbn [uintptr_add].
    rewrite !in_register_block by lia. reflexivity.
Qed.

Lemma segment_override_selects_segment_witness :
  g2_segment (set_prefix_g2 0x36 far_call_scenario) = ES + 2
  /\ g2_segment (set_prefix_g2 0x36 far_call_scenario)
     = nth (Z.to_nat 2) [ES; CS; SS; DS] 0
  /\ cpu8086_reg_word (g2_segment (set_prefix_g2 0x36 far_call_scenario))
       (set_prefix_g2 0x36 far_call_scenario)
     = Done (RegPtr (2 * (ES + 2))) (set_prefix_g2 0x36 far_call_scenario)
  /\ host_read_word (set_prefix_g2 0x36 far_call_scenario) (RegPtr (2 * (ES + 2)))
     = Some (reg16 (set_prefix_g2 0x36 far_call_scenario) (ES + 2)).
Proof.
  apply (segment_override_selects_segment (set_prefix_g2 0x36 far_call_scenario) 2).
  - lia.
  - reflexivity.
Defined.
